(** * poiesis-mcp: a shallow embedding of the TES client, its data model,
      the task monitor and the tool facades.

    Python values are modelled as follows.
    - [str] is [string]; a string is read as the UTF-8 bytes of the text, so
      that tests against ASCII literals ([endswith("Z")], [startswith("/")],
      [split("/")]) agree with Python's.
    - [int] is [Z]; [//] is [Z.div] (both round towards minus infinity).
    - [float] is [pyfloat]: every IEEE double is a rational, an infinity or
      NaN, and Python compares a float with an int exactly, so comparisons
      are those of the rationals, with NaN unordered.  A division gives
      the double nearest to the quotient of the rationals, ties to even
      ([nearest_double]), kept in lowest terms, so that equal floats are
      equal terms.
    - an exception is a value of [exn]; code that may raise lives in the
      monad [M], which also records the calls of [session.get] and
      [session.post].
    - logging is not modelled. *)

From Stdlib Require Import ZArith QArith Qround Qabs List String Ascii Bool Lia.
From Stdlib Require Import Lqa.
From Stdlib Require Import DecimalString.
Import ListNotations.
Set Warnings "-register-all".
Local Open Scope string_scope.
Local Open Scope Z_scope.

(* ===================================================================== *)
(** ** Python floats *)

Module PyFloat.

Inductive pyfloat : Type :=
| Fin (q : Q)
| PosInf
| NegInf
| NaN.

Definition Qltb (a b : Q) : bool :=
  (Qnum a * QDen b <? Qnum b * QDen a)%Z.

Definition Qleb (a b : Q) : bool :=
  (Qnum a * QDen b <=? Qnum b * QDen a)%Z.

(** [x < y] *)
Definition ltb (x y : pyfloat) : bool :=
  match x, y with
  | NaN, _ | _, NaN => false
  | Fin a, Fin b => Qltb a b
  | NegInf, NegInf => false
  | NegInf, _ => true
  | _, NegInf => false
  | PosInf, _ => false
  | Fin _, PosInf => true
  end.

(** [x <= y] *)
Definition leb (x y : pyfloat) : bool :=
  match x, y with
  | NaN, _ | _, NaN => false
  | Fin a, Fin b => Qleb a b
  | NegInf, _ => true
  | _, NegInf => false
  | _, PosInf => true
  | PosInf, Fin _ => false
  end.

(** [x >= y] *)
Definition geb (x y : pyfloat) : bool := leb y x.

(** An [int] operand of a comparison with a [float]. *)
Definition of_int (n : Z) : pyfloat := Fin (inject_Z n).

Definition zero : pyfloat := Fin 0.

Definition lt (x y : pyfloat) : Prop := ltb x y = true.
Definition le (x y : pyfloat) : Prop := leb x y = true.
Definition ge (x y : pyfloat) : Prop := geb x y = true.

(** The non-negative floats: the finite ones that are [>= 0], and
    [+inf].  NaN is not one of them. *)
Definition nonneg (x : pyfloat) : Prop := le zero x.

(** Round half to even, on the rationals. *)
Definition round_half_even (q : Q) : Z :=
  let f := Qfloor q in
  let r := (q - inject_Z f)%Q in
  if Qltb r (1 # 2) then f
  else if Qltb (1 # 2) r then f + 1
  else if Z.even f then f else f + 1.

(** The double nearest to a rational, ties to even: what a correctly
    rounded operation returns for an exact result [q].  A double is
    [m * 2^e] with [|m| < 2^53] and [e >= -1074]; [scaled_exponent] is
    [e + 1074] for the quotient [a / d], chosen so that
    [2^52 <= (a / d) / 2^e < 2^53], or 0 where that would go below the
    least exponent.  There is no bound on the exponent above: what is
    rounded here comes from the microseconds between two datetimes, which
    are below [2^63], far from [2^1024]. *)
Definition scaled_exponent (a d : Z) : Z :=
  let E0 := Z.log2 a - Z.log2 d + 1022 in
  if E0 <=? 0 then 0
  else if a * 2 ^ 1074 <? 2 ^ 52 * d * 2 ^ E0 then E0 - 1 else E0.

Definition nearest_double (q : Q) : Q :=
  let n := Qnum q in
  let d := QDen q in
  if n =? 0 then 0%Q
  else
    let a := Z.abs n in
    let E := scaled_exponent a d in
    let m := round_half_even (a * 2 ^ 1074 # Z.to_pos (d * 2 ^ E)) in
    Qred ((Z.sgn n * m * 2 ^ E) # (2 ^ 1074)%positive).

(** [round(x, 1)]: the double nearest to the multiple of 1/10 that is
    nearest to the value of [x], ties to even. *)
Definition round1 (x : pyfloat) : pyfloat :=
  match x with
  | Fin q =>
      Fin (nearest_double
             (inject_Z (round_half_even (q * inject_Z 10)) / inject_Z 10))
  | other => other
  end.

(** [x / y] for a non-zero finite [y]; used with [y = 60.0] only. *)
Definition div_pos (x : pyfloat) (y : Q) : pyfloat :=
  match x with
  | Fin q => Fin (nearest_double (q / y))
  | other => other
  end.

(** [a / b] for two [int]s, [b] positive: the quotient correctly
    rounded. *)
Definition int_truediv (a b : Z) : pyfloat :=
  Fin (nearest_double (inject_Z a / inject_Z b)).

End PyFloat.
Import PyFloat.

(* ===================================================================== *)
(** ** Strings *)

(** [s in (a, b, ...)]: membership by [==]. *)
Definition str_in (s : string) (l : list string) : bool :=
  existsb (String.eqb s) l.

(** [s.startswith(p)]. *)
Fixpoint startswith (p s : string) : bool :=
  match p, s with
  | EmptyString, _ => true
  | String a p', String b s' => Ascii.eqb a b && startswith p' s'
  | String _ _, EmptyString => false
  end.

(** [s.endswith(c)] for a one-character [c]. *)
Fixpoint endswith_char (c : ascii) (s : string) : bool :=
  match s with
  | EmptyString => false
  | String a EmptyString => Ascii.eqb a c
  | String _ s' => endswith_char c s'
  end.

(** [s[:-1]]. *)
Fixpoint drop_last (s : string) : string :=
  match s with
  | EmptyString => EmptyString
  | String _ EmptyString => EmptyString
  | String a s' => String a (drop_last s')
  end.

(** [s.rstrip(c)] for a one-character [c]. *)
Fixpoint rstrip_char (c : ascii) (s : string) : string :=
  match s with
  | EmptyString => EmptyString
  | String a s' =>
      match rstrip_char c s' with
      | EmptyString =>
          if Ascii.eqb a c then EmptyString else String a EmptyString
      | r => String a r
      end
  end.

(** [s.split(c)] for a one-character separator [c]. *)
Fixpoint split_char (c : ascii) (s : string) : list string :=
  match s with
  | EmptyString => [EmptyString]
  | String a s' =>
      if Ascii.eqb a c then EmptyString :: split_char c s'
      else match split_char c s' with
           | [] => [String a EmptyString]
           | h :: t => String a h :: t
           end
  end.

(** [sep.join(l)]. *)
Definition join (sep : string) (l : list string) : string :=
  String.concat sep l.

(** [str(n)] for an [int]. *)
Definition str_of_int (n : Z) : string :=
  DecimalString.NilZero.string_of_int (Z.to_int n).

(** Python truthiness of a [str | None]: [None] and the empty string are
    falsy. *)
Definition truthy (s : option string) : bool :=
  match s with
  | None => false
  | Some EmptyString => false
  | Some _ => true
  end.

(** [x or d] for an optional string [x]. *)
Definition str_or (x : option string) (d : string) : string :=
  match x with
  | Some (String a s) => String a s
  | _ => d
  end.

(** [format(x, ".1f")]. *)
Definition format_1f (x : pyfloat) : string :=
  match x with
  | NaN => "nan"
  | PosInf => "inf"
  | NegInf => "-inf"
  | Fin q =>
      let t := round_half_even (Qabs q * inject_Z 10) in
      (if Qltb q 0 then "-" else EmptyString)
        ++ str_of_int (t / 10) ++ "." ++ str_of_int (t mod 10)
  end.

(* ===================================================================== *)
(** ** The POSIX path functions the data model calls

    [os.path.normpath], [pathlib.Path(...).parts], [str(Path(...))] and
    [Path(...).absolute()], after CPython's [posixpath] and [pathlib]. *)

Module PosixPath.

(** The leading slashes that a path keeps: POSIX gives a meaning of its
    own to exactly two. *)
Definition initial_slashes (path : string) : nat :=
  if startswith "/" path then
    if startswith "//" path && negb (startswith "///" path) then 2%nat
    else 1%nat
  else 0%nat.

(** One turn of the loop of [normpath]; [new_comps] is kept with its
    last element first. *)
Definition norm_step (initial : nat) (new_comps : list string)
    (comp : string) : list string :=
  if str_in comp [EmptyString; "."] then new_comps
  else if negb (String.eqb comp "..")
          || (Nat.eqb initial 0
              && match new_comps with [] => true | _ => false end)
          || match new_comps with
             | last :: _ => String.eqb last ".."
             | [] => false
             end
  then comp :: new_comps
  else match new_comps with
       | [] => []
       | _ :: rest => rest
       end.

Definition slashes (n : nat) : string :=
  String.concat EmptyString (repeat "/" n).

(** [os.path.normpath(path)]. *)
Definition normpath (path : string) : string :=
  match path with
  | EmptyString => "."
  | _ =>
      let initial := initial_slashes path in
      let new_comps :=
        rev (fold_left (norm_step initial) (split_char "/" path) []) in
      match slashes initial ++ join "/" new_comps with
      | EmptyString => "."
      | p => p
      end
  end.

(** [p[n:]] *)
Fixpoint skip (n : nat) (p : string) : string :=
  match n, p with
  | S n', String _ p' => skip n' p'
  | _, _ => p
  end.

(** [posixpath.splitroot], without the drive, which is always empty: the
    root and the rest. *)
Definition splitroot (p : string) : string * string :=
  if negb (startswith "/" p) then (EmptyString, p)
  else if negb (startswith "//" p) || startswith "///" p then ("/", skip 1 p)
  else ("//", skip 2 p).

(** The components after the root: [rel.split("/")] without the empty ones
    and the dots. *)
Definition tail (p : string) : list string :=
  filter (fun x => negb (str_in x [EmptyString; "."]))
    (split_char "/" (snd (splitroot p))).

(** [Path(p).parts]. *)
Definition parts (p : string) : list string :=
  match fst (splitroot p) with
  | EmptyString => tail p
  | root => root :: tail p
  end.

(** [str(Path(p))]. *)
Definition str (p : string) : string :=
  match fst (splitroot p) ++ join "/" (tail p) with
  | EmptyString => "."
  | s => s
  end.

(** [posixpath.join(a, b)]. *)
Definition path_join (a b : string) : string :=
  if startswith "/" b then b
  else match a with
       | EmptyString => b
       | _ => if endswith_char "/" a then a ++ b else a ++ "/" ++ b
       end.

(** [str(Path(p).absolute())], in the working directory [cwd]. *)
Definition absolute (cwd p : string) : string :=
  if startswith "/" p then str p else str (path_join cwd p).

End PosixPath.

(* ===================================================================== *)
(** ** Values, exceptions and the outside world *)

(** What [response.json()] returns and what [model_dump] produces: the
    Python image of a JSON document.  A [dict] keeps its insertion order. *)
Inductive pyvalue : Type :=
| PNone
| PBool (b : bool)
| PInt (n : Z)
| PFloat (x : pyfloat)
| PStr (s : string)
| PList (l : list pyvalue)
| PDict (d : list (string * pyvalue)).

(** [d.get(k)]. *)
Fixpoint dict_get {A : Type} (k : string) (d : list (string * A)) : option A :=
  match d with
  | [] => None
  | (k', v) :: rest => if String.eqb k' k then Some v else dict_get k rest
  end.

(** A [datetime]: the microseconds from the epoch to its wall-clock fields,
    and its UTC offset in microseconds when it is aware. *)
Record datetime : Type := {
  wall : Z;
  utcoffset : option Z
}.

(** The exception classes that some [except] clause of the program tells
    apart; [Exception_] stands for every other subclass of [Exception]. *)
Inductive exn_class : Type :=
| Exception_
| ValueError
| TypeError
| HTTPError
| ConnectionError
| Timeout
| TESClientError
| TESAuthenticationError
| TESTaskNotFoundError
| TESServerError.

Record exn : Type := {
  cls : exn_class;
  message : string  (* [str(e)] *)
}.

Definition exn_class_eqb (a b : exn_class) : bool :=
  match a, b with
  | Exception_, Exception_ | ValueError, ValueError | TypeError, TypeError
  | HTTPError, HTTPError | ConnectionError, ConnectionError
  | Timeout, Timeout | TESClientError, TESClientError
  | TESAuthenticationError, TESAuthenticationError
  | TESTaskNotFoundError, TESTaskNotFoundError
  | TESServerError, TESServerError => true
  | _, _ => false
  end.

(** [isinstance(e, c)]: the three TES errors derive from [TESClientError],
    and everything derives from [Exception]. *)
Definition isinstance (e : exn) (c : exn_class) : bool :=
  match c with
  | Exception_ => true
  | TESClientError =>
      match cls e with
      | TESClientError | TESAuthenticationError
      | TESTaskNotFoundError | TESServerError => true
      | _ => false
      end
  | _ => exn_class_eqb (cls e) c
  end.

Inductive http_method : Type := GET | POST.

Record Request : Type := {
  method : http_method;
  endpoint : string;
  headers : list (string * string);
  json_body : option pyvalue;
  timeout : Z
}.

Record Response : Type := {
  status_code : Z;
  reason : string;
  url : string;
  text : string;
  (** [response.json()]: the decoded body, or the text of the decoding error. *)
  json : string + pyvalue
}.

(** What [session.get] and [session.post] come back with, once the
    transport has done its retries. *)
Inductive Outcome : Type :=
| Responded (r : Response)
| Raised (e : exn).

(** Everything the program takes from outside: built-ins and library
    functions that are not modelled here, the process environment and the
    network. *)
Class World : Type := {
  (** [str.upper], [str.lower], [str.strip] *)
  upper : string -> string;
  lower : string -> string;
  strip : string -> string;
  (** [datetime.fromisoformat]; [None] is its [ValueError] *)
  fromisoformat : string -> option datetime;
  (** [datetime.now(UTC)], in microseconds from the epoch *)
  clock : Z;
  (** [datetime.now(UTC).strftime("%Y-%m-%dT%H:%M:%S%z")] *)
  now_strftime : string;
  (** [os.getcwd()] *)
  getcwd : string;
  (** [str(e)] of the [ValidationError] of a model, on an input *)
  validation_error_message : string -> pyvalue -> string;
  (** [str(e)] of the error of a serializer that reads [None.value] *)
  serialization_error_message : string;
  (** the remote service, seen through the session *)
  send : Request -> Outcome
}.

(** Code that may raise, and that may talk to the network: the result or the
    exception, and the requests issued, oldest first. *)
Definition M (A : Type) : Type := ((exn + A) * list Request)%type.

Definition ret {A : Type} (a : A) : M A := (inr a, []).

Definition raise {A : Type} (c : exn_class) (msg : string) : M A :=
  (inl {| cls := c; message := msg |}, []).

Definition reraise {A : Type} (e : exn) : M A := (inl e, []).

Definition bind {A B : Type} (m : M A) (f : A -> M B) : M B :=
  match m with
  | (inr a, log) => let (r, log') := f a in (r, (log ++ log')%list)
  | (inl e, log) => (inl e, log)
  end.

(** [try: m except ...: h]: [h] says what the clauses do with an exception
    raised by [m]. *)
Definition try_except {A : Type} (m : M A) (h : exn -> M A) : M A :=
  match m with
  | (inl e, log) => let (r, log') := h e in (r, (log ++ log')%list)
  | ok => ok
  end.

(** One request through the session. *)
Definition request {W : World} (r : Request) : M Response :=
  match send r with
  | Responded resp => (inr resp, [r])
  | Raised e => (inl e, [r])
  end.

Definition result {A : Type} (m : M A) : exn + A := fst m.
Definition requests {A : Type} (m : M A) : list Request := snd m.

Declare Scope py_scope.
Delimit Scope py_scope with py.
Notation "x <- m ;; k" := (bind m (fun x => k))
  (at level 61, m at next level, right associativity) : py_scope.
Notation "m ;;; k" := (bind m (fun _ => k))
  (at level 61, right associativity) : py_scope.

(* ===================================================================== *)
(** ** tes/models.py: enumerations *)

Module TesState.
Inductive t : Type :=
| UNKNOWN | QUEUED | INITIALIZING | RUNNING | PAUSED | COMPLETE
| EXECUTOR_ERROR | SYSTEM_ERROR | CANCELED | PREEMPTED | CANCELING.

Definition value (s : t) : string :=
  match s with
  | UNKNOWN => "UNKNOWN"
  | QUEUED => "QUEUED"
  | INITIALIZING => "INITIALIZING"
  | RUNNING => "RUNNING"
  | PAUSED => "PAUSED"
  | COMPLETE => "COMPLETE"
  | EXECUTOR_ERROR => "EXECUTOR_ERROR"
  | SYSTEM_ERROR => "SYSTEM_ERROR"
  | CANCELED => "CANCELED"
  | PREEMPTED => "PREEMPTED"
  | CANCELING => "CANCELING"
  end.

Definition all : list t :=
  [UNKNOWN; QUEUED; INITIALIZING; RUNNING; PAUSED; COMPLETE;
   EXECUTOR_ERROR; SYSTEM_ERROR; CANCELED; PREEMPTED; CANCELING].

(** [TesState(s)]: the member whose value is [s], if any. *)
Definition of_value (s : string) : option t :=
  find (fun m => String.eqb (value m) s) all.
End TesState.

Module TesView.
Inductive t : Type := BASIC | FULL | MINIMAL.

Definition value (v : t) : string :=
  match v with
  | BASIC => "BASIC"
  | FULL => "FULL"
  | MINIMAL => "MINIMAL"
  end.
End TesView.

Module TesFileType.
Inductive t : Type := FILE | DIRECTORY.

Definition value (v : t) : string :=
  match v with
  | FILE => "FILE"
  | DIRECTORY => "DIRECTORY"
  end.

Definition all : list t := [FILE; DIRECTORY].

Definition of_value (s : string) : option t :=
  find (fun m => String.eqb (value m) s) all.
End TesFileType.

(* ===================================================================== *)
(** ** tes/models.py: the models

    Each model is a record; [model_validate] is what pydantic derives from
    the field annotations and [model_dump] is [model_dump(exclude_none=True)],
    the form in which the program puts a model on the wire.  An [option]
    field is one annotated [... | None]. *)

(** The validators pydantic derives from the annotations.  [None] is a
    [ValidationError].  A field takes the JSON type of its annotation (and a
    [float] field also an int); what lax mode would convert from another
    type is not accepted here.  Keys that a model does not declare are
    ignored. *)
Declare Scope option_scope.
Delimit Scope option_scope with option.

Module Pydantic.

Definition dict := list (string * pyvalue).

Definition v_str (x : pyvalue) : option string :=
  match x with PStr s => Some s | _ => None end.

Definition v_int (x : pyvalue) : option Z :=
  match x with PInt n => Some n | _ => None end.

Definition v_float (x : pyvalue) : option pyfloat :=
  match x with
  | PFloat f => Some f
  | PInt n => Some (of_int n)
  | _ => None
  end.

Definition v_bool (x : pyvalue) : option bool :=
  match x with PBool b => Some b | _ => None end.

Fixpoint traverse {A B : Type} (f : A -> option B) (l : list A)
  : option (list B) :=
  match l with
  | [] => Some []
  | a :: rest =>
      match f a, traverse f rest with
      | Some b, Some bs => Some (b :: bs)
      | _, _ => None
      end
  end.

Definition v_list {A : Type} (v : pyvalue -> option A) (x : pyvalue)
  : option (list A) :=
  match x with PList l => traverse v l | _ => None end.

(** [dict[str, str]] *)
Definition v_dict (x : pyvalue) : option (list (string * string)) :=
  match x with
  | PDict d =>
      traverse (fun kv => option_map (pair (fst kv)) (v_str (snd kv))) d
  | _ => None
  end.

Definition v_model {A : Type} (v : dict -> option A) (x : pyvalue)
  : option A :=
  match x with PDict d => v d | _ => None end.

(** A field without a default. *)
Definition required {A : Type} (v : pyvalue -> option A) (k : string)
    (d : dict) : option A :=
  match dict_get k d with
  | Some x => v x
  | None => None
  end.

(** A field [T | None] with default [dflt]: the default when the key is
    absent, [None] for a null, the validated value otherwise. *)
Definition optional {A : Type} (v : pyvalue -> option A)
    (dflt : option A) (k : string) (d : dict) : option (option A) :=
  match dict_get k d with
  | None => Some dflt
  | Some PNone => Some None
  | Some x => option_map Some (v x)
  end.

(** The entry of a field in [model_dump(exclude_none=True)]. *)
Definition dump_opt {A : Type} (ser : A -> pyvalue) (k : string)
    (x : option A) : dict :=
  match x with
  | Some a => [(k, ser a)]
  | None => []
  end.

Definition dump_req {A : Type} (ser : A -> pyvalue) (k : string) (x : A)
  : dict := [(k, ser x)].

Definition ser_list {A : Type} (ser : A -> pyvalue) (l : list A) : pyvalue :=
  PList (map ser l).

Definition ser_dict (d : list (string * string)) : pyvalue :=
  PDict (map (fun kv => (fst kv, PStr (snd kv))) d).

Notation "x <- m ;; k" :=
  (match m with Some x => k | None => None end)
  (at level 61, m at next level, right associativity) : option_scope.

End Pydantic.
Import Pydantic.

Module TesCreateTaskResponse.
Record t : Type := { id : string }.

Definition validate (d : dict) : option t :=
  (i <- required v_str "id" d ;;
   Some {| id := i |})%option.

Definition model_validate : pyvalue -> option t := v_model validate.
End TesCreateTaskResponse.

Module MinimalTesTask.
Record t : Type := { id : string; state : string }.

Definition validate (d : dict) : option t :=
  (i <- required v_str "id" d ;;
   s <- required v_str "state" d ;;
   Some {| id := i; state := s |})%option.

Definition model_validate : pyvalue -> option t := v_model validate.

Definition model_dump (m : t) : pyvalue :=
  PDict (dump_req PStr "id" (id m) ++ dump_req PStr "state" (state m)).
End MinimalTesTask.

Module TesExecutor.
Record t : Type := {
  image : string;
  command : list string;
  workdir : option string;
  stdin : option string;
  stdout : option string;
  stderr : option string;
  env : option (list (string * string));
  ignore_error : option bool
}.

Definition validate (d : dict) : option t :=
  (a <- required v_str "image" d ;;
   b <- required (v_list v_str) "command" d ;;
   c <- optional v_str None "workdir" d ;;
   e <- optional v_str None "stdin" d ;;
   f <- optional v_str None "stdout" d ;;
   g <- optional v_str None "stderr" d ;;
   h <- optional v_dict None "env" d ;;
   i <- optional v_bool None "ignore_error" d ;;
   Some {| image := a; command := b; workdir := c; stdin := e;
           stdout := f; stderr := g; env := h; ignore_error := i |})%option.

Definition model_validate : pyvalue -> option t := v_model validate.

Definition model_dump (m : t) : pyvalue :=
  PDict (dump_req PStr "image" (image m)
         ++ dump_req (ser_list PStr) "command" (command m)
         ++ dump_opt PStr "workdir" (workdir m)
         ++ dump_opt PStr "stdin" (stdin m)
         ++ dump_opt PStr "stdout" (stdout m)
         ++ dump_opt PStr "stderr" (stderr m)
         ++ dump_opt ser_dict "env" (env m)
         ++ dump_opt PBool "ignore_error" (ignore_error m)).
End TesExecutor.

Module TesExecutorLog.
Record t : Type := {
  start_time : option string;
  end_time : option string;
  stdout : option string;
  stderr : option string;
  exit_code : Z
}.

Definition validate {W : World} (d : dict) : option t :=
  (a <- optional v_str (Some now_strftime) "start_time" d ;;
   b <- optional v_str None "end_time" d ;;
   c <- optional v_str None "stdout" d ;;
   e <- optional v_str None "stderr" d ;;
   f <- required v_int "exit_code" d ;;
   Some {| start_time := a; end_time := b; stdout := c; stderr := e;
           exit_code := f |})%option.

Definition model_validate {W : World} : pyvalue -> option t :=
  v_model validate.

Definition model_dump (m : t) : pyvalue :=
  PDict (dump_opt PStr "start_time" (start_time m)
         ++ dump_opt PStr "end_time" (end_time m)
         ++ dump_opt PStr "stdout" (stdout m)
         ++ dump_opt PStr "stderr" (stderr m)
         ++ dump_req PInt "exit_code" (exit_code m)).
End TesExecutorLog.

Module TesInput.
Record t : Type := {
  name : option string;
  description : option string;
  url : option string;
  path : string;
  type : option TesFileType.t;
  content : option string;
  streamable : option bool
}.

(** [serialize_type] *)
Definition serialize_type (v : TesFileType.t) : string :=
  TesFileType.value v.

(** [serialize_path] *)
Definition serialize_path {W : World} (v : string) : string :=
  PosixPath.absolute getcwd v.

Definition v_type (x : pyvalue) : option TesFileType.t :=
  (s <- v_str x ;; TesFileType.of_value s)%option.

Definition validate (d : dict) : option t :=
  (a <- optional v_str None "name" d ;;
   b <- optional v_str None "description" d ;;
   c <- optional v_str None "url" d ;;
   e <- required v_str "path" d ;;
   f <- optional v_type (Some TesFileType.FILE) "type" d ;;
   g <- optional v_str None "content" d ;;
   h <- optional v_bool None "streamable" d ;;
   Some {| name := a; description := b; url := c; path := e; type := f;
           content := g; streamable := h |})%option.

Definition model_validate : pyvalue -> option t := v_model validate.

Definition model_dump {W : World} (m : t) : pyvalue :=
  PDict (dump_opt PStr "name" (name m)
         ++ dump_opt PStr "description" (description m)
         ++ dump_opt PStr "url" (url m)
         ++ dump_req (fun v => PStr (serialize_path v)) "path" (path m)
         ++ dump_opt (fun v => PStr (serialize_type v)) "type" (type m)
         ++ dump_opt PStr "content" (content m)
         ++ dump_opt PBool "streamable" (streamable m)).
End TesInput.

Module TesOutput.
Record t : Type := {
  name : option string;
  description : option string;
  url : string;
  path : string;
  path_prefix : option string;
  type : option TesFileType.t
}.

Definition serialize_type (v : TesFileType.t) : string :=
  TesFileType.value v.

Definition serialize_path {W : World} (v : string) : string :=
  PosixPath.absolute getcwd v.

(** [validate_path]: the normalised path, or the text of the
    [ValueError]. *)
Definition validate_path (path : string) : string + string :=
  if negb (startswith "/" path) then
    inl "Path must be an absolute path."
  else
    let normalized_path := PosixPath.normpath path in
    if (Z.of_nat (List.length (PosixPath.parts normalized_path)) <? 3)%Z then
      inl "Path can't be at the root, it must be at least one level nested."
    else inr normalized_path.

Definition v_path (x : pyvalue) : option string :=
  (s <- v_str x ;;
   match validate_path s with
   | inr p => Some p
   | inl _ => None
   end)%option.

Definition validate (d : dict) : option t :=
  (a <- optional v_str None "name" d ;;
   b <- optional v_str None "description" d ;;
   c <- required v_str "url" d ;;
   e <- required v_path "path" d ;;
   f <- optional v_str None "path_prefix" d ;;
   g <- optional TesInput.v_type (Some TesFileType.FILE) "type" d ;;
   Some {| name := a; description := b; url := c; path := e;
           path_prefix := f; type := g |})%option.

Definition model_validate : pyvalue -> option t := v_model validate.

Definition model_dump {W : World} (m : t) : pyvalue :=
  PDict (dump_opt PStr "name" (name m)
         ++ dump_opt PStr "description" (description m)
         ++ dump_req PStr "url" (url m)
         ++ dump_req (fun v => PStr (serialize_path v)) "path" (path m)
         ++ dump_opt PStr "path_prefix" (path_prefix m)
         ++ dump_opt (fun v => PStr (serialize_type v)) "type" (type m)).
End TesOutput.

Module TesOutputFileLog.
Record t : Type := {
  url : string;
  path : string;
  size_bytes : string
}.

Definition validate (d : dict) : option t :=
  (a <- required v_str "url" d ;;
   b <- required v_str "path" d ;;
   c <- required v_str "size_bytes" d ;;
   Some {| url := a; path := b; size_bytes := c |})%option.

Definition model_validate : pyvalue -> option t := v_model validate.

Definition model_dump (m : t) : pyvalue :=
  PDict (dump_req PStr "url" (url m)
         ++ dump_req PStr "path" (path m)
         ++ dump_req PStr "size_bytes" (size_bytes m)).
End TesOutputFileLog.

Module TesResources.
Record t : Type := {
  cpu_cores : option Z;
  preemptible : option bool;
  ram_gb : option pyfloat;
  disk_gb : option pyfloat;
  zones : option (list string);
  backend_parameters : option (list (string * string));
  backend_parameters_strict : option bool
}.

Definition validate (d : dict) : option t :=
  (a <- optional v_int None "cpu_cores" d ;;
   b <- optional v_bool None "preemptible" d ;;
   c <- optional v_float None "ram_gb" d ;;
   e <- optional v_float None "disk_gb" d ;;
   f <- optional (v_list v_str) None "zones" d ;;
   g <- optional v_dict None "backend_parameters" d ;;
   h <- optional v_bool (Some false) "backend_parameters_strict" d ;;
   Some {| cpu_cores := a; preemptible := b; ram_gb := c; disk_gb := e;
           zones := f; backend_parameters := g;
           backend_parameters_strict := h |})%option.

Definition model_validate : pyvalue -> option t := v_model validate.

Definition model_dump (m : t) : pyvalue :=
  PDict (dump_opt PInt "cpu_cores" (cpu_cores m)
         ++ dump_opt PBool "preemptible" (preemptible m)
         ++ dump_opt PFloat "ram_gb" (ram_gb m)
         ++ dump_opt PFloat "disk_gb" (disk_gb m)
         ++ dump_opt (ser_list PStr) "zones" (zones m)
         ++ dump_opt ser_dict "backend_parameters" (backend_parameters m)
         ++ dump_opt PBool "backend_parameters_strict"
              (backend_parameters_strict m)).
End TesResources.

Module TesTaskLog.
Record t : Type := {
  logs : list TesExecutorLog.t;
  metadata : option (list (string * string));
  start_time : option string;
  end_time : option string;
  outputs : list TesOutputFileLog.t;
  system_logs : option (list string)
}.

Definition validate {W : World} (d : dict) : option t :=
  (a <- required (v_list TesExecutorLog.model_validate) "logs" d ;;
   b <- optional v_dict None "metadata" d ;;
   c <- optional v_str (Some now_strftime) "start_time" d ;;
   e <- optional v_str None "end_time" d ;;
   f <- required (v_list TesOutputFileLog.model_validate) "outputs" d ;;
   g <- optional (v_list v_str) None "system_logs" d ;;
   Some {| logs := a; metadata := b; start_time := c; end_time := e;
           outputs := f; system_logs := g |})%option.

Definition model_validate {W : World} : pyvalue -> option t :=
  v_model validate.

Definition model_dump (m : t) : pyvalue :=
  PDict (dump_req (ser_list TesExecutorLog.model_dump) "logs" (logs m)
         ++ dump_opt ser_dict "metadata" (metadata m)
         ++ dump_opt PStr "start_time" (start_time m)
         ++ dump_opt PStr "end_time" (end_time m)
         ++ dump_req (ser_list TesOutputFileLog.model_dump) "outputs"
              (outputs m)
         ++ dump_opt (ser_list PStr) "system_logs" (system_logs m)).
End TesTaskLog.

Module TesTask.
Record t : Type := {
  id : option string;
  state : option TesState.t;
  name : option string;
  description : option string;
  inputs : option (list TesInput.t);
  outputs : option (list TesOutput.t);
  resources : option TesResources.t;
  executors : list TesExecutor.t;
  volumes : option (list string);
  tags : option (list (string * string));
  logs : option (list TesTaskLog.t);
  creation_time : option string
}.

(** [serialize_state] *)
Definition serialize_state (v : TesState.t) : string := TesState.value v.

Definition v_state (x : pyvalue) : option TesState.t :=
  (s <- v_str x ;; TesState.of_value s)%option.

Definition validate {W : World} (d : dict) : option t :=
  (a <- optional v_str None "id" d ;;
   b <- optional v_state (Some TesState.UNKNOWN) "state" d ;;
   c <- optional v_str None "name" d ;;
   e <- optional v_str None "description" d ;;
   f <- optional (v_list TesInput.model_validate) None "inputs" d ;;
   g <- optional (v_list TesOutput.model_validate) None "outputs" d ;;
   h <- optional TesResources.model_validate None "resources" d ;;
   i <- required (v_list TesExecutor.model_validate) "executors" d ;;
   j <- optional (v_list v_str) None "volumes" d ;;
   k <- optional v_dict None "tags" d ;;
   l <- optional (v_list TesTaskLog.model_validate) None "logs" d ;;
   m <- optional v_str (Some now_strftime) "creation_time" d ;;
   Some {| id := a; state := b; name := c; description := e; inputs := f;
           outputs := g; resources := h; executors := i; volumes := j;
           tags := k; logs := l; creation_time := m |})%option.

Definition model_validate {W : World} : pyvalue -> option t :=
  v_model validate.

Definition model_dump {W : World} (m : t) : pyvalue :=
  PDict (dump_opt PStr "id" (id m)
         ++ dump_opt (fun v => PStr (serialize_state v)) "state" (state m)
         ++ dump_opt PStr "name" (name m)
         ++ dump_opt PStr "description" (description m)
         ++ dump_opt (ser_list TesInput.model_dump) "inputs" (inputs m)
         ++ dump_opt (ser_list TesOutput.model_dump) "outputs" (outputs m)
         ++ dump_opt TesResources.model_dump "resources" (resources m)
         ++ dump_req (ser_list TesExecutor.model_dump) "executors"
              (executors m)
         ++ dump_opt (ser_list PStr) "volumes" (volumes m)
         ++ dump_opt ser_dict "tags" (tags m)
         ++ dump_opt (ser_list TesTaskLog.model_dump) "logs" (logs m)
         ++ dump_opt PStr "creation_time" (creation_time m))%list.

(** Whether [model_dump_json()], which keeps the [None] fields, gets
    through: [serialize_state] and the [serialize_type] of the inputs and
    outputs read [v.value], which a [None] does not have. *)
Definition serializable (m : t) : bool :=
  match state m with Some _ => true | None => false end
  && match inputs m with
     | Some l => forallb (fun i => match TesInput.type i with
                                   | Some _ => true | None => false end) l
     | None => true
     end
  && match outputs m with
     | Some l => forallb (fun o => match TesOutput.type o with
                                   | Some _ => true | None => false end) l
     | None => true
     end.
End TesTask.

(* ===================================================================== *)
(** ** constants.py *)

Module Constants.
(** The class attributes, as they stand once the module is imported. *)
Record t : Type := {
  TES_URL : option string;
  REQUEST_TOKEN : option string;
  REQUEST_TIMEOUT : Z;
  MAX_RETRIES : Z;
  BACKOFF_FACTOR : pyfloat;
  MCP_HOST : string;
  MCP_PORT : Z;
  LOG_LEVEL : string;
  TASK_POLL_INTERVAL : Z;
  TASK_POLL_MAX_ATTEMPTS : Z
}.

(** [errors.append(msg)] under [if cond:]. *)
Definition check (cond : bool) (msg : string) : list string :=
  if cond then [msg] else [].

(** [validate_config] *)
Definition validate_config (cls : t) : list string :=
  (check (negb (truthy (TES_URL cls)))
     "TES_URL environment variable is required"
   ++ check (negb (truthy (REQUEST_TOKEN cls)))
     "TES_TOKEN environment variable should be set for secure authentication"
   ++ check (REQUEST_TIMEOUT cls <=? 0)
     "TES_REQUEST_TIMEOUT must be a positive integer"
   ++ check (MAX_RETRIES cls <? 0)
     "TES_MAX_RETRIES must be a non-negative integer"
   ++ check (leb (BACKOFF_FACTOR cls) (of_int 0))
     "TES_BACKOFF_FACTOR must be a positive number"
   ++ check ((MCP_PORT cls <=? 0) || (MCP_PORT cls >? 65535))
     "MCP_PORT must be a valid port number (1-65535)"
   ++ check (TASK_POLL_INTERVAL cls <=? 0)
     "TASK_POLL_INTERVAL must be a positive integer"
   ++ check (TASK_POLL_MAX_ATTEMPTS cls <=? 0)
     "TASK_POLL_MAX_ATTEMPTS must be a positive integer")%list.
End Constants.

(* ===================================================================== *)
(** ** tes/client.py *)

(** What [get_task] returns: [TesTask | MinimalTesTask]. *)
Inductive task_data : Type :=
| OfTesTask (t : TesTask.t)
| OfMinimalTesTask (m : MinimalTesTask.t).

(** [response.raise_for_status()], after the [requests] library. *)
Definition raise_for_status (response : Response) : M unit :=
  let status := status_code response in
  if (400 <=? status) && (status <? 500) then
    raise HTTPError (str_of_int status ++ " Client Error: " ++ reason response
                     ++ " for url: " ++ url response)
  else if (500 <=? status) && (status <? 600) then
    raise HTTPError (str_of_int status ++ " Server Error: " ++ reason response
                     ++ " for url: " ++ url response)
  else ret tt.

(** [response.json()]; the decoding error is a [ValueError]. *)
Definition response_json (response : Response) : M pyvalue :=
  match json response with
  | inr v => ret v
  | inl msg => raise ValueError msg
  end.

(** [Model.model_validate(x)]; pydantic's [ValidationError] is a
    [ValueError]. *)
Definition model_validate {W : World} {A : Type} (model : string)
    (v : pyvalue -> option A) (x : pyvalue) : M A :=
  match v x with
  | Some a => ret a
  | None => raise ValueError (validation_error_message model x)
  end.

Module PoiesisTesClient.

Record t : Type := {
  base_url : string;
  _auth_token : option string;
  _timeout : Z
}.

(** [__init__] *)
Definition init (constants : Constants.t)
    (base_url auth_token : option string) (timeout : option Z) : M t :=
  let base_url :=
    if truthy base_url then base_url else Constants.TES_URL constants in
  let auth_token :=
    if truthy auth_token then auth_token
    else Constants.REQUEST_TOKEN constants in
  let timeout :=
    match timeout with
    | Some 0 | None => Constants.REQUEST_TIMEOUT constants
    | Some n => n
    end in
  match base_url with
  | Some (String a u) =>
      ret {| base_url := rstrip_char "/" (String a u);
             _auth_token := auth_token;
             _timeout := timeout |}
  | _ =>
      raise TESClientError
        ("TES service URL is required. Set TES_URL environment variable or "
         ++ "provide base_url parameter.")
  end.

(** The headers [_create_session] puts on the session. *)
Definition session_headers (self : t) : list (string * string) :=
  List.app
    [("Content-Type", "application/json");
     ("Accept", "application/json");
     ("User-Agent", "poiesis-mcp-client/1.0")]
    match _auth_token self with
    | Some (String a tok) => [("Authorization", "Bearer " ++ String a tok)]
    | _ => []
    end.

Definition session_post {W : World} (self : t) (endpoint : string)
    (body : pyvalue) (timeout : Z) : M Response :=
  request {| method := POST; endpoint := endpoint;
             headers := session_headers self;
             json_body := Some body; timeout := timeout |}.

Definition session_get {W : World} (self : t) (endpoint : string)
    (timeout : Z) : M Response :=
  request {| method := GET; endpoint := endpoint;
             headers := session_headers self;
             json_body := None; timeout := timeout |}.

(** [create_task] *)
Definition create_task {W : World} (self : t) (task : TesTask.t)
  : M TesCreateTaskResponse.t :=
  let endpoint := base_url self ++ "/tasks" in
  let task_data := TesTask.model_dump task in
  try_except
    (response <- session_post self endpoint task_data (_timeout self) ;;
     if status_code response =? 401 then
       raise TESAuthenticationError
         "Authentication failed. Check your TES_TOKEN."
     else if status_code response =? 403 then
       raise TESAuthenticationError
         "Access forbidden. Check your permissions."
     else if status_code response >=? 500 then
       raise TESServerError
         ("TES server error (" ++ str_of_int (status_code response) ++ "): "
          ++ text response)
     else
       raise_for_status response ;;;
       body <- response_json response ;;
       result <- model_validate "TesCreateTaskResponse"
                   TesCreateTaskResponse.model_validate body ;;
       match TesCreateTaskResponse.id result with
       | EmptyString =>
           raise TESClientError
             "Task creation succeeded but no task ID was returned."
       | _ => ret result
       end)%py
    (fun e =>
       if isinstance e HTTPError then
         raise TESServerError ("Failed to create task: " ++ message e)
       else if isinstance e ConnectionError || isinstance e Timeout then
         raise TESClientError
           ("Network error while creating task: " ++ message e)
       else
         raise TESClientError
           ("Unexpected error while creating task: " ++ message e)).

Definition valid_views : list string :=
  [TesView.value TesView.MINIMAL; TesView.value TesView.BASIC;
   TesView.value TesView.FULL].

(** [get_task] *)
Definition get_task {W : World} (self : t) (task_id : string)
    (view : option string) : M task_data :=
  let task_id_str := task_id in
  let view :=
    match view with
    | None => TesView.value TesView.BASIC
    | Some v => v
    end in
  if negb (str_in view valid_views) then
    raise TESClientError
      ("Invalid view '" ++ view ++ "'. Must be one of: "
       ++ join ", " valid_views)
  else
    let endpoint := base_url self ++ "/tasks/" ++ task_id_str in
    let endpoint :=
      match view with
      | EmptyString => endpoint
      | _ => endpoint ++ "?view=" ++ view
      end in
    try_except
      (response <- session_get self endpoint (_timeout self) ;;
       if status_code response =? 401 then
         raise TESAuthenticationError
           "Authentication failed. Check your TES_TOKEN."
       else if status_code response =? 403 then
         raise TESAuthenticationError
           "Access forbidden. Check your permissions."
       else if status_code response =? 404 then
         raise TESTaskNotFoundError ("Task " ++ task_id_str ++ " not found.")
       else if status_code response >=? 500 then
         raise TESServerError
           ("TES server error (" ++ str_of_int (status_code response)
            ++ "): " ++ text response)
       else
         raise_for_status response ;;;
         body <- response_json response ;;
         if String.eqb view (TesView.value TesView.MINIMAL) then
           m <- model_validate "MinimalTesTask"
                  MinimalTesTask.model_validate body ;;
           ret (OfMinimalTesTask m)
         else
           t <- model_validate "TesTask" TesTask.model_validate body ;;
           ret (OfTesTask t))%py
      (fun e =>
         if isinstance e HTTPError then
           raise TESServerError
             ("Failed to retrieve task " ++ task_id_str ++ ": " ++ message e)
         else if isinstance e ConnectionError || isinstance e Timeout then
           raise TESClientError
             ("Network error while retrieving task " ++ task_id_str ++ ": "
              ++ message e)
         else
           raise TESClientError
             ("Unexpected error while retrieving task " ++ task_id_str
              ++ ": " ++ message e)).

(** [health_check] *)
Definition health_check {W : World} (self : t) : M bool :=
  try_except
    (let endpoint := base_url self ++ "/service-info" in
     response <- session_get self endpoint 10 ;;
     ret (status_code response =? 200))%py
    (fun e => ret false).

End PoiesisTesClient.

(* ===================================================================== *)
(** ** tools/wait.py: the task monitor *)

Module TaskStatus.
Inductive t : Type :=
| COMPLETED_SUCCESS
| COMPLETED_FAILED
| STILL_RUNNING
| STILL_RUNNING_TIMEOUT
| CANCELED
| ERROR_STATE
| UNKNOWN_STATE.

Definition value (s : t) : string :=
  match s with
  | COMPLETED_SUCCESS => "completed_success"
  | COMPLETED_FAILED => "completed_failed"
  | STILL_RUNNING => "still_running"
  | STILL_RUNNING_TIMEOUT => "still_running_timeout"
  | CANCELED => "canceled"
  | ERROR_STATE => "error_state"
  | UNKNOWN_STATE => "unknown_state"
  end.
End TaskStatus.

Module WaitStrategy.
Inductive t : Type :=
| CONTINUE_WAITING | CHECK_LOGS | NOTIFY_USER | SUCCESS_PROCEED.

Definition value (s : t) : string :=
  match s with
  | CONTINUE_WAITING => "continue_waiting"
  | CHECK_LOGS => "check_logs"
  | NOTIFY_USER => "notify_user"
  | SUCCESS_PROCEED => "success_proceed"
  end.
End WaitStrategy.

(** [_calculate_task_duration].  [fromisoformat] raises [ValueError] on a
    string it cannot read; the difference of an aware and a naive datetime
    raises [TypeError]. *)
Definition datetime_fromisoformat {W : World} (s : string) : M datetime :=
  match fromisoformat s with
  | Some d => ret d
  | None => raise ValueError ("Invalid isoformat string: '" ++ s ++ "'")
  end.

(** [(datetime.now(UTC) - start_time).total_seconds()]: the difference
    is a whole number of microseconds, and [total_seconds] divides it by
    [10**6]. *)
Definition seconds_since {W : World} (start_time : datetime) : M pyfloat :=
  match utcoffset start_time with
  | Some offset =>
      ret (int_truediv (clock - (wall start_time - offset)) 1000000)
  | None =>
      raise TypeError "can't subtract offset-naive and offset-aware datetimes"
  end.

(** [if creation_time.endswith("Z"):
       creation_time = creation_time[:-1] + "+00:00"] *)
Definition with_utc_offset (creation_time : string) : string :=
  if endswith_char "Z" creation_time
  then drop_last creation_time ++ "+00:00"
  else creation_time.

Definition _calculate_task_duration {W : World}
    (creation_time : option string) : M pyfloat :=
  match creation_time with
  | None | Some EmptyString => ret (Fin 0)
  | Some creation_time =>
      try_except
        (let creation_time := with_utc_offset creation_time in
         start_time <- datetime_fromisoformat creation_time ;;
         duration_seconds <- seconds_since start_time ;;
         ret (div_pos duration_seconds 60))%py
        (fun e =>
           if isinstance e ValueError || isinstance e TypeError
           then ret (Fin 0)
           else reraise e)
  end.

(** [_calculate_adaptive_interval]; [constants] is the module's global. *)
Definition _calculate_adaptive_interval (constants : Constants.t)
    (state : string) (duration_minutes : pyfloat) : Z :=
  let base_interval := Constants.TASK_POLL_INTERVAL constants in
  if ltb duration_minutes (of_int 1) then Z.max 2 (base_interval / 2)
  else if str_in state [TesState.value TesState.RUNNING;
                        TesState.value TesState.INITIALIZING] then
    if ltb duration_minutes (of_int 5) then base_interval
    else if ltb duration_minutes (of_int 15) then base_interval * 2
    else base_interval * 3
  else if String.eqb state (TesState.value TesState.QUEUED) then base_interval
  else if str_in state [TesState.value TesState.UNKNOWN;
                        TesState.value TesState.PAUSED] then
    Z.max 3 (base_interval / 2)
  else base_interval.

(** [_analyze_task_status]. *)
Definition _analyze_task_status
    (state : string) (duration_minutes : pyfloat) (max_wait_minutes : Z)
  : TaskStatus.t :=
  if String.eqb state (TesState.value TesState.COMPLETE) then
    TaskStatus.COMPLETED_SUCCESS
  else if str_in state [TesState.value TesState.EXECUTOR_ERROR;
                        TesState.value TesState.SYSTEM_ERROR] then
    TaskStatus.COMPLETED_FAILED
  else if String.eqb state (TesState.value TesState.CANCELED) then
    TaskStatus.CANCELED
  else if str_in state [TesState.value TesState.RUNNING;
                        TesState.value TesState.QUEUED;
                        TesState.value TesState.INITIALIZING] then
    if geb duration_minutes (of_int max_wait_minutes) then
      TaskStatus.STILL_RUNNING_TIMEOUT
    else TaskStatus.STILL_RUNNING
  else if str_in state [TesState.value TesState.PAUSED;
                        TesState.value TesState.PREEMPTED] then
    TaskStatus.ERROR_STATE
  else TaskStatus.UNKNOWN_STATE.

(** The arguments of the two [str.format] calls. *)
Record format_args : Type := {
  fa_task_name : string;
  fa_duration_minutes : pyfloat;
  fa_check_interval_seconds : Z;
  fa_max_wait_minutes : Z;
  fa_state : string
}.

(** An entry of [RESPONSE_TEMPLATES]; a format string is the function of
    its arguments that [str.format] makes of it. *)
Record template : Type := {
  t_should_continue_waiting : bool;
  t_wait_recommendation : string;
  t_next_action : option string;
  t_message : format_args -> string;
  t_details : format_args -> string
}.

(** [RESPONSE_TEMPLATES.get(status, RESPONSE_TEMPLATES[UNKNOWN_STATE])] *)
Definition RESPONSE_TEMPLATES (status : TaskStatus.t) : template :=
  match status with
  | TaskStatus.COMPLETED_SUCCESS =>
      {| t_should_continue_waiting := false;
         t_wait_recommendation :=
           WaitStrategy.value WaitStrategy.SUCCESS_PROCEED;
         t_next_action := Some "get_tes_task";
         t_message := fun a =>
           "Task '" ++ fa_task_name a ++ "' completed successfully after "
           ++ format_1f (fa_duration_minutes a) ++ " minutes.";
         t_details := fun _ =>
           "Use get_tes_task with view='FULL' to retrieve outputs and logs." |}
  | TaskStatus.COMPLETED_FAILED =>
      {| t_should_continue_waiting := false;
         t_wait_recommendation := WaitStrategy.value WaitStrategy.CHECK_LOGS;
         t_next_action := Some "get_tes_task";
         t_message := fun a =>
           "Task '" ++ fa_task_name a ++ "' failed after "
           ++ format_1f (fa_duration_minutes a) ++ " minutes.";
         t_details := fun _ =>
           "Use get_tes_task with view='FULL' to examine error logs." |}
  | TaskStatus.CANCELED =>
      {| t_should_continue_waiting := false;
         t_wait_recommendation := WaitStrategy.value WaitStrategy.NOTIFY_USER;
         t_next_action := None;
         t_message := fun a =>
           "Task '" ++ fa_task_name a ++ "' was canceled after "
           ++ format_1f (fa_duration_minutes a) ++ " minutes.";
         t_details := fun _ =>
           "The task was canceled. Confirm with the user before "
           ++ "resubmitting." |}
  | TaskStatus.STILL_RUNNING =>
      {| t_should_continue_waiting := true;
         t_wait_recommendation :=
           WaitStrategy.value WaitStrategy.CONTINUE_WAITING;
         t_next_action := Some "wait_for_task_completion";
         t_message := fun a =>
           "Task '" ++ fa_task_name a ++ "' is running ("
           ++ format_1f (fa_duration_minutes a) ++ " min elapsed).";
         t_details := fun a =>
           "Task is in progress. Check again in "
           ++ str_of_int (fa_check_interval_seconds a) ++ " seconds." |}
  | TaskStatus.STILL_RUNNING_TIMEOUT =>
      {| t_should_continue_waiting := true;
         t_wait_recommendation := WaitStrategy.value WaitStrategy.NOTIFY_USER;
         t_next_action := Some "wait_for_task_completion";
         t_message := fun a =>
           "Task '" ++ fa_task_name a ++ "' running for "
           ++ format_1f (fa_duration_minutes a) ++ " minutes, "
           ++ "exceeding threshold of " ++ str_of_int (fa_max_wait_minutes a)
           ++ " min.";
         t_details := fun a =>
           "Task is taking longer than expected. Continue waiting or notify "
           ++ "user. Next check in "
           ++ str_of_int (fa_check_interval_seconds a) ++ " seconds." |}
  | TaskStatus.ERROR_STATE =>
      {| t_should_continue_waiting := false;
         t_wait_recommendation := WaitStrategy.value WaitStrategy.CHECK_LOGS;
         t_next_action := Some "get_tes_task";
         t_message := fun a =>
           "Task '" ++ fa_task_name a ++ "' is in an error state ("
           ++ fa_state a ++ ").";
         t_details := fun _ =>
           "Use get_tes_task with view='FULL' to investigate." |}
  | TaskStatus.UNKNOWN_STATE =>
      {| t_should_continue_waiting := true;
         t_wait_recommendation :=
           WaitStrategy.value WaitStrategy.CONTINUE_WAITING;
         t_next_action := Some "wait_for_task_completion";
         t_message := fun a =>
           "Task '" ++ fa_task_name a ++ "' is in an unknown state ("
           ++ fa_state a ++ ").";
         t_details := fun a =>
           "Continue monitoring. Next check in "
           ++ str_of_int (fa_check_interval_seconds a) ++ " seconds." |}
  end.

(** The dictionary [wait_for_task_completion] returns. *)
Record payload : Type := {
  success : bool;
  task_id : string;
  task_name : string;
  status : string;
  state : string;
  task_duration_minutes : pyfloat;
  estimated_wait_time : Z;
  should_continue_waiting : bool;
  wait_recommendation : string;
  next_action : option string;
  message_ : string;
  details : string
}.

(** [_build_response_payload] *)
Definition _build_response_payload (status : TaskStatus.t)
    (task_id task_name state : string) (duration_minutes : pyfloat)
    (check_interval_seconds max_wait_minutes : Z) : payload :=
  let template := RESPONSE_TEMPLATES status in
  let format_args :=
    {| fa_task_name := task_name;
       fa_duration_minutes := duration_minutes;
       fa_check_interval_seconds := check_interval_seconds;
       fa_max_wait_minutes := max_wait_minutes;
       fa_state := state |} in
  {| success := true;
     task_id := task_id;
     task_name := task_name;
     status := TaskStatus.value status;
     state := state;
     task_duration_minutes := round1 duration_minutes;
     estimated_wait_time := check_interval_seconds;
     should_continue_waiting := t_should_continue_waiting template;
     wait_recommendation := t_wait_recommendation template;
     next_action := t_next_action template;
     message_ := t_message template format_args;
     details := t_details template format_args |}.

(** What [getattr(task_data, name, default)] finds.  An attribute of a
    [TesTask] may hold a [TesState] member or [None] where the callee is
    annotated [str]; the callees only compare the value with the state
    names by [==] and format it, and there such an object behaves as the
    string [str(obj)], which is none of the state names.  So the attribute
    is handed on as that string. *)
Definition str_of_state (v : option TesState.t) : string :=
  match v with
  | Some m => "TesState." ++ TesState.value m
  | None => "None"
  end.

Definition str_of_optional (v : option string) : string :=
  match v with
  | Some s => s
  | None => "None"
  end.

Definition getattr_state (task_data : task_data) : string :=
  match task_data with
  | OfMinimalTesTask m => MinimalTesTask.state m
  | OfTesTask t => str_of_state (TesTask.state t)
  end.

Definition getattr_name (task_data : task_data) (default : string) : string :=
  match task_data with
  | OfMinimalTesTask _ => default
  | OfTesTask t => str_of_optional (TesTask.name t)
  end.

Definition getattr_creation_time (task_data : task_data)
    (default : option string) : option string :=
  match task_data with
  | OfMinimalTesTask _ => default
  | OfTesTask t => TesTask.creation_time t
  end.

(** [not task_id or not task_id.strip()] *)
Definition blank {W : World} (task_id : string) : bool :=
  negb (truthy (Some task_id)) || negb (truthy (Some (strip task_id))).

(** [if max_wait_minutes <= 0: max_wait_minutes = 10] *)
Definition effective_max_wait (max_wait_minutes : Z) : Z :=
  if max_wait_minutes <=? 0 then 10 else max_wait_minutes.

(** [wait_for_task_completion], with what its body looks up when it runs
    as parameters: the class [PoiesisTesClient], a global of the module
    ([client_class] is the call [PoiesisTesClient()]), the method
    [get_task] of the instance, and the attributes that [getattr] reads
    on what the method returns, each with its default. *)
Definition wait_for_task_completion_with {W : World} {Client Task : Type}
    (constants : Constants.t) (client_class : M Client)
    (get_task : Client -> string -> option string -> M Task)
    (getattr_state : Task -> string)
    (getattr_name : Task -> string -> string)
    (getattr_creation_time : Task -> option string -> option string)
    (task_id : string) (max_wait_minutes : Z) : M payload :=
  try_except
    (if blank task_id then raise ValueError "Task ID cannot be empty."
     else
       let task_id := strip task_id in
       let max_wait_minutes := effective_max_wait max_wait_minutes in
       client <- client_class ;;
       task_data <- get_task client task_id
                      (Some (TesView.value TesView.MINIMAL)) ;;
       let current_state := getattr_state task_data in
       let task_name := getattr_name task_data "Unnamed Task" in
       let creation_time := getattr_creation_time task_data None in
       duration_minutes <- _calculate_task_duration creation_time ;;
       let status :=
         _analyze_task_status current_state duration_minutes
           max_wait_minutes in
       let check_interval_seconds :=
         _calculate_adaptive_interval constants current_state
           duration_minutes in
       ret (_build_response_payload status task_id task_name current_state
              duration_minutes check_interval_seconds max_wait_minutes))%py
    (fun e =>
       let task_id := if blank task_id then task_id else strip task_id in
       if isinstance e TESTaskNotFoundError then
         raise ValueError ("Task " ++ task_id ++ " not found.")
       else if isinstance e TESAuthenticationError then
         raise ValueError "TES authentication failed. Verify credentials."
       else if isinstance e TESServerError then
         raise ValueError "TES server error during status check."
       else if isinstance e TESClientError then
         raise ValueError
           ("Client error checking task " ++ task_id ++ ": " ++ message e)
       else
         raise ValueError ("An unexpected error occurred: " ++ message e)).

(** [wait_for_task_completion] *)
Definition wait_for_task_completion {W : World} (constants : Constants.t)
    (task_id : string) (max_wait_minutes : Z) : M payload :=
  wait_for_task_completion_with constants
    (PoiesisTesClient.init constants None None None)
    PoiesisTesClient.get_task getattr_state getattr_name
    getattr_creation_time task_id max_wait_minutes.

(* ===================================================================== *)
(** ** tools/create_task.py *)

(** [create_task_logic].  The argument of [logger.debug] is an f-string,
    so [task.model_dump_json(indent=2)] runs whatever the log level is. *)
Definition create_task_logic {W : World} (constants : Constants.t)
    (task : TesTask.t) : M TesCreateTaskResponse.t :=
  try_except
    (match TesTask.executors task with
     | [] =>
         raise ValueError
           ("Task must have at least one executor. Please provide a list of "
            ++ "executors with commands to run.")
     | _ =>
         (if TesTask.serializable task then ret tt
          else raise Exception_ serialization_error_message) ;;;
         client <- PoiesisTesClient.init constants None None None ;;
         response_data <- PoiesisTesClient.create_task client task ;;
         match TesCreateTaskResponse.id response_data with
         | EmptyString =>
             raise ValueError
               ("Task was submitted but no task ID was returned from the "
                ++ "TES service." ++ "This indicates a server-side issue.")
         | _ => ret response_data
         end
     end)%py
    (fun e =>
       if isinstance e TESAuthenticationError then
         raise ValueError
           ("Authentication failed when creating task: " ++ message e
            ++ ". Please check your ")
       else if isinstance e TESServerError then
         raise ValueError
           ("TES server error when creating task: " ++ message e
            ++ ". The TES service may be ")
       else if isinstance e TESClientError then
         raise ValueError
           ("Client error when creating task: " ++ message e
            ++ ". Please check your task ")
       else
         raise ValueError
           ("Unexpected error creating task '"
            ++ str_or (TesTask.name task) "Unnamed" ++ "': " ++ message e)).

(* ===================================================================== *)
(** ** tools/get_task.py *)

(** [ResponseWithMessage[TesTask | MinimalTesTask]] *)
Record ResponseWithMessage : Type := {
  rm_message : string;
  rm_data : task_data
}.

(** [_create_status_summary] *)
Definition _create_status_summary (state name creation_time : string)
  : string :=
  let state_descriptions :=
    [(TesState.value TesState.UNKNOWN,
      "Status is unknown or not yet determined");
     (TesState.value TesState.QUEUED,
      "Task is queued and waiting to start execution");
     (TesState.value TesState.INITIALIZING,
      "Task is being initialized for execution");
     (TesState.value TesState.RUNNING, "Task is currently running");
     (TesState.value TesState.PAUSED, "Task execution has been paused");
     (TesState.value TesState.COMPLETE, "Task completed successfully");
     (TesState.value TesState.EXECUTOR_ERROR,
      "Task failed due to an error in the executor");
     (TesState.value TesState.SYSTEM_ERROR,
      "Task failed due to a system error");
     (TesState.value TesState.CANCELED, "Task was canceled");
     (TesState.value TesState.PREEMPTED, "Task was preempted by the system")] in
  let state_desc :=
    match dict_get state state_descriptions with
    | Some d => d
    | None => "Unknown state: " ++ state
    end in
  "Task '" ++ name ++ "' (created " ++ creation_time ++ "): " ++ state_desc.

(** [_generate_next_steps] *)
Definition _generate_next_steps {W : World} (state current_view : string)
  : string :=
  if String.eqb state (TesState.value TesState.COMPLETE) then
    if negb (String.eqb current_view "FULL") then
      "Task completed successfully! Use get_tes_task with view='FULL' to "
      ++ "see execution logs and output file details."
    else
      "Task completed successfully. Check the 'outputs' and 'logs' "
      ++ "sections for results and execution details."
  else if str_in state [TesState.value TesState.EXECUTOR_ERROR;
                        TesState.value TesState.SYSTEM_ERROR] then
    if negb (String.eqb current_view "FULL") then
      "Task failed with " ++ state ++ ". Use get_tes_task with view='FULL' to "
      ++ "see detailed error logs and determine the cause."
    else
      "Task failed. Review the 'logs' section for error details. You may "
      ++ "need to modify the task specification and retry."
  else if String.eqb state (TesState.value TesState.CANCELED) then
    "Task was canceled. Check with the user if this was intentional, or if "
    ++ "the task should be recreated."
  else if str_in state [TesState.value TesState.RUNNING;
                        TesState.value TesState.QUEUED;
                        TesState.value TesState.INITIALIZING] then
    "Task is still " ++ lower state
    ++ ". Use wait_for_task_completion to monitor "
    ++ "progress, or check again later."
  else if String.eqb state (TesState.value TesState.PAUSED) then
    "Task is paused. You may need to resume it or check with the TES service"
    ++ " administrator."
  else
    "Task is in " ++ state
    ++ " state. Use wait_for_task_completion to monitor for" ++ "changes.".

(** [view.upper().strip() if view else "BASIC"] *)
Definition normalize_view {W : World} (view : string) : string :=
  match view with
  | EmptyString => "BASIC"
  | _ => strip (upper view)
  end.

(** [task_data.model_dump(exclude_none=True)] *)
Definition task_data_dump {W : World} (task_data : task_data) : pyvalue :=
  match task_data with
  | OfTesTask t => TesTask.model_dump t
  | OfMinimalTesTask m => MinimalTesTask.model_dump m
  end.

(** [get_task_logic] *)
Definition get_task_logic {W : World} (constants : Constants.t)
    (task_id view : string) : M ResponseWithMessage :=
  try_except
    (if blank task_id then
       raise ValueError "Task ID is required and cannot be empty."
     else
       let task_id := strip task_id in
       let view := normalize_view view in
       let valid_views := ["MINIMAL"; "BASIC"; "FULL"] in
       if negb (str_in view valid_views) then
         raise ValueError
           ("Invalid view '" ++ view ++ "'. Must be one of: "
            ++ join ", " valid_views ++ ". "
            ++ "Use MINIMAL for quick status checks, BASIC for standard "
            ++ "info, or FULL for complete details including logs.")
       else
         client <- PoiesisTesClient.init constants None None None ;;
         task_data <- PoiesisTesClient.get_task client task_id (Some view) ;;
         let state := getattr_state task_data in
         let name := getattr_name task_data "Unnamed Task" in
         let creation_time :=
           str_of_optional (getattr_creation_time task_data (Some "Unknown")) in
         let status_summary :=
           _create_status_summary state name creation_time in
         let next_steps := _generate_next_steps state view in
         let task_dict := task_data_dump task_data in
         let message := status_summary ++ String "010" next_steps in
         data <-
           (if String.eqb view "MINIMAL" then
              m <- model_validate "MinimalTesTask"
                     MinimalTesTask.model_validate task_dict ;;
              ret (OfMinimalTesTask m)
            else
              t <- model_validate "TesTask" TesTask.model_validate task_dict ;;
              ret (OfTesTask t)) ;;
         ret {| rm_message := message; rm_data := data |})%py
    (fun e =>
       let task_id := if blank task_id then task_id else strip task_id in
       if isinstance e TESTaskNotFoundError then
         raise ValueError
           ("Task " ++ task_id ++ " not found: " ++ message e
            ++ ". Please verify the task ID is "
            ++ "correct and the task exists.")
       else if isinstance e TESAuthenticationError then
         raise ValueError
           ("Authentication failed when retrieving task " ++ task_id ++ ": "
            ++ message e ++ ". "
            ++ "Please check your TES_TOKEN environment variable.")
       else if isinstance e TESServerError then
         raise ValueError
           ("TES server error when retrieving task " ++ task_id ++ ": "
            ++ message e ++ ". The service" ++ " may be experiencing issues.")
       else if isinstance e TESClientError then
         raise ValueError
           ("Client error when retrieving task " ++ task_id ++ ": "
            ++ message e ++ ". Please check "
            ++ "your network connectivity and task ID format.")
       else
         raise ValueError
           ("Unexpected error retrieving task " ++ task_id ++ ": "
            ++ message e)).

(* ===================================================================== *)
(** ** main.py *)

(** [validate_environment] *)
Definition validate_environment {W : World} (constants : Constants.t)
  : M (bool * list string) :=
  let errors := Constants.validate_config constants in
  match errors with
  | _ :: _ => ret (false, errors)
  | [] =>
      (more <-
         try_except
           (client <- PoiesisTesClient.init constants None None None ;;
            if truthy (Constants.TES_URL constants) then
              is_healthy <- PoiesisTesClient.health_check client ;;
              if negb is_healthy then
                ret ["TES service at "
                     ++ str_of_optional (Constants.TES_URL constants)
                     ++ " is not accessible."]
              else ret []
            else ret [])
           (fun e => ret ["Failed to initialize TES client: " ++ message e]) ;;
       let errors := (errors ++ more)%list in
       ret (Nat.eqb (List.length errors) 0, errors))%py
  end.

(** What [main] does with the verdict: [sys.exit(1)] when [is_valid] is
    false, the server is created and run otherwise. *)
Definition startup_fails {W : World} (constants : Constants.t) : bool :=
  match result (validate_environment constants) with
  | inr (is_valid, _) => negb is_valid
  | inl _ => true
  end.

(* ===================================================================== *)
(** ** A concrete world

    The string methods on ASCII text, a reader for timestamps of the shape
    [YYYY-MM-DDTHH:MM:SS] with an optional [+HH:MM] or [-HH:MM] offset, and a
    remote service given by a function.  The theorems below hold in every
    world; this one is where they are run. *)

Module Sample.

Fixpoint map_string (f : ascii -> ascii) (s : string) : string :=
  match s with
  | EmptyString => EmptyString
  | String c s' => String (f c) (map_string f s')
  end.

Definition upper_char (c : ascii) : ascii :=
  let n := N_of_ascii c in
  if ((97 <=? n) && (n <=? 122))%N then ascii_of_N (n - 32) else c.

Definition lower_char (c : ascii) : ascii :=
  let n := N_of_ascii c in
  if ((65 <=? n) && (n <=? 90))%N then ascii_of_N (n + 32) else c.

Definition is_space (c : ascii) : bool :=
  let n := N_of_ascii c in
  ((9 <=? n) && (n <=? 13) || (28 <=? n) && (n <=? 32))%N.

Fixpoint lstrip (s : string) : string :=
  match s with
  | String c s' => if is_space c then lstrip s' else s
  | EmptyString => EmptyString
  end.

Fixpoint rstrip (s : string) : string :=
  match s with
  | EmptyString => EmptyString
  | String a s' =>
      match rstrip s' with
      | EmptyString => if is_space a then EmptyString else String a EmptyString
      | r => String a r
      end
  end.

Definition digit (c : ascii) : option Z :=
  let n := N_of_ascii c in
  if ((48 <=? n) && (n <=? 57))%N then Some (Z.of_N (n - 48)) else None.

Fixpoint number (acc : Z) (l : list ascii) : option Z :=
  match l with
  | [] => Some acc
  | c :: rest =>
      match digit c with
      | Some d => number (acc * 10 + d) rest
      | None => None
      end
  end.

(** Days from 1970-01-01 to the given day of the proleptic Gregorian
    calendar. *)
Definition days_from_civil (y m d : Z) : Z :=
  let y := if m <=? 2 then y - 1 else y in
  let era := y / 400 in
  let yoe := y - era * 400 in
  let doy := (153 * (if m >? 2 then m - 3 else m + 9) + 2) / 5 + d - 1 in
  let doe := yoe * 365 + yoe / 4 - yoe / 100 + doy in
  era * 146097 + doe - 719468.

Definition days_in_month (y m : Z) : Z :=
  if m =? 2 then
    if ((y mod 4 =? 0) && negb (y mod 100 =? 0)) || (y mod 400 =? 0)
    then 29 else 28
  else if (m =? 4) || (m =? 6) || (m =? 9) || (m =? 11) then 30 else 31.

Definition offset_of (l : list ascii) : option (option Z) :=
  match l with
  | [] => Some None
  | [sign; h1; h2; ":"%char; m1; m2] =>
      match number 0 [h1; h2], number 0 [m1; m2] with
      | Some h, Some m =>
          if (h <? 24) && (m <? 60) then
            let off := (h * 3600 + m * 60) * 1000000 in
            if Ascii.eqb sign "+" then Some (Some off)
            else if Ascii.eqb sign "-" then Some (Some (- off))
            else None
          else None
      | _, _ => None
      end
  | _ => None
  end.

Definition read_timestamp (s : string) : option datetime :=
  match list_ascii_of_string s with
  | y1 :: y2 :: y3 :: y4 :: "-"%char :: mo1 :: mo2 :: "-"%char :: d1 :: d2
    :: "T"%char :: h1 :: h2 :: ":"%char :: mi1 :: mi2 :: ":"%char
    :: s1 :: s2 :: rest =>
      match number 0 [y1; y2; y3; y4], number 0 [mo1; mo2],
            number 0 [d1; d2], number 0 [h1; h2], number 0 [mi1; mi2],
            number 0 [s1; s2], offset_of rest with
      | Some y, Some mo, Some d, Some h, Some mi, Some sec, Some off =>
          if (1 <=? y) && (1 <=? mo) && (mo <=? 12) && (1 <=? d)
             && (d <=? days_in_month y mo) && (h <? 24) && (mi <? 60)
             && (sec <? 60)
          then
            Some {| wall := (days_from_civil y mo d * 86400 + h * 3600
                             + mi * 60 + sec) * 1000000;
                    utcoffset := off |}
          else None
      | _, _, _, _, _, _, _ => None
      end
  | _ => None
  end.

(** The instant [2024-01-01T00:10:00Z], in microseconds from the epoch. *)
Definition ten_past_midnight : Z := 1704067800 * 1000000.

Definition world (send : Request -> Outcome) : World :=
  {| upper := map_string upper_char;
     lower := map_string lower_char;
     strip := fun s => rstrip (lstrip s);
     fromisoformat := read_timestamp;
     clock := ten_past_midnight;
     now_strftime := "2024-01-01T00:10:00+0000";
     getcwd := "/srv/poiesis";
     validation_error_message := fun model _ =>
       "1 validation error for " ++ model;
     serialization_error_message :=
       "'NoneType' object has no attribute 'value'";
     send := send |}.

Definition constants : Constants.t :=
  {| Constants.TES_URL := Some "http://tes.example/";
     Constants.REQUEST_TOKEN := Some "secret";
     Constants.REQUEST_TIMEOUT := 60;
     Constants.MAX_RETRIES := 3;
     Constants.BACKOFF_FACTOR := Fin 1;
     Constants.MCP_HOST := "0.0.0.0";
     Constants.MCP_PORT := 8080;
     Constants.LOG_LEVEL := "INFO";
     Constants.TASK_POLL_INTERVAL := 5;
     Constants.TASK_POLL_MAX_ATTEMPTS := 120 |}.

Definition ok (body : pyvalue) : Outcome :=
  Responded {| status_code := 200; reason := "OK";
               url := "http://tes.example/"; text := EmptyString;
               json := inr body |}.

(** A service that answers every request with the same running task,
    created ten minutes before [ten_past_midnight]. *)
Definition running_task : pyvalue :=
  PDict [("id", PStr "task-1"); ("state", PStr "RUNNING");
         ("name", PStr "align reads");
         ("creation_time", PStr "2024-01-01T00:00:00Z");
         ("executors",
          PList [PDict [("image", PStr "ubuntu:20.04");
                        ("command", PList [PStr "/bin/true"])]])].

Definition serving (body : pyvalue) : World := world (fun _ => ok body).

(** A service that cannot be reached. *)
Definition unreachable : World :=
  world (fun _ => Raised {| cls := ConnectionError;
                           message := "Connection refused" |}).

(** The configuration without [TES_TOKEN] and [TES_AUTH_TOKEN]. *)
Definition constants_without_token : Constants.t :=
  {| Constants.TES_URL := Some "http://tes.example/";
     Constants.REQUEST_TOKEN := None;
     Constants.REQUEST_TIMEOUT := 60;
     Constants.MAX_RETRIES := 3;
     Constants.BACKOFF_FACTOR := Fin 1;
     Constants.MCP_HOST := "0.0.0.0";
     Constants.MCP_PORT := 8080;
     Constants.LOG_LEVEL := "INFO";
     Constants.TASK_POLL_INTERVAL := 5;
     Constants.TASK_POLL_MAX_ATTEMPTS := 120 |}.

Definition executor : TesExecutor.t :=
  {| TesExecutor.image := "ubuntu:20.04";
     TesExecutor.command := ["/bin/md5"; "/data/file1"];
     TesExecutor.workdir := None;
     TesExecutor.stdin := None;
     TesExecutor.stdout := Some "/tmp/stdout.log";
     TesExecutor.stderr := None;
     TesExecutor.env := Some [("BLASTDB", "/data/GRC38")];
     TesExecutor.ignore_error := None |}.

Definition task (inputs : option (list TesInput.t))
    (outputs : option (list TesOutput.t))
    (executors : list TesExecutor.t) : TesTask.t :=
  {| TesTask.id := None;
     TesTask.state := Some TesState.UNKNOWN;
     TesTask.name := Some "md5";
     TesTask.description := None;
     TesTask.inputs := inputs;
     TesTask.outputs := outputs;
     TesTask.resources := None;
     TesTask.executors := executors;
     TesTask.volumes := None;
     TesTask.tags := None;
     TesTask.logs := None;
     TesTask.creation_time := Some "2024-01-01T00:00:00+0000" |}.

Definition input (path : string) : TesInput.t :=
  {| TesInput.name := None;
     TesInput.description := None;
     TesInput.url := Some "s3://my-object-store/file1";
     TesInput.path := path;
     TesInput.type := Some TesFileType.DIRECTORY;
     TesInput.content := None;
     TesInput.streamable := None |}.

Definition output : TesOutput.t :=
  {| TesOutput.name := None;
     TesOutput.description := None;
     TesOutput.url := "s3://my-object-store/outfile-1";
     TesOutput.path := "/data/outfile";
     TesOutput.path_prefix := None;
     TesOutput.type := Some TesFileType.FILE |}.

(** A task without executors. *)
Definition task_without_executors : TesTask.t := task None None [].

(** A task with an input and an output. *)
Definition task_with_files : TesTask.t :=
  task (Some [input "/data/file1"]) (Some [output]) [executor].

(** A document of the service: a task whose input is the directory
    [/data/dir/], and the task that validation makes of it. *)
Definition directory_task_document : pyvalue :=
  PDict [("state", PStr "UNKNOWN"); ("name", PStr "md5");
         ("inputs",
          PList [PDict [("url", PStr "s3://my-object-store/file1");
                        ("path", PStr "/data/dir/");
                        ("type", PStr "DIRECTORY")]]);
         ("executors",
          PList [PDict [("image", PStr "ubuntu:20.04");
                        ("command",
                         PList [PStr "/bin/md5"; PStr "/data/file1"]);
                        ("stdout", PStr "/tmp/stdout.log");
                        ("env", PDict [("BLASTDB", PStr "/data/GRC38")])]]);
         ("creation_time", PStr "2024-01-01T00:00:00+0000")].

Definition directory_task : TesTask.t :=
  task (Some [input "/data/dir/"]) None [executor].

Definition typed_input (type : option TesFileType.t) : TesInput.t :=
  {| TesInput.name := None;
     TesInput.description := None;
     TesInput.url := Some "s3://my-object-store/file1";
     TesInput.path := "/data/file1";
     TesInput.type := type;
     TesInput.content := None;
     TesInput.streamable := None |}.

(** A document of the service: a task whose input has a null [type], and
    the task that validation makes of it. *)
Definition untyped_input_document : pyvalue :=
  PDict [("state", PStr "UNKNOWN"); ("name", PStr "md5");
         ("inputs",
          PList [PDict [("url", PStr "s3://my-object-store/file1");
                        ("path", PStr "/data/file1");
                        ("type", PNone)]]);
         ("executors",
          PList [PDict [("image", PStr "ubuntu:20.04");
                        ("command",
                         PList [PStr "/bin/md5"; PStr "/data/file1"]);
                        ("stdout", PStr "/tmp/stdout.log");
                        ("env", PDict [("BLASTDB", PStr "/data/GRC38")])]]);
         ("creation_time", PStr "2024-01-01T00:00:00+0000")].

Definition untyped_input_task : TesTask.t :=
  task (Some [typed_input None]) None [executor].

End Sample.

(* ===================================================================== *)
(** ** The vocabulary of the properties *)

(** The state names that [_analyze_task_status] gives a status of their
    own. *)
Definition finished_or_known : list string :=
  [TesState.value TesState.COMPLETE; TesState.value TesState.EXECUTOR_ERROR;
   TesState.value TesState.SYSTEM_ERROR; TesState.value TesState.CANCELED;
   TesState.value TesState.RUNNING; TesState.value TesState.QUEUED;
   TesState.value TesState.INITIALIZING; TesState.value TesState.PAUSED;
   TesState.value TesState.PREEMPTED].

(** The request [health_check] issues. *)
Definition service_info_request (self : PoiesisTesClient.t) : Request :=
  {| method := GET;
     endpoint := PoiesisTesClient.base_url self ++ "/service-info";
     headers := PoiesisTesClient.session_headers self;
     json_body := None;
     timeout := 10 |}.

(** The minutes from the instant [created] to the instant [now], both in
    microseconds: [(now - created).total_seconds() / 60.0]. *)
Definition minutes_between (now created : Z) : pyfloat :=
  div_pos (int_truediv (now - created) 1000000) 60.

(** What the duration is, given what [fromisoformat] makes of the
    timestamp. *)
Definition duration_of {W : World} (parsed : option datetime) : pyfloat :=
  match parsed with
  | Some start_time =>
      match utcoffset start_time with
      | Some offset => minutes_between clock (wall start_time - offset)
      | None => Fin 0
      end
  | None => Fin 0
  end.

Definition url_missing (c : Constants.t) : Prop :=
  truthy (Constants.TES_URL c) = false.

Definition token_missing (c : Constants.t) : Prop :=
  truthy (Constants.REQUEST_TOKEN c) = false.

Definition numeric_out_of_range (c : Constants.t) : Prop :=
  Constants.REQUEST_TIMEOUT c <= 0
  \/ Constants.MAX_RETRIES c < 0
  \/ le (Constants.BACKOFF_FACTOR c) (of_int 0)
  \/ (Constants.MCP_PORT c <= 0 \/ Constants.MCP_PORT c > 65535)
  \/ Constants.TASK_POLL_INTERVAL c <= 0
  \/ Constants.TASK_POLL_MAX_ATTEMPTS c <= 0.

(** The connectivity check of [validate_environment] does not come back
    with [True]. *)
Definition service_unhealthy {W : World} (c : Constants.t) : Prop :=
  forall client,
    result (PoiesisTesClient.init c None None None) = inr client ->
    result (PoiesisTesClient.health_check client) <> inr true.

(** *** Paths *)

Fixpoint has_char (c : ascii) (s : string) : bool :=
  match s with
  | EmptyString => false
  | String a s' => Ascii.eqb a c || has_char c s'
  end.

(** A component that [normpath] keeps in an absolute path. *)
Definition clean (comp : string) : Prop :=
  comp <> EmptyString /\ comp <> "." /\ comp <> ".."
  /\ has_char "/" comp = false.

(** The path with [n] leading slashes and the given components. *)
Definition rooted (n : nat) (comps : list string) : string :=
  PosixPath.slashes n ++ join "/" comps.

(** *** The round trip of a model

    [reparsed m] is the model that validation makes of [model_dump m]: a
    field that is [None] comes back as its default, the path of an input as
    the serializer left it, and everything else as it was. *)

Definition or_default {A : Type} (dflt : option A) (f : A -> A)
    (x : option A) : option A :=
  match x with
  | Some a => Some (f a)
  | None => dflt
  end.

(** A serializer, which never produces [None]. *)
Definition never_none {A : Type} (ser : A -> pyvalue) : Prop :=
  forall a, ser a <> PNone.

Module Reparsed.

Definition TesExecutorLog {W : World} (m : TesExecutorLog.t)
  : TesExecutorLog.t :=
  {| TesExecutorLog.start_time :=
       or_default (Some now_strftime) (fun a => a)
         (TesExecutorLog.start_time m);
     TesExecutorLog.end_time := TesExecutorLog.end_time m;
     TesExecutorLog.stdout := TesExecutorLog.stdout m;
     TesExecutorLog.stderr := TesExecutorLog.stderr m;
     TesExecutorLog.exit_code := TesExecutorLog.exit_code m |}.

Definition TesInput {W : World} (m : TesInput.t) : TesInput.t :=
  {| TesInput.name := TesInput.name m;
     TesInput.description := TesInput.description m;
     TesInput.url := TesInput.url m;
     TesInput.path := TesInput.serialize_path (TesInput.path m);
     TesInput.type :=
       or_default (Some TesFileType.FILE) (fun a => a) (TesInput.type m);
     TesInput.content := TesInput.content m;
     TesInput.streamable := TesInput.streamable m |}.

Definition TesOutput (m : TesOutput.t) : TesOutput.t :=
  {| TesOutput.name := TesOutput.name m;
     TesOutput.description := TesOutput.description m;
     TesOutput.url := TesOutput.url m;
     TesOutput.path := TesOutput.path m;
     TesOutput.path_prefix := TesOutput.path_prefix m;
     TesOutput.type :=
       or_default (Some TesFileType.FILE) (fun a => a) (TesOutput.type m) |}.

Definition TesResources (m : TesResources.t) : TesResources.t :=
  {| TesResources.cpu_cores := TesResources.cpu_cores m;
     TesResources.preemptible := TesResources.preemptible m;
     TesResources.ram_gb := TesResources.ram_gb m;
     TesResources.disk_gb := TesResources.disk_gb m;
     TesResources.zones := TesResources.zones m;
     TesResources.backend_parameters := TesResources.backend_parameters m;
     TesResources.backend_parameters_strict :=
       or_default (Some false) (fun a => a)
         (TesResources.backend_parameters_strict m) |}.

Definition TesTaskLog {W : World} (m : TesTaskLog.t) : TesTaskLog.t :=
  {| TesTaskLog.logs := map TesExecutorLog (TesTaskLog.logs m);
     TesTaskLog.metadata := TesTaskLog.metadata m;
     TesTaskLog.start_time :=
       or_default (Some now_strftime) (fun a => a) (TesTaskLog.start_time m);
     TesTaskLog.end_time := TesTaskLog.end_time m;
     TesTaskLog.outputs := TesTaskLog.outputs m;
     TesTaskLog.system_logs := TesTaskLog.system_logs m |}.

Definition TesTask {W : World} (m : TesTask.t) : TesTask.t :=
  {| TesTask.id := TesTask.id m;
     TesTask.state :=
       or_default (Some TesState.UNKNOWN) (fun a => a) (TesTask.state m);
     TesTask.name := TesTask.name m;
     TesTask.description := TesTask.description m;
     TesTask.inputs := or_default None (map TesInput) (TesTask.inputs m);
     TesTask.outputs := or_default None (map TesOutput) (TesTask.outputs m);
     TesTask.resources :=
       or_default None TesResources (TesTask.resources m);
     TesTask.executors := TesTask.executors m;
     TesTask.volumes := TesTask.volumes m;
     TesTask.tags := TesTask.tags m;
     TesTask.logs := or_default None (map TesTaskLog) (TesTask.logs m);
     TesTask.creation_time :=
       or_default (Some now_strftime) (fun a => a)
         (TesTask.creation_time m) |}.

End Reparsed.

(** An output as the model lets it be: its path went through
    [validate_path]. *)
Definition valid_output (o : TesOutput.t) : Prop :=
  exists p, TesOutput.validate_path p = inr (TesOutput.path o).

(** A task as validation builds it. *)
Definition valid_task (t : TesTask.t) : Prop :=
  forall l, TesTask.outputs t = Some l -> Forall valid_output l.

(** An input whose path the serializer leaves alone: an absolute path in
    the form [str(Path(...))] gives it. *)
Definition stable_input {W : World} (i : TesInput.t) : Prop :=
  TesInput.serialize_path (TesInput.path i) = TesInput.path i.

Definition stable_inputs {W : World} (t : TesTask.t) : Prop :=
  forall l, TesTask.inputs t = Some l -> Forall stable_input l.

(** Identical values in the populated optional fields: where [x] holds a
    value, [y] holds a value that [R] relates to it. *)
Definition populated {A : Type} (R : A -> A -> Prop) (x y : option A) : Prop :=
  match x with
  | Some a => exists b, y = Some b /\ R a b
  | None => True
  end.

Module Agree.

Definition TesExecutorLog (a b : TesExecutorLog.t) : Prop :=
  populated eq (TesExecutorLog.start_time a) (TesExecutorLog.start_time b)
  /\ populated eq (TesExecutorLog.end_time a) (TesExecutorLog.end_time b)
  /\ populated eq (TesExecutorLog.stdout a) (TesExecutorLog.stdout b)
  /\ populated eq (TesExecutorLog.stderr a) (TesExecutorLog.stderr b)
  /\ TesExecutorLog.exit_code a = TesExecutorLog.exit_code b.

Definition TesInput (a b : TesInput.t) : Prop :=
  populated eq (TesInput.name a) (TesInput.name b)
  /\ populated eq (TesInput.description a) (TesInput.description b)
  /\ populated eq (TesInput.url a) (TesInput.url b)
  /\ TesInput.path a = TesInput.path b
  /\ populated eq (TesInput.type a) (TesInput.type b)
  /\ populated eq (TesInput.content a) (TesInput.content b)
  /\ populated eq (TesInput.streamable a) (TesInput.streamable b).

Definition TesOutput (a b : TesOutput.t) : Prop :=
  populated eq (TesOutput.name a) (TesOutput.name b)
  /\ populated eq (TesOutput.description a) (TesOutput.description b)
  /\ TesOutput.url a = TesOutput.url b
  /\ TesOutput.path a = TesOutput.path b
  /\ populated eq (TesOutput.path_prefix a) (TesOutput.path_prefix b)
  /\ populated eq (TesOutput.type a) (TesOutput.type b).

Definition TesResources (a b : TesResources.t) : Prop :=
  populated eq (TesResources.cpu_cores a) (TesResources.cpu_cores b)
  /\ populated eq (TesResources.preemptible a) (TesResources.preemptible b)
  /\ populated eq (TesResources.ram_gb a) (TesResources.ram_gb b)
  /\ populated eq (TesResources.disk_gb a) (TesResources.disk_gb b)
  /\ populated eq (TesResources.zones a) (TesResources.zones b)
  /\ populated eq (TesResources.backend_parameters a)
       (TesResources.backend_parameters b)
  /\ populated eq (TesResources.backend_parameters_strict a)
       (TesResources.backend_parameters_strict b).

Definition TesTaskLog (a b : TesTaskLog.t) : Prop :=
  Forall2 TesExecutorLog (TesTaskLog.logs a) (TesTaskLog.logs b)
  /\ populated eq (TesTaskLog.metadata a) (TesTaskLog.metadata b)
  /\ populated eq (TesTaskLog.start_time a) (TesTaskLog.start_time b)
  /\ populated eq (TesTaskLog.end_time a) (TesTaskLog.end_time b)
  /\ TesTaskLog.outputs a = TesTaskLog.outputs b
  /\ populated eq (TesTaskLog.system_logs a) (TesTaskLog.system_logs b).

Definition TesTask (a b : TesTask.t) : Prop :=
  populated eq (TesTask.id a) (TesTask.id b)
  /\ populated eq (TesTask.state a) (TesTask.state b)
  /\ populated eq (TesTask.name a) (TesTask.name b)
  /\ populated eq (TesTask.description a) (TesTask.description b)
  /\ populated (Forall2 TesInput) (TesTask.inputs a) (TesTask.inputs b)
  /\ populated (Forall2 TesOutput) (TesTask.outputs a) (TesTask.outputs b)
  /\ populated TesResources (TesTask.resources a) (TesTask.resources b)
  /\ TesTask.executors a = TesTask.executors b
  /\ populated eq (TesTask.volumes a) (TesTask.volumes b)
  /\ populated eq (TesTask.tags a) (TesTask.tags b)
  /\ populated (Forall2 TesTaskLog) (TesTask.logs a) (TesTask.logs b)
  /\ populated eq (TesTask.creation_time a) (TesTask.creation_time b).

End Agree.

(* ===================================================================== *)
(** ** constants.py: the configuration as it is logged *)

(** [Constants.get_masked_config]; [str_of_float] is [str] on a float.
    The [match] is [token != "asdf"] on a [str | None]. *)
Definition get_masked_config (str_of_float : pyfloat -> string)
    (cls : Constants.t) : list (string * string) :=
  let token := Constants.REQUEST_TOKEN cls in
  let masked_token :=
    if truthy token
       && match token with
          | Some t => negb (String.eqb t "asdf")
          | None => true
          end
    then Some "***MASKED***" else token in
  [("TES_URL", str_or (Constants.TES_URL cls) "NOT_SET");
   ("REQUEST_TOKEN", str_or masked_token "NOT_SET");
   ("REQUEST_TIMEOUT", str_of_int (Constants.REQUEST_TIMEOUT cls));
   ("MAX_RETRIES", str_of_int (Constants.MAX_RETRIES cls));
   ("BACKOFF_FACTOR", str_of_float (Constants.BACKOFF_FACTOR cls));
   ("MCP_HOST", Constants.MCP_HOST cls);
   ("MCP_PORT", str_of_int (Constants.MCP_PORT cls));
   ("LOG_LEVEL", Constants.LOG_LEVEL cls);
   ("TASK_POLL_INTERVAL", str_of_int (Constants.TASK_POLL_INTERVAL cls));
   ("TASK_POLL_MAX_ATTEMPTS",
    str_of_int (Constants.TASK_POLL_MAX_ATTEMPTS cls))].

(* ===================================================================== *)
(** ** Vocabulary for the client and the facades *)

(** Code that issues no request. *)
Definition quiet {A : Type} (m : M A) : Prop := requests m = [].

(** The request [get_task] issues for a task and a view. *)
Definition get_task_request (self : PoiesisTesClient.t)
    (task_id view : string) : Request :=
  {| method := GET;
     endpoint :=
       (PoiesisTesClient.base_url self ++ "/tasks/" ++ task_id)
       ++ "?view=" ++ view;
     headers := PoiesisTesClient.session_headers self;
     json_body := None;
     timeout := PoiesisTesClient._timeout self |}.

(** The request [create_task] issues for a task. *)
Definition create_task_request {W : World} (self : PoiesisTesClient.t)
    (task : TesTask.t) : Request :=
  {| method := POST;
     endpoint := PoiesisTesClient.base_url self ++ "/tasks";
     headers := PoiesisTesClient.session_headers self;
     json_body := Some (TesTask.model_dump task);
     timeout := PoiesisTesClient._timeout self |}.

(** The statuses that [get_task] answers with an exception of its own,
    before [raise_for_status]. *)
Definition refused_status (status : Z) : bool :=
  (status =? 401) || (status =? 403) || (status =? 404) || (status >=? 500).

(** The states for which [wait_for_task_completion] tells the caller to
    stop waiting. *)
Definition stop_states : list string :=
  [TesState.value TesState.COMPLETE; TesState.value TesState.EXECUTOR_ERROR;
   TesState.value TesState.SYSTEM_ERROR; TesState.value TesState.CANCELED;
   TesState.value TesState.PAUSED; TesState.value TesState.PREEMPTED].

(** What [get_task_logic] hands back for what the client gave it: a task
    goes through [model_dump] and [model_validate] once more. *)
Definition reparsed_data {W : World} (td : task_data) : task_data :=
  match td with
  | OfTesTask t => OfTesTask (Reparsed.TesTask t)
  | OfMinimalTesTask m => OfMinimalTesTask m
  end.

(** A component that [str(Path(...))] keeps: [..] is one. *)
Definition plain (comp : string) : Prop :=
  comp <> EmptyString /\ comp <> "." /\ has_char "/" comp = false.

(** A document without a null, at any depth. *)
Fixpoint no_none (v : pyvalue) : bool :=
  match v with
  | PNone => false
  | PList l => forallb no_none l
  | PDict d => forallb (fun kv => no_none (snd kv)) d
  | _ => true
  end.

Definition no_none_fields (d : Pydantic.dict) : Prop :=
  forallb (fun kv => no_none (snd kv)) d = true.

Module Scenario.

(** A service that answers every request with the given status and body. *)
Definition answering (status : Z) (reason : string) (body : pyvalue)
  : World :=
  Sample.world (fun r =>
    Responded {| status_code := status; reason := reason;
                 url := endpoint r; text := reason; json := inr body |}).

(** The client that [__init__] makes of [Sample.constants]. *)
Definition client : PoiesisTesClient.t :=
  {| PoiesisTesClient.base_url := "http://tes.example";
     PoiesisTesClient._auth_token := Some "secret";
     PoiesisTesClient._timeout := 60 |}.

(** A service that has no such task. *)
Definition not_found : World := answering 404 "Not Found" PNone.

(** What a stand-in for the client hands back: a state and a creation
    time. *)
Definition task_stub : Type := (string * option string)%type.

(** The [get_task] of a stand-in for the client. *)
Definition get_task_stub (state : string) (creation_time : option string)
  : unit -> string -> option string -> M task_stub :=
  fun _ _ _ => ret (state, creation_time).

End Scenario.

(* ===================================================================== *)
(** * Properties *)

(** ** Comparisons of floats *)

Module PyFloatFacts.

Lemma ltb_not_geb (x y : pyfloat) : ltb x y = true -> geb x y = false.
Proof.
  destruct x as [a| | |], y as [b| | |]; simpl; try easy.
  unfold Qltb, Qleb. intros H.
  apply Z.ltb_lt in H. apply Z.leb_gt. exact H.
Qed.

Lemma geb_not_ltb (x y : pyfloat) : geb x y = true -> ltb x y = false.
Proof.
  destruct (ltb x y) eqn:E; [|reflexivity].
  rewrite (ltb_not_geb _ _ E). discriminate.
Qed.

(** At or above [a], hence not below any [b <= a]. *)
Lemma geb_of_int_mono (d : pyfloat) (a b : Z) :
  geb d (of_int a) = true -> b <= a -> ltb d (of_int b) = false.
Proof.
  destruct d as [q| | |]; simpl; try easy.
  unfold Qleb, Qltb. simpl. intros H Hba.
  apply Z.leb_le in H. apply Z.ltb_ge.
  pose proof (Pos2Z.is_pos (Qden q)).
  nia.
Qed.

(** A float that is not NaN is below a bound or at least the bound. *)
Lemma lt_or_ge (d : pyfloat) (m : Z) :
  d <> NaN -> lt d (of_int m) \/ ge d (of_int m).
Proof.
  unfold lt, ge. destruct d as [q| | |]; simpl; intros Hn; auto;
    try congruence.
  unfold Qltb, Qleb. simpl.
  destruct (Z.ltb_spec (Qnum q * 1) (m * QDen q)); [now left|].
  right. apply Z.leb_le. assumption.
Qed.

Lemma nonneg_not_nan (d : pyfloat) : nonneg d -> d <> NaN.
Proof. destruct d; simpl; unfold nonneg, le; simpl; congruence. Qed.

End PyFloatFacts.
Import PyFloatFacts.

(** ** Rounding to the nearest double *)

Module Rounding.

Lemma Qltb_true (a b : Q) : Qltb a b = true <-> (a < b)%Q.
Proof. unfold Qltb, Qlt. apply Z.ltb_lt. Qed.

Lemma Qltb_false (a b : Q) : Qltb a b = false <-> (b <= a)%Q.
Proof. unfold Qltb, Qle. apply Z.ltb_ge. Qed.

(** Rounding to an integer moves a rational by a half at most. *)
Lemma round_half_even_near (x : Q) :
  (inject_Z (round_half_even x) - (1 # 2) <= x
   <= inject_Z (round_half_even x) + (1 # 2))%Q.
Proof.
  unfold round_half_even.
  pose proof (Qfloor_le x) as Hl. pose proof (Qlt_floor x) as Hu.
  rewrite inject_Z_plus in Hu. change (inject_Z 1) with 1%Q in Hu.
  destruct (Qltb (x - inject_Z (Qfloor x)) (1 # 2)) eqn:E1.
  { apply Qltb_true in E1. split; lra. }
  apply Qltb_false in E1.
  destruct (Qltb (1 # 2) (x - inject_Z (Qfloor x))) eqn:E2.
  { rewrite inject_Z_plus. change (inject_Z 1) with 1%Q. split; lra. }
  apply Qltb_false in E2.
  destruct (Z.even (Qfloor x)); [split; lra|].
  rewrite inject_Z_plus. change (inject_Z 1) with 1%Q. split; lra.
Qed.

(** The exponent puts the quotient between [2^52] and [2^53], where the
    quotient is not below the normal range. *)
Lemma scaled_exponent_normal (a d : Z) :
  0 < a -> 0 < d -> d <= 2 ^ 1020 * a ->
  let E := scaled_exponent a d in
  0 <= E
  /\ 2 ^ 52 * (d * 2 ^ E) <= a * 2 ^ 1074 < 2 ^ 53 * (d * 2 ^ E).
Proof.
  intros Ha Hd Hn.
  destruct (Z.log2_spec a Ha) as [Ha1 Ha2].
  destruct (Z.log2_spec d Hd) as [Hd1 Hd2].
  pose proof (Z.log2_nonneg a) as Hla. pose proof (Z.log2_nonneg d) as Hld.
  set (la := Z.log2 a) in *. set (ld := Z.log2 d) in *.
  assert (Hlt : ld < la + 1021).
  { apply (Z.pow_lt_mono_r_iff 2); [lia | lia|].
    replace (la + 1021) with (1020 + Z.succ la) by lia.
    rewrite Z.pow_add_r by lia.
    assert (0 < 2 ^ 1020) by (apply Z.pow_pos_nonneg; lia). nia. }
  unfold scaled_exponent. fold la ld. cbv zeta.
  set (E0 := la - ld + 1022).
  assert (HE0 : 2 <= E0) by (unfold E0; lia).
  destruct (Z.leb_spec E0 0) as [|_]; [lia|].
  assert (Hp : 0 < 2 ^ (E0 - 1)) by (apply Z.pow_pos_nonneg; lia).
  assert (H2 : 2 ^ E0 = 2 * 2 ^ (E0 - 1)).
  { replace E0 with (1 + (E0 - 1)) at 1 by lia.
    now rewrite Z.pow_add_r by lia. }
  assert (Hlow : 2 ^ 52 * (2 ^ Z.succ ld * 2 ^ (E0 - 1)) = 2 ^ la * 2 ^ 1074).
  { rewrite <- !Z.pow_add_r by lia. f_equal. unfold E0. lia. }
  assert (Hup : 2 ^ 53 * (2 ^ ld * 2 ^ E0) = 2 ^ Z.succ la * 2 ^ 1074).
  { rewrite <- !Z.pow_add_r by lia. f_equal. unfold E0. lia. }
  assert (0 < 2 ^ 1074) by (apply Z.pow_pos_nonneg; lia).
  assert (0 < 2 ^ 52) by (apply Z.pow_pos_nonneg; lia).
  assert (H53 : 2 ^ 53 = 2 * 2 ^ 52) by reflexivity.
  destruct (Z.ltb_spec (a * 2 ^ 1074) (2 ^ 52 * d * 2 ^ E0)) as [Hb | Hb].
  - split; [lia|]. split.
    + apply Z.le_trans with (2 ^ la * 2 ^ 1074); [|nia].
      rewrite <- Hlow. apply Z.lt_le_incl.
      apply Z.mul_lt_mono_pos_l; [assumption|].
      apply Z.mul_lt_mono_pos_r; assumption.
    + rewrite H53. rewrite H2 in Hb. nia.
  - split; [lia|]. split; [nia|].
    apply Z.lt_le_trans with (2 ^ Z.succ la * 2 ^ 1074); [nia|].
    rewrite <- Hup.
    apply Z.mul_le_mono_nonneg_l; [lia|].
    apply Z.mul_le_mono_nonneg_r; [lia | assumption].
Qed.


Lemma Zpos_pow_1074 : Z.pos (2 ^ 1074) = 2 ^ 1074.
Proof. apply Pos2Z.inj_pow. Qed.

Lemma Zpos_pow_1020 : Z.pos (2 ^ 1020) = 2 ^ 1020.
Proof. apply Pos2Z.inj_pow. Qed.

(** The arithmetic of the error, on rationals: [x] is the scaled
    quotient, [m] what it rounds to, [s] the unit in the last place. *)
Lemma scaled_error (x m s : Q) :
  (0 < s)%Q -> (inject_Z (2 ^ 52) <= x)%Q ->
  (m - (1 # 2) <= x <= m + (1 # 2))%Q ->
  (x * s * (1 - (1 # 2 ^ 53)) <= m * s <= x * s * (1 + (1 # 2 ^ 53)))%Q.
Proof.
  change (inject_Z (2 ^ 52)) with (4503599627370496 # 1)%Q.
  change (1 # 2 ^ 53)%Q with (1 # 9007199254740992)%Q.
  intros Hs Hx [H1 H2]. split; nra.
Qed.

(** Above the subnormal range, [nearest_double] moves a positive rational
    by a relative error of [2^-53] at most. *)
Lemma nearest_double_near (q : Q) :
  (0 < q)%Q -> (1 # 2 ^ 1020 <= q)%Q ->
  (q * (1 - (1 # 2 ^ 53)) <= nearest_double q
   <= q * (1 + (1 # 2 ^ 53)))%Q.
Proof.
  destruct q as [n p]. intros Hpos Hnorm.
  assert (Hn' : 0 < n).
  { unfold Qlt in Hpos. cbn [Qnum Qden] in Hpos. lia. }
  assert (Hnorm' : Z.pos p <= 2 ^ 1020 * n).
  { unfold Qle in Hnorm. cbn [Qnum Qden] in Hnorm.
    rewrite Zpos_pow_1020 in Hnorm. lia. }
  destruct (scaled_exponent_normal n (Z.pos p) Hn' (Pos2Z.is_pos p) Hnorm')
    as (HE & Hlo & Hhi).
  unfold nearest_double. cbn [Qnum Qden].
  destruct (Z.eqb_spec n 0) as [|_]; [lia|].
  rewrite (Z.abs_eq n) by lia. rewrite (Z.sgn_pos n) by lia.
  set (E := scaled_exponent n (Z.pos p)) in *.
  assert (HT : 0 < 2 ^ E) by (apply Z.pow_pos_nonneg; lia).
  assert (HP : 0 < 2 ^ 1074) by (apply Z.pow_pos_nonneg; lia).
  set (D := Z.pos p * 2 ^ E) in *.
  assert (HD : 0 < D) by (unfold D; lia).
  set (N := n * 2 ^ 1074) in *.
  pose proof (round_half_even_near (N # Z.to_pos D)) as Hm.
  set (m := round_half_even (N # Z.to_pos D)) in *.
  rewrite Qred_correct.
  assert (Ex : (N # Z.to_pos D == inject_Z N / inject_Z D)%Q).
  { rewrite (Qmake_Qdiv N (Z.to_pos D)), Z2Pos.id by assumption.
    reflexivity. }
  rewrite Ex in Hm.
  assert (Er : (1 * m * 2 ^ E # 2 ^ 1074
                == inject_Z m * (inject_Z (2 ^ E) / inject_Z (2 ^ 1074)))%Q).
  { rewrite Qmake_Qdiv, Zpos_pow_1074, Z.mul_1_l, inject_Z_mult.
    unfold Qdiv. ring. }
  assert (HTq : (0 < inject_Z (2 ^ E))%Q).
  { change 0%Q with (inject_Z 0). now rewrite <- Zlt_Qlt. }
  assert (HPq : (0 < inject_Z (2 ^ 1074))%Q).
  { change 0%Q with (inject_Z 0). now rewrite <- Zlt_Qlt. }
  assert (Hpq : (0 < inject_Z (Z.pos p))%Q).
  { change 0%Q with (inject_Z 0). now rewrite <- Zlt_Qlt. }
  assert (Eq : (n # p
                == inject_Z N / inject_Z D
                   * (inject_Z (2 ^ E) / inject_Z (2 ^ 1074)))%Q).
  { rewrite (Qmake_Qdiv n p). unfold N, D. rewrite !inject_Z_mult.
    field. repeat split; lra. }
  rewrite Er, Eq.
  apply scaled_error; [| |exact Hm].
  - apply Qlt_shift_div_l; [exact HPq | lra].
  - apply Qle_shift_div_l.
    + change 0%Q with (inject_Z 0). now rewrite <- Zlt_Qlt.
    + rewrite <- inject_Z_mult, <- Zle_Qle. exact Hlo.
Qed.


(** Rounding commutes with the change of sign. *)
Lemma nearest_double_opp (q : Q) :
  (nearest_double q == - nearest_double (- q))%Q.
Proof.
  destruct q as [n p]. unfold nearest_double. cbn [Qnum Qden Qopp].
  rewrite Z.abs_opp, Z.sgn_opp.
  destruct (Z.eqb_spec n 0) as [-> | Hn]; [reflexivity|].
  destruct (Z.eqb_spec (- n) 0) as [|_]; [lia|].
  rewrite !Qred_correct. unfold Qeq. cbn [Qnum Qden Qopp]. ring.
Qed.

Lemma nearest_double_near_neg (q : Q) :
  (q < 0)%Q -> (1 # 2 ^ 1020 <= - q)%Q ->
  (q * (1 + (1 # 2 ^ 53)) <= nearest_double q
   <= q * (1 - (1 # 2 ^ 53)))%Q.
Proof.
  intros Hq Hn.
  assert (Hp : (0 < - q)%Q) by lra.
  pose proof (nearest_double_near (- q) Hp Hn) as H.
  rewrite (nearest_double_opp q).
  change (1 # 2 ^ 53)%Q with (1 # 9007199254740992)%Q in *.
  split; lra.
Qed.

Lemma above_subnormal (q : Q) :
  (1 # 2 ^ 40 <= q)%Q -> (1 # 2 ^ 1020 <= q)%Q.
Proof.
  apply Qle_trans. apply Qle_bool_iff. vm_compute. reflexivity.
Qed.

End Rounding.

(** ** The status classifier and the polling interval *)

Section Monitor.

Ltac eqb_cases :=
  repeat match goal with
  | |- context [String.eqb ?a ?b] =>
      destruct (String.eqb_spec a b); subst; simpl in *
  end.

(** C1.  [_analyze_task_status] is a function into the seven values of
    [TaskStatus], defined on every state string, every float and every
    threshold, and it follows the case analysis of the specification:
    COMPLETE gives completed_success; EXECUTOR_ERROR and SYSTEM_ERROR give
    completed_failed; CANCELED gives canceled; RUNNING, QUEUED and
    INITIALIZING give still_running below the threshold and
    still_running_timeout at or above it; PAUSED and PREEMPTED give
    error_state; every other string gives unknown_state.  For an elapsed
    time that is not NaN, and so for every non-negative one, one of the
    two cases of the threshold applies. *)
Theorem analyze_task_status_cases
    (state : string) (elapsed : pyfloat) (max_wait : Z) :
  let status := _analyze_task_status state elapsed max_wait in
  (state = "COMPLETE" -> status = TaskStatus.COMPLETED_SUCCESS)
  /\ (state = "EXECUTOR_ERROR" \/ state = "SYSTEM_ERROR" ->
      status = TaskStatus.COMPLETED_FAILED)
  /\ (state = "CANCELED" -> status = TaskStatus.CANCELED)
  /\ (state = "RUNNING" \/ state = "QUEUED" \/ state = "INITIALIZING" ->
      (lt elapsed (of_int max_wait) -> status = TaskStatus.STILL_RUNNING)
      /\ (ge elapsed (of_int max_wait) ->
          status = TaskStatus.STILL_RUNNING_TIMEOUT)
      /\ (elapsed = of_int max_wait ->
          status = TaskStatus.STILL_RUNNING_TIMEOUT))
  /\ (state = "PAUSED" \/ state = "PREEMPTED" ->
      status = TaskStatus.ERROR_STATE)
  /\ (~ In state finished_or_known -> status = TaskStatus.UNKNOWN_STATE)
  /\ (state = "UNKNOWN" \/ state = "CANCELING" ->
      status = TaskStatus.UNKNOWN_STATE)
  /\ (nonneg elapsed ->
      lt elapsed (of_int max_wait) \/ ge elapsed (of_int max_wait)).
Proof.
  cbv zeta. unfold _analyze_task_status, str_in, existsb. simpl TesState.value.
  repeat apply conj.
  - intros ->. reflexivity.
  - intros [-> | ->]; reflexivity.
  - intros ->. reflexivity.
  - intros Hs.
    assert (Hge : ge elapsed (of_int max_wait) ->
                  (if geb elapsed (of_int max_wait)
                   then TaskStatus.STILL_RUNNING_TIMEOUT
                   else TaskStatus.STILL_RUNNING)
                  = TaskStatus.STILL_RUNNING_TIMEOUT).
    { unfold ge. intros ->. reflexivity. }
    repeat apply conj.
    + intros Hlt. apply ltb_not_geb in Hlt. rewrite Hlt.
      destruct Hs as [-> | [-> | ->]]; reflexivity.
    + intros H. specialize (Hge H).
      destruct Hs as [-> | [-> | ->]]; exact Hge.
    + intros ->.
      assert (H : ge (of_int max_wait) (of_int max_wait)).
      { unfold ge. simpl. unfold Qleb. apply Z.leb_refl. }
      specialize (Hge H).
      destruct Hs as [-> | [-> | ->]]; exact Hge.
  - intros [-> | ->]; reflexivity.
  - intros Hn. unfold finished_or_known in Hn. simpl in Hn.
    eqb_cases; try reflexivity; exfalso; apply Hn; tauto.
  - intros [-> | ->]; reflexivity.
  - intros Hn. apply lt_or_ge. now apply nonneg_not_nan.
Qed.

(** C2.  [_calculate_adaptive_interval], with [base_interval] the
    configured [TASK_POLL_INTERVAL]: below one minute the interval is
    [max(2, base_interval // 2)] whatever the state; from one minute on, a
    RUNNING or INITIALIZING task gets [base_interval] below five minutes,
    twice that from five to fifteen and three times from fifteen on, a
    QUEUED task gets [base_interval], an UNKNOWN or PAUSED one
    [max(3, base_interval // 2)], and every other state [base_interval]. *)
Theorem calculate_adaptive_interval_cases
    (constants : Constants.t) (state : string) (elapsed : pyfloat) :
  let base_interval := Constants.TASK_POLL_INTERVAL constants in
  let interval := _calculate_adaptive_interval constants state elapsed in
  (lt elapsed (of_int 1) -> interval = Z.max 2 (base_interval / 2))
  /\ (state = "RUNNING" \/ state = "INITIALIZING" ->
      (ge elapsed (of_int 1) -> lt elapsed (of_int 5) ->
       interval = base_interval)
      /\ (ge elapsed (of_int 5) -> lt elapsed (of_int 15) ->
          interval = base_interval * 2)
      /\ (ge elapsed (of_int 15) -> interval = base_interval * 3))
  /\ (ge elapsed (of_int 1) -> state = "QUEUED" -> interval = base_interval)
  /\ (ge elapsed (of_int 1) -> state = "UNKNOWN" \/ state = "PAUSED" ->
      interval = Z.max 3 (base_interval / 2))
  /\ (ge elapsed (of_int 1) ->
      ~ In state ["RUNNING"; "INITIALIZING"; "QUEUED"; "UNKNOWN"; "PAUSED"] ->
      interval = base_interval)
  /\ (nonneg elapsed -> lt elapsed (of_int 1) \/ ge elapsed (of_int 1)).
Proof.
  cbv zeta. unfold _calculate_adaptive_interval, str_in, existsb.
  simpl TesState.value. unfold lt, ge.
  repeat apply conj.
  - intros ->. reflexivity.
  - intros Hs. repeat apply conj.
    + intros H1 H5. rewrite (geb_not_ltb _ _ H1), H5.
      destruct Hs as [-> | ->]; reflexivity.
    + intros H5 H15.
      rewrite (geb_of_int_mono _ 5 1 H5), (geb_not_ltb _ _ H5), H15 by lia.
      destruct Hs as [-> | ->]; reflexivity.
    + intros H15.
      rewrite (geb_of_int_mono _ 15 1 H15), (geb_of_int_mono _ 15 5 H15),
        (geb_not_ltb _ _ H15) by lia.
      destruct Hs as [-> | ->]; reflexivity.
  - intros H1 ->. rewrite (geb_not_ltb _ _ H1). reflexivity.
  - intros H1 Hs. rewrite (geb_not_ltb _ _ H1).
    destruct Hs as [-> | ->]; reflexivity.
  - intros H1 Hn. rewrite (geb_not_ltb _ _ H1). simpl in Hn.
    eqb_cases; try reflexivity; exfalso; apply Hn; tauto.
  - intros Hn. apply lt_or_ge. now apply nonneg_not_nan.
Qed.

End Monitor.

(** ** Reasoning in [M] *)

Section MonadFacts.
Context {A B : Type}.

Lemma bind_inr (m : M A) (f : A -> M B) (b : B) :
  result (bind m f) = inr b ->
  exists a, result m = inr a /\ result (f a) = inr b.
Proof.
  unfold bind, result. destruct m as [[e | a] log]; simpl.
  - discriminate.
  - destruct (f a) as [r log'] eqn:E. simpl. intros ->.
    exists a. rewrite E. auto.
Qed.

(** A handler that always raises lets no result through but the body's. *)
Lemma try_except_inr (m : M A) (h : exn -> M A) (a : A) :
  (forall e, exists e', result (h e) = inl e') ->
  result (try_except m h) = inr a -> result m = inr a.
Proof.
  intros Hh. unfold try_except, result.
  destruct m as [[e | a'] log]; simpl; auto.
  destruct (Hh e) as [e' He']. unfold result in He'.
  destruct (h e) as [r log']. simpl in *. subst. discriminate.
Qed.

Lemma try_except_raise (c : exn_class) (msg : string) (h : exn -> M A) :
  try_except (raise c msg) h = h {| cls := c; message := msg |}.
Proof.
  unfold try_except, raise. destruct (h _) as [r log]. reflexivity.
Qed.

End MonadFacts.

(** ** The client *)

Section ClientFacts.
Context {W : World}.

(** C8.  [health_check] returns a boolean whatever the request comes to:
    it issues the one GET of [/service-info], and its answer is [True]
    exactly when that request is answered with status 200; a response
    with another status and an exception both give [False], and nothing
    is raised. *)
Theorem health_check_never_raises (self : PoiesisTesClient.t) :
  exists b : bool,
    PoiesisTesClient.health_check self
    = (inr b, [service_info_request self])
    /\ (b = true <->
        exists r, send (service_info_request self) = Responded r
                  /\ status_code r = 200)
    /\ (forall r, send (service_info_request self) = Responded r ->
        status_code r <> 200 -> b = false)
    /\ (forall e, send (service_info_request self) = Raised e -> b = false).
Proof.
  unfold PoiesisTesClient.health_check, PoiesisTesClient.session_get,
    request, try_except, bind, ret.
  fold (service_info_request self).
  destruct (send (service_info_request self)) as [r | e] eqn:E; simpl.
  - exists (status_code r =? 200).
    split; [reflexivity | split; [split | split]].
    + intros H. exists r. split; [reflexivity | now apply Z.eqb_eq].
    + intros [r' [[= <-] H]]. now apply Z.eqb_eq.
    + intros r' [= <-] H. now apply Z.eqb_neq.
    + discriminate.
  - exists false.
    split; [reflexivity | split; [split | split]];
      try reflexivity; try discriminate.
    intros [r [[=] _]].
Qed.

(** The client refuses a view that is none of the three before it sends
    anything. *)
Lemma get_task_invalid_view (self : PoiesisTesClient.t)
    (task_id view : string) :
  str_in view PoiesisTesClient.valid_views = false ->
  PoiesisTesClient.get_task self task_id (Some view)
  = raise TESClientError
      ("Invalid view '" ++ view ++ "'. Must be one of: MINIMAL, BASIC, FULL").
Proof.
  intros H. unfold PoiesisTesClient.get_task. rewrite H. reflexivity.
Qed.

End ClientFacts.

(** ** The tool facades *)

Section FacadeFacts.
Context {W : World}.
Variable constants : Constants.t.

(** C6.  A task without executors is refused before the client is even
    built: [create_task_logic] raises a [ValueError] (the refusal, as
    re-raised by the last [except] clause) and no request is issued. *)
Theorem create_task_logic_rejects_no_executors (task : TesTask.t) :
  TesTask.executors task = [] ->
  create_task_logic constants task
  = (inl {| cls := ValueError;
            message :=
              "Unexpected error creating task '"
              ++ str_or (TesTask.name task) "Unnamed"
              ++ "': Task must have at least one executor. "
              ++ "Please provide a list of executors with commands to run." |},
     [])
  /\ requests (create_task_logic constants task) = [].
Proof.
  intros H. unfold create_task_logic. rewrite H.
  rewrite try_except_raise. split; reflexivity.
Qed.

Lemma normalize_view_nonempty (view : string) :
  view <> EmptyString -> normalize_view view = strip (upper view).
Proof. destruct view; [congruence | reflexivity]. Qed.

Lemma get_task_logic_invalid_view (task_id view : string) :
  str_in (normalize_view view) ["MINIMAL"; "BASIC"; "FULL"] = false ->
  exists msg,
    get_task_logic constants task_id view
    = (inl {| cls := ValueError; message := msg |}, []).
Proof.
  intros H. unfold get_task_logic.
  destruct (blank task_id) eqn:Hb.
  - rewrite try_except_raise. simpl. eexists. reflexivity.
  - rewrite H. simpl negb. cbv iota. rewrite try_except_raise.
    simpl. eexists. reflexivity.
Qed.

(** C5 (amended).  A view that is not empty and that, once uppercased and
    trimmed, is none of MINIMAL, BASIC and FULL makes [get_task_logic]
    raise a [ValueError] without any request being issued; and the
    client's [get_task] raises [TESClientError], again without a request,
    for every view string that is none of the three.  (An empty view is
    not refused by the facade: it stands for BASIC.) *)
Theorem get_task_invalid_view_fails_fast (task_id view : string) :
  view <> EmptyString ->
  str_in (strip (upper view)) ["MINIMAL"; "BASIC"; "FULL"] = false ->
  (exists msg,
     get_task_logic constants task_id view
     = (inl {| cls := ValueError; message := msg |}, []))
  /\ (forall (self : PoiesisTesClient.t) (id v : string),
        str_in v ["MINIMAL"; "BASIC"; "FULL"] = false ->
        exists msg,
          PoiesisTesClient.get_task self id (Some v)
          = (inl {| cls := TESClientError; message := msg |}, [])).
Proof.
  intros Hne Hv. split.
  - apply get_task_logic_invalid_view.
    now rewrite normalize_view_nonempty.
  - intros self id v H. rewrite get_task_invalid_view by exact H.
    eexists. reflexivity.
Qed.

End FacadeFacts.

Section WaitFacts.
Context {W : World}.
Variable constants : Constants.t.

Lemma get_task_handler_raises (task_id_str : string) (e : exn) :
  exists e',
    result
      ((if isinstance e HTTPError then
          raise TESServerError
            ("Failed to retrieve task " ++ task_id_str ++ ": " ++ message e)
        else if isinstance e ConnectionError || isinstance e Timeout then
          raise TESClientError
            ("Network error while retrieving task " ++ task_id_str ++ ": "
             ++ message e)
        else
          raise TESClientError
            ("Unexpected error while retrieving task " ++ task_id_str
             ++ ": " ++ message e)) : M task_data) = inl e'.
Proof.
  destruct (isinstance e HTTPError); [eexists; reflexivity|].
  destruct (_ || _); eexists; reflexivity.
Qed.

(** With the MINIMAL view the client hands back a [MinimalTesTask]. *)
Lemma get_task_minimal (self : PoiesisTesClient.t) (task_id : string)
    (td : task_data) :
  result (PoiesisTesClient.get_task self task_id
            (Some (TesView.value TesView.MINIMAL))) = inr td ->
  exists m, td = OfMinimalTesTask m.
Proof.
  unfold PoiesisTesClient.get_task.
  cbn -[bind try_except PoiesisTesClient.session_get raise_for_status
        response_json model_validate String.append].
  intros H.
  apply try_except_inr in H; [|intros e; apply get_task_handler_raises].
  apply bind_inr in H as (response & _ & H).
  repeat match type of H with
  | result (if ?c then _ else _) = _ => destruct c; [discriminate|]
  end.
  apply bind_inr in H as (_ & _ & H).
  apply bind_inr in H as (body & _ & H).
  apply bind_inr in H as (m & _ & H).
  exists m. now inversion H.
Qed.

(** An elapsed time of zero is below every threshold that
    [wait_for_task_completion] can pass on. *)
Lemma analyze_zero_not_timeout (state : string) (max_wait : Z) :
  _analyze_task_status state (Fin 0) (effective_max_wait max_wait)
  <> TaskStatus.STILL_RUNNING_TIMEOUT.
Proof.
  assert (Hg : geb (Fin 0) (of_int (effective_max_wait max_wait)) = false).
  { unfold effective_max_wait. simpl. unfold Qleb. simpl.
    destruct (Z.leb_spec max_wait 0); apply Z.leb_gt; lia. }
  unfold _analyze_task_status. rewrite Hg.
  repeat match goal with
  | |- (if ?c then _ else _) <> _ => destruct c; [discriminate|]
  end.
  discriminate.
Qed.

Lemma TaskStatus_value_inj (a b : TaskStatus.t) :
  TaskStatus.value a = TaskStatus.value b -> a = b.
Proof. destruct a, b; simpl; intros H; try reflexivity; discriminate. Qed.

(** C3.  Whenever [wait_for_task_completion] returns, the client has
    handed it a [MinimalTesTask], which has the attributes [id] and
    [state] only: [getattr] finds no [creation_time], the duration is
    computed from [None] and is 0.0, and so the report carries a duration
    of 0.0, a status that is not still_running_timeout whatever
    [max_wait_minutes] is, the name "Unnamed Task", and the interval of
    the first minute, [max(2, TASK_POLL_INTERVAL // 2)]. *)
Theorem wait_sees_no_creation_time
    (task_id : string) (max_wait_minutes : Z) (p : payload) :
  result (wait_for_task_completion constants task_id max_wait_minutes)
  = inr p ->
  exists (client : PoiesisTesClient.t) (m : MinimalTesTask.t),
    result (PoiesisTesClient.init constants None None None) = inr client
    /\ result (PoiesisTesClient.get_task client (strip task_id)
                 (Some "MINIMAL")) = inr (OfMinimalTesTask m)
    /\ getattr_creation_time (OfMinimalTesTask m) None = None
    /\ _calculate_task_duration
         (getattr_creation_time (OfMinimalTesTask m) None) = ret (Fin 0)
    /\ task_duration_minutes p = Fin 0
    /\ status p <> "still_running_timeout"
    /\ task_name p = "Unnamed Task"
    /\ estimated_wait_time p
       = Z.max 2 (Constants.TASK_POLL_INTERVAL constants / 2).
Proof.
  unfold wait_for_task_completion, wait_for_task_completion_with.
  intros H.
  apply try_except_inr in H.
  2:{ intros e.
      repeat match goal with
      | |- context [if ?c then _ else _] => destruct c
      end; eexists; reflexivity. }
  destruct (blank task_id); [discriminate|].
  apply bind_inr in H as (client & Hc & H).
  apply bind_inr in H as (td & Htd & H).
  destruct (get_task_minimal _ _ _ Htd) as [m ->].
  exists client, m. split; [exact Hc|]. split; [exact Htd|].
  split; [reflexivity|]. split; [reflexivity|].
  simpl in H. injection H as <-. simpl.
  split; [reflexivity|]. split; [|split; reflexivity].
  intros E.
  apply (TaskStatus_value_inj _ TaskStatus.STILL_RUNNING_TIMEOUT) in E.
  now apply analyze_zero_not_timeout in E.
Qed.

Lemma endswith_char_app (c : ascii) (s : string) :
  endswith_char c (s ++ String c EmptyString) = true.
Proof.
  induction s as [|a s IH]; simpl.
  - apply Ascii.eqb_refl.
  - destruct (s ++ String c EmptyString) eqn:E; [|exact IH].
    destruct s; discriminate.
Qed.

Lemma drop_last_app (c : ascii) (s : string) :
  drop_last (s ++ String c EmptyString) = s.
Proof.
  induction s as [|a s IH]; simpl; [reflexivity|].
  destruct (s ++ String c EmptyString) eqn:E.
  - destruct s; discriminate.
  - now rewrite IH.
Qed.

Lemma with_utc_offset_Z (s : string) :
  with_utc_offset (s ++ "Z") = s ++ "+00:00".
Proof.
  unfold with_utc_offset. now rewrite endswith_char_app, drop_last_app.
Qed.

(** The duration is the exact number of minutes up to a relative error of
    [2^-51], and has its sign. *)
Lemma minutes_between_positive (us : Z) :
  0 < us ->
  let exact := (inject_Z us / inject_Z 1000000 / 60)%Q in
  let q := nearest_double
             (nearest_double (inject_Z us / inject_Z 1000000) / 60) in
  (0 < q)%Q
  /\ (exact * (1 - (1 # 2 ^ 51)) <= q <= exact * (1 + (1 # 2 ^ 51)))%Q.
Proof.
  intros Hus exact q.
  assert (Hx : (1 <= inject_Z us)%Q).
  { change 1%Q with (inject_Z 1). rewrite <- Zle_Qle. lia. }
  set (x := inject_Z us) in *.
  assert (E0 : (x / inject_Z 1000000 == x * (1 # 1000000))%Q) by reflexivity.
  set (q0 := (x / inject_Z 1000000)%Q) in *.
  assert (H0 : (1 # 2 ^ 40 <= q0)%Q).
  { change (1 # 2 ^ 40)%Q with (1 # 1099511627776)%Q. lra. }
  assert (Hq0 : (0 < q0)%Q) by lra.
  pose proof (Rounding.nearest_double_near q0 Hq0
                (Rounding.above_subnormal q0 H0)) as H1.
  set (r1 := nearest_double q0) in *.
  change (1 # 2 ^ 53)%Q with (1 # 9007199254740992)%Q in H1.
  assert (E1 : (r1 / 60 == r1 * (1 # 60))%Q) by reflexivity.
  set (q1 := (r1 / 60)%Q) in *.
  assert (H1' : (1 # 2 ^ 40 <= q1)%Q).
  { change (1 # 2 ^ 40)%Q with (1 # 1099511627776)%Q. lra. }
  assert (Hq1 : (0 < q1)%Q) by lra.
  pose proof (Rounding.nearest_double_near q1 Hq1
                (Rounding.above_subnormal q1 H1')) as H2.
  change (1 # 2 ^ 53)%Q with (1 # 9007199254740992)%Q in H2.
  assert (Ee : (exact == q0 * (1 # 60))%Q) by reflexivity.
  change (1 # 2 ^ 51)%Q with (1 # 2251799813685248)%Q.
  subst q. fold q0 r1 q1. set (r2 := nearest_double q1) in *.
  split; [lra | split; lra].
Qed.

Lemma minutes_between_negative (us : Z) :
  us < 0 ->
  let exact := (inject_Z us / inject_Z 1000000 / 60)%Q in
  let q := nearest_double
             (nearest_double (inject_Z us / inject_Z 1000000) / 60) in
  (q < 0)%Q
  /\ (exact * (1 + (1 # 2 ^ 51)) <= q <= exact * (1 - (1 # 2 ^ 51)))%Q.
Proof.
  intros Hus exact q.
  assert (Hx : (inject_Z us <= - (1))%Q).
  { change (- (1))%Q with (inject_Z (- 1)). rewrite <- Zle_Qle. lia. }
  set (x := inject_Z us) in *.
  assert (E0 : (x / inject_Z 1000000 == x * (1 # 1000000))%Q) by reflexivity.
  set (q0 := (x / inject_Z 1000000)%Q) in *.
  assert (H0 : (1 # 2 ^ 40 <= - q0)%Q).
  { change (1 # 2 ^ 40)%Q with (1 # 1099511627776)%Q. lra. }
  assert (Hq0 : (q0 < 0)%Q) by lra.
  pose proof (Rounding.nearest_double_near_neg q0 Hq0
                (Rounding.above_subnormal _ H0)) as H1.
  set (r1 := nearest_double q0) in *.
  change (1 # 2 ^ 53)%Q with (1 # 9007199254740992)%Q in H1.
  assert (E1 : (r1 / 60 == r1 * (1 # 60))%Q) by reflexivity.
  set (q1 := (r1 / 60)%Q) in *.
  assert (H1' : (1 # 2 ^ 40 <= - q1)%Q).
  { change (1 # 2 ^ 40)%Q with (1 # 1099511627776)%Q. lra. }
  assert (Hq1 : (q1 < 0)%Q) by lra.
  pose proof (Rounding.nearest_double_near_neg q1 Hq1
                (Rounding.above_subnormal _ H1')) as H2.
  change (1 # 2 ^ 53)%Q with (1 # 9007199254740992)%Q in H2.
  assert (Ee : (exact == q0 * (1 # 60))%Q) by reflexivity.
  change (1 # 2 ^ 51)%Q with (1 # 2251799813685248)%Q.
  subst q. fold q0 r1 q1. set (r2 := nearest_double q1) in *.
  split; [lra | split; lra].
Qed.

Lemma minutes_between_spec (now created : Z) :
  exists q,
    minutes_between now created = Fin q
    /\ ((q < 0)%Q <-> now < created)
    /\ ((q == 0)%Q <-> now = created)
    /\ (Qabs (q - inject_Z (now - created) / inject_Z 1000000 / 60)
        <= Qabs (inject_Z (now - created) / inject_Z 1000000 / 60)
           * (1 # 2 ^ 51))%Q.
Proof.
  eexists. split; [reflexivity|].
  set (us := now - created).
  set (exact := (inject_Z us / inject_Z 1000000 / 60)%Q).
  set (q := nearest_double _).
  change (1 # 2 ^ 51)%Q with (1 # 2251799813685248)%Q.
  destruct (Z.lt_trichotomy us 0) as [Hus | [Hus | Hus]].
  - destruct (minutes_between_negative us Hus) as [Hq Hb].
    fold exact q in Hq, Hb.
    change (1 # 2 ^ 51)%Q with (1 # 2251799813685248)%Q in Hb.
    split; [split; [lia | intros _; exact Hq]|].
    split; [split; [lra | lia]|].
    assert (He : (exact < 0)%Q) by lra.
    rewrite (Qabs_neg exact) by lra.
    apply Qabs_Qle_condition. split; lra.
  - assert (Eq : q = 0%Q).
    { unfold q. rewrite Hus. reflexivity. }
    assert (Ee : (exact == 0)%Q) by (unfold exact; rewrite Hus; reflexivity).
    rewrite Eq.
    split; [split; [lra | lia]|].
    split; [split; [lia | reflexivity]|].
    rewrite Ee. apply Qle_bool_iff. reflexivity.
  - destruct (minutes_between_positive us) as [Hq Hb]; [lia|].
    fold exact q in Hq, Hb.
    change (1 # 2 ^ 51)%Q with (1 # 2251799813685248)%Q in Hb.
    split; [split; [lra | lia]|].
    split; [split; [lra | lia]|].
    assert (He : (0 < exact)%Q) by lra.
    rewrite (Qabs_pos exact) by lra.
    apply Qabs_Qle_condition. split; lra.
Qed.

(** Whole minutes come out exact: ten minutes are 10.0. *)
Lemma minutes_between_ten (created : Z) :
  minutes_between (created + 600 * 1000000) created = Fin 10.
Proof.
  unfold minutes_between.
  replace (created + 600 * 1000000 - created) with 600000000 by lia.
  vm_compute. reflexivity.
Qed.

Lemma calculate_task_duration_eq (s : string) :
  _calculate_task_duration (Some s)
  = ret (match s with
         | EmptyString => Fin 0
         | _ => duration_of (fromisoformat (with_utc_offset s))
         end).
Proof.
  destruct s as [|a s]; [reflexivity|].
  unfold _calculate_task_duration, datetime_fromisoformat, duration_of.
  destruct (fromisoformat (with_utc_offset (String a s))) as [d|];
    [|reflexivity].
  unfold seconds_since, bind, ret. cbv beta iota.
  destruct (utcoffset d); reflexivity.
Qed.

(** C4.  [_calculate_task_duration] returns a float for every argument
    and raises nothing.  A timestamp that ends in Z is read with the Z
    replaced by +00:00, and when [fromisoformat] reads it the result is
    the seconds from that instant to now, divided by 60, both divisions
    being those of floats: the result is the double that [total_seconds]
    and [/ 60.0] give, which is the exact number of minutes up to a
    relative error of [2^-51], and is exactly 10.0 for a timestamp ten
    minutes in the past.  [None], the empty string and every timestamp
    that [fromisoformat] rejects give exactly 0.0 (as does one without an
    offset, which cannot be subtracted from the aware [now]). *)
Theorem calculate_task_duration_total (creation_time : option string) :
  (exists d, _calculate_task_duration creation_time = (inr d, []))
  /\ (creation_time = None \/ creation_time = Some EmptyString ->
      _calculate_task_duration creation_time = ret (Fin 0))
  /\ (forall s start_time offset,
        creation_time = Some (s ++ "Z") ->
        fromisoformat (s ++ "+00:00") = Some start_time ->
        utcoffset start_time = Some offset ->
        _calculate_task_duration creation_time
        = ret (minutes_between clock (wall start_time - offset)))
  /\ (forall s,
        creation_time = Some s ->
        fromisoformat (with_utc_offset s) = None ->
        _calculate_task_duration creation_time = ret (Fin 0))
  /\ (forall now created,
        exists q,
          minutes_between now created = Fin q
          /\ (Qabs (q - inject_Z (now - created) / inject_Z 1000000 / 60)
              <= Qabs (inject_Z (now - created) / inject_Z 1000000 / 60)
                 * (1 # 2 ^ 51))%Q)
  /\ (forall created,
        minutes_between (created + 600 * 1000000) created = Fin 10).
Proof.
  repeat apply conj; [| | | | |apply minutes_between_ten].
  5:{ intros now created.
      destruct (minutes_between_spec now created) as (q & E & _ & _ & H).
      now exists q. }
  - destruct creation_time as [s|]; [|eexists; reflexivity].
    rewrite calculate_task_duration_eq. eexists. reflexivity.
  - intros [-> | ->]; reflexivity.
  - intros s start_time offset -> Hp Ho.
    rewrite calculate_task_duration_eq, with_utc_offset_Z, Hp.
    unfold duration_of. rewrite Ho.
    destruct (s ++ "Z") eqn:E; [destruct s; discriminate | reflexivity].
  - intros s -> Hp. rewrite calculate_task_duration_eq, Hp.
    destruct s; reflexivity.
Qed.

End WaitFacts.

(** ** Configuration and startup *)

Section ConfigFacts.
Context {W : World}.

Lemma check_nil (b : bool) (msg : string) :
  Constants.check b msg = [] <-> b = false.
Proof. destruct b; simpl; split; congruence. Qed.

Lemma app_nil_iff {A : Type} (l1 l2 : list A) :
  (l1 ++ l2)%list = [] <-> l1 = [] /\ l2 = [].
Proof.
  split; [apply app_eq_nil | intros [-> ->]; reflexivity].
Qed.

Lemma validate_config_nil (c : Constants.t) :
  Constants.validate_config c = []
  <-> ~ (url_missing c \/ token_missing c \/ numeric_out_of_range c).
Proof.
  unfold Constants.validate_config, url_missing, token_missing,
    numeric_out_of_range, le.
  rewrite !app_nil_iff, !check_nil, negb_false_iff, negb_false_iff,
    orb_false_iff.
  rewrite !Z.leb_gt, Z.ltb_ge, Z.gtb_ltb, Z.ltb_ge.
  destruct (truthy (Constants.TES_URL c)),
    (truthy (Constants.REQUEST_TOKEN c)),
    (leb (Constants.BACKOFF_FACTOR c) (of_int 0));
    split; intros H; try (intuition (congruence || lia));
    repeat split; try congruence; try lia;
    exfalso; apply H; auto.
Qed.

Lemma validate_config_errors (c : Constants.t) :
  Constants.validate_config c <> []
  <-> url_missing c \/ token_missing c \/ numeric_out_of_range c.
Proof.
  rewrite validate_config_nil.
  unfold url_missing, token_missing, numeric_out_of_range, le.
  destruct (truthy (Constants.TES_URL c)),
    (truthy (Constants.REQUEST_TOKEN c)),
    (leb (Constants.BACKOFF_FACTOR c) (of_int 0));
    split; intros H; try tauto; try (intuition congruence).
  destruct (Z_le_gt_dec (Constants.REQUEST_TIMEOUT c) 0); [tauto|].
  destruct (Z_lt_ge_dec (Constants.MAX_RETRIES c) 0); [tauto|].
  destruct (Z_le_gt_dec (Constants.MCP_PORT c) 0); [tauto|].
  destruct (Z_le_gt_dec (Constants.MCP_PORT c) 65535); [|tauto].
  destruct (Z_le_gt_dec (Constants.TASK_POLL_INTERVAL c) 0); [tauto|].
  destruct (Z_le_gt_dec (Constants.TASK_POLL_MAX_ATTEMPTS c) 0); [tauto|].
  exfalso. apply H. intros [E | [E | E]]; try discriminate.
  intuition (try discriminate; lia).
Qed.

(** C7 (amended).  [validate_config] returns a list of messages, which is
    empty exactly when the service URL and the auth token are both set
    and every numeric setting is in range; a token that is set, be it the
    default one, adds no message.  Startup fails exactly when that list is
    not empty or the connectivity check does not succeed. *)
Theorem startup_fails_iff (c : Constants.t) :
  (Constants.validate_config c = []
   <-> ~ (url_missing c \/ token_missing c \/ numeric_out_of_range c))
  /\ (Constants.REQUEST_TOKEN c = Some "asdf" -> ~ token_missing c)
  /\ (startup_fails c = true
      <-> url_missing c \/ token_missing c \/ numeric_out_of_range c
          \/ service_unhealthy c).
Proof.
  split; [apply validate_config_nil|].
  split; [intros E; unfold token_missing; rewrite E; discriminate|].
  unfold startup_fails, validate_environment.
  destruct (Constants.validate_config c) as [|err errs] eqn:Ev.
  - assert (Hok : ~ (url_missing c \/ token_missing c
                     \/ numeric_out_of_range c))
      by (now apply validate_config_nil).
    assert (Hu : truthy (Constants.TES_URL c) = true).
    { destruct (truthy (Constants.TES_URL c)) eqn:E; [reflexivity|].
      exfalso. apply Hok. now left. }
    unfold service_unhealthy, PoiesisTesClient.init. rewrite Hu.
    destruct (Constants.TES_URL c) as [[|a u]|]; try discriminate.
    simpl truthy. cbv iota.
    set (client := {| PoiesisTesClient.base_url := _ |}).
    destruct (health_check_never_raises client) as (b & Hb & _).
    unfold try_except, bind, ret, result. rewrite Hb. simpl.
    destruct b; simpl; split.
    + discriminate.
    + intros [H | [H | [H | H]]]; try tauto.
      exfalso. apply (H client eq_refl). now rewrite Hb.
    + intros _. do 3 right. intros client' [= <-]. rewrite Hb. discriminate.
    + reflexivity.
  - simpl. split; [intros _|reflexivity].
    assert (H : Constants.validate_config c <> [])
      by (rewrite Ev; discriminate).
    apply validate_config_errors in H. tauto.
Qed.

End ConfigFacts.

(** ** Paths *)

Module PathFacts.
Import PosixPath.

Lemma split_char_no_sep c s :
  Forall (fun x => has_char c x = false) (split_char c s).
Proof.
induction s as [|a s IH]; simpl.
- constructor; [reflexivity | constructor].
- destruct (Ascii.eqb a c) eqn:E.
  + constructor; [reflexivity | exact IH].
  + destruct (split_char c s) as [|h t].
    * constructor; [|constructor]. simpl. now rewrite E.
    * inversion IH; subst.
      constructor; [|assumption]. simpl. now rewrite E.
Qed.

Lemma split_char_plain c x : has_char c x = false -> split_char c x = [x].
Proof.
induction x as [|a x IH]; simpl; [reflexivity|].
intros H. apply orb_false_iff in H as [Ha Hx].
rewrite Ha, (IH Hx). reflexivity.
Qed.

Lemma split_char_app c x rest :
has_char c x = false ->
split_char c (x ++ String c rest) = x :: split_char c rest.
Proof.
induction x as [|a x IH]; simpl.
- intros _. now rewrite Ascii.eqb_refl.
- intros H. apply orb_false_iff in H as [Ha Hx].
  rewrite Ha, (IH Hx). reflexivity.
Qed.

Lemma split_join c comps :
comps <> [] -> Forall (fun x => has_char c x = false) comps ->
split_char c (join (String c EmptyString) comps) = comps.
Proof.
induction comps as [|x xs IH]; [congruence|]. intros _ H.
inversion H as [|? ? Hx Hxs]; subst.
destruct xs as [|y ys].
- simpl. now apply split_char_plain.
- change (join (String c EmptyString) (x :: y :: ys))
    with (x ++ String c (join (String c EmptyString) (y :: ys))).
  rewrite split_char_app by assumption.
  rewrite IH by (assumption || discriminate). reflexivity.
Qed.

Lemma str_in_clean comp : clean comp -> str_in comp [EmptyString; "."] = false.
Proof.
intros (H1 & H2 & _). unfold str_in, existsb.
destruct (String.eqb_spec comp EmptyString); [contradiction|].
destruct (String.eqb_spec comp "."); [contradiction|]. reflexivity.
Qed.

Lemma norm_step_clean initial acc comp :
clean comp -> norm_step initial acc comp = comp :: acc.
Proof.
intros H. unfold norm_step. rewrite (str_in_clean _ H).
destruct H as (_ & _ & H3 & _).
destruct (String.eqb_spec comp ".."); [contradiction|]. reflexivity.
Qed.

Lemma fold_norm_clean initial comps acc :
Forall clean comps ->
fold_left (norm_step initial) comps acc = (rev comps ++ acc)%list.
Proof.
revert acc. induction comps as [|x xs IH]; intros acc H; [reflexivity|].
inversion H; subst. simpl. rewrite norm_step_clean by assumption.
rewrite IH by assumption. now rewrite <- app_assoc.
Qed.

(** Rooted paths: what normpath produces from an absolute path. *)
Lemma fold_norm_invariant initial comps acc :
initial <> 0%nat ->
Forall (fun x => has_char "/" x = false) comps ->
Forall clean acc ->
Forall clean (fold_left (norm_step initial) comps acc).
Proof.
intros Hi. revert acc. induction comps as [|x xs IH]; intros acc Hc Ha;
  [exact Ha|].
inversion Hc as [|? ? Hx Hxs]; subst. simpl. apply IH; [assumption|].
unfold norm_step.
destruct (str_in x [EmptyString; "."]) eqn:E1; [assumption|].
unfold str_in, existsb in E1.
destruct (String.eqb_spec x EmptyString); [discriminate|].
destruct (String.eqb_spec x "."); [discriminate|].
destruct (String.eqb_spec x "..") as [-> | Hdd]; simpl.
- destruct initial; [contradiction|]. simpl.
  destruct acc as [|last rest]; [constructor|].
  inversion Ha as [|? ? Hl Hr]; subst.
  destruct (String.eqb_spec last "..") as [-> | _].
  + now destruct Hl as (_ & _ & Hl & _).
  + assumption.
- constructor; [|assumption]. repeat split; assumption.
Qed.

Lemma clean_head comp :
clean comp -> exists a r, comp = String a r /\ Ascii.eqb "/" a = false.
Proof.
intros (H1 & _ & _ & H4). destruct comp as [|a r]; [congruence|].
exists a, r. split; [reflexivity|]. simpl in H4.
apply orb_false_iff in H4 as [H4 _]. now rewrite Ascii.eqb_sym.
Qed.

Lemma join_head comps :
Forall clean comps ->
join "/" comps = EmptyString
\/ exists a r, join "/" comps = String a r /\ Ascii.eqb "/" a = false.
Proof.
intros H. destruct comps as [|x xs]; [now left|]. right.
inversion H as [|? ? Hx _]; subst.
destruct (clean_head _ Hx) as (a & r & -> & Ha).
destruct xs; simpl; eauto.
Qed.

Lemma rooted_facts n comps :
(n = 1 \/ n = 2)%nat -> Forall clean comps ->
startswith "/" (rooted n comps) = true
/\ initial_slashes (rooted n comps) = n
/\ splitroot (rooted n comps) = (slashes n, join "/" comps).
Proof.
intros Hn Hc. unfold rooted, initial_slashes, splitroot.
destruct (join_head _ Hc) as [-> | (a & r & -> & Ha)];
  destruct Hn as [-> | ->]; cbn -[Ascii.eqb]; rewrite ?Ascii.eqb_refl, ?Ha;
  cbn -[Ascii.eqb]; auto.
Qed.

Lemma tail_rooted n comps :
(n = 1 \/ n = 2)%nat -> Forall clean comps -> tail (rooted n comps) = comps.
Proof.
intros Hn Hc. unfold tail.
destruct (rooted_facts n comps Hn Hc) as (_ & _ & ->). simpl snd.
destruct comps as [|x xs]; [reflexivity|].
rewrite split_join.
- apply forallb_filter_id. apply forallb_forall. intros y Hy.
  rewrite Forall_forall in Hc. now rewrite (str_in_clean _ (Hc y Hy)).
- discriminate.
- eapply Forall_impl; [|exact Hc]. now intros y (_ & _ & _ & H).
Qed.

Lemma slashes_nonempty n r :
  (n = 1 \/ n = 2)%nat -> slashes n ++ r <> EmptyString.
Proof. intros [-> | ->]; discriminate. Qed.

Lemma str_rooted n comps :
(n = 1 \/ n = 2)%nat -> Forall clean comps ->
str (rooted n comps) = rooted n comps.
Proof.
intros Hn Hc. unfold str. rewrite (tail_rooted n comps Hn Hc).
destruct (rooted_facts n comps Hn Hc) as (_ & _ & ->). simpl fst.
fold (rooted n comps). pose proof (slashes_nonempty n (join "/" comps) Hn).
unfold rooted in *. destruct (slashes n ++ join "/" comps); congruence.
Qed.

Lemma split_rooted n comps :
(n = 1 \/ n = 2)%nat ->
split_char "/" (rooted n comps)
= (repeat EmptyString n ++ split_char "/" (join "/" comps))%list.
Proof. intros [-> | ->]; reflexivity. Qed.

Lemma fold_norm_skip initial n comps acc :
fold_left (norm_step initial) (repeat EmptyString n ++ comps)%list acc
= fold_left (norm_step initial) comps acc.
Proof. induction n; [reflexivity | exact IHn]. Qed.

Lemma normpath_rooted n comps :
(n = 1 \/ n = 2)%nat -> Forall clean comps ->
normpath (rooted n comps) = rooted n comps.
Proof.
intros Hn Hc. unfold normpath.
destruct (rooted_facts n comps Hn Hc) as (_ & -> & _).
rewrite (split_rooted n comps Hn), fold_norm_skip.
assert (E : fold_left (norm_step n) (split_char "/" (join "/" comps)) []
            = rev comps).
{ destruct comps as [|x xs]; [reflexivity|].
  rewrite split_join.
  - rewrite fold_norm_clean by assumption. apply app_nil_r.
  - discriminate.
  - eapply Forall_impl; [|exact Hc]. now intros y (_ & _ & _ & H). }
rewrite E, rev_involutive. fold (rooted n comps).
pose proof (slashes_nonempty n (join "/" comps) Hn) as Hne.
unfold rooted in *.
destruct (slashes n ++ join "/" comps) eqn:E'; congruence.
Qed.

(** What [normpath] makes of an absolute path. *)
Lemma normpath_absolute p :
startswith "/" p = true ->
exists n comps, (n = 1 \/ n = 2)%nat /\ Forall clean comps
                /\ normpath p = rooted n comps.
Proof.
intros Hp. destruct p as [|a p]; [discriminate|].
unfold normpath.
set (n := initial_slashes (String a p)).
assert (Hn : (n = 1 \/ n = 2)%nat).
{ unfold n, initial_slashes. rewrite Hp. destruct (_ && _); auto. }
set (comps := rev (fold_left (norm_step n) (split_char "/" (String a p)) [])).
assert (Hc : Forall clean comps).
{ unfold comps. apply Forall_rev. apply fold_norm_invariant.
  - destruct Hn; lia.
  - apply split_char_no_sep.
  - constructor. }
exists n, comps. split; [exact Hn|]. split; [exact Hc|].
pose proof (slashes_nonempty n (join "/" comps) Hn) as Hne.
unfold rooted. destruct (slashes n ++ join "/" comps); congruence.
Qed.

(** A path that [validate_path] returns is a path that [validate_path]
  returns unchanged, and one that [Path(...).absolute()] leaves as it
  is. *)
Lemma validate_path_fixed (p0 p : string) :
TesOutput.validate_path p0 = inr p ->
TesOutput.validate_path p = inr p /\ forall cwd, absolute cwd p = p.
Proof.
intros H.
assert (E : exists n comps, (n = 1 \/ n = 2)%nat /\ Forall clean comps
              /\ p = rooted n comps
              /\ (Z.of_nat (List.length (parts p)) <? 3)%Z = false).
{ unfold TesOutput.validate_path in H.
  destruct (startswith "/" p0) eqn:Hs; cbn [negb] in H; [|discriminate].
  destruct (normpath_absolute p0 Hs) as (n & comps & Hn & Hc & E).
  rewrite E in H.
  destruct (Z.of_nat (List.length (parts (rooted n comps))) <? 3)%Z eqn:Hl;
    [discriminate|].
  injection H as <-. exists n, comps. auto. }
destruct E as (n & comps & Hn & Hc & -> & Hl).
destruct (rooted_facts n comps Hn Hc) as (Hr & _ & _).
unfold TesOutput.validate_path. rewrite Hr. cbn [negb].
rewrite (normpath_rooted n comps Hn Hc), Hl. split; [reflexivity|].
intros cwd. unfold absolute. rewrite Hr. now apply str_rooted.
Qed.

End PathFacts.

(** ** The round trip of the models *)

Section Lookup.
Context {A : Type}.
Variables (ser : A -> pyvalue) (k k' : string).

Lemma dict_get_req_here (x : A) rest :
  dict_get k (dump_req ser k x ++ rest)%list = Some (ser x).
Proof. simpl. now rewrite String.eqb_refl. Qed.

Lemma dict_get_req_last (x : A) :
  dict_get k (dump_req ser k x) = Some (ser x).
Proof. simpl. now rewrite String.eqb_refl. Qed.

Lemma dict_get_req_skip (x : A) rest :
  String.eqb k' k = false ->
  dict_get k (dump_req ser k' x ++ rest)%list = dict_get k rest.
Proof. intros H. simpl. now rewrite H. Qed.

Lemma dict_get_req_last_skip (x : A) :
  String.eqb k' k = false -> dict_get k (dump_req ser k' x) = None.
Proof. intros H. simpl. now rewrite H. Qed.

Lemma dict_get_opt_here (x : option A) rest :
  dict_get k (dump_opt ser k x ++ rest)%list
  = match x with Some a => Some (ser a) | None => dict_get k rest end.
Proof. destruct x; simpl; [now rewrite String.eqb_refl | reflexivity]. Qed.

Lemma dict_get_opt_last (x : option A) :
  dict_get k (dump_opt ser k x) = option_map ser x.
Proof. destruct x; simpl; [now rewrite String.eqb_refl | reflexivity]. Qed.

Lemma dict_get_opt_skip (x : option A) rest :
  String.eqb k' k = false ->
  dict_get k (dump_opt ser k' x ++ rest)%list = dict_get k rest.
Proof. intros H. destruct x; simpl; [now rewrite H | reflexivity]. Qed.

Lemma dict_get_opt_last_skip (x : option A) :
  String.eqb k' k = false -> dict_get k (dump_opt ser k' x) = None.
Proof. intros H. destruct x; simpl; [now rewrite H | reflexivity]. Qed.
End Lookup.

Ltac lookup :=
  repeat first
    [ rewrite dict_get_req_here
    | rewrite dict_get_opt_here
    | rewrite dict_get_req_last
    | rewrite dict_get_opt_last
    | rewrite dict_get_req_skip by reflexivity
    | rewrite dict_get_opt_skip by reflexivity
    | rewrite dict_get_req_last_skip by reflexivity
    | rewrite dict_get_opt_last_skip by reflexivity ].

Lemma required_dump {A : Type} (v : pyvalue -> option A) (ser : A -> pyvalue)
    (k : string) (d : dict) (x : A) (r : option A) :
  dict_get k d = Some (ser x) -> v (ser x) = r -> required v k d = r.
Proof. unfold required. now intros -> ->. Qed.

Lemma optional_dump {A : Type} (v : pyvalue -> option A)
    (ser : A -> pyvalue) (dflt : option A) (k : string) (d : dict)
    (x : option A) (f : A -> A) :
  dict_get k d = option_map ser x ->
  never_none ser ->
  (forall a, x = Some a -> v (ser a) = Some (f a)) ->
  optional v dflt k d = Some (or_default dflt f x).
Proof.
  unfold optional. intros -> Hn Hv. destruct x as [a|]; simpl; [|reflexivity].
  specialize (Hn a). specialize (Hv a eq_refl).
  destruct (ser a); try congruence; now rewrite Hv.
Qed.

Lemma traverse_map {A : Type} (v : pyvalue -> option A) (ser : A -> pyvalue)
    (f : A -> A) (l : list A) :
  (forall a, In a l -> v (ser a) = Some (f a)) ->
  traverse v (map ser l) = Some (map f l).
Proof.
  induction l as [|a l IH]; intros H; [reflexivity|]. simpl.
  rewrite (H a) by now left. rewrite IH; [reflexivity|].
  intros b Hb. apply H. now right.
Qed.

Lemma v_list_str (l : list string) : v_list v_str (ser_list PStr l) = Some l.
Proof.
  unfold v_list, ser_list. rewrite (traverse_map _ _ (fun a => a)).
  - now rewrite map_id.
  - reflexivity.
Qed.

Lemma v_dict_ser (d : list (string * string)) : v_dict (ser_dict d) = Some d.
Proof.
  unfold v_dict, ser_dict. induction d as [|[k v] d IH]; [reflexivity|].
  simpl in *. now rewrite IH.
Qed.

Lemma or_default_id {A : Type} (x : option A) :
  or_default None (fun a => a) x = x.
Proof. now destruct x. Qed.

Ltac never_none_tac :=
  let a := fresh in
  intros a; unfold ser_list, ser_dict; try destruct a; simpl; discriminate.

Ltac lookup_eq :=
  lookup;
  match goal with
  | |- match ?x with _ => _ end = _ => destruct x; reflexivity
  | |- _ => reflexivity
  end.

(** The round-trip lemmas proved so far, for the value of a field. *)
Ltac roundtrip_lemma := first [ apply v_list_str | apply v_dict_ser ].

Ltac field_value :=
  let a := fresh "a" in let Ha := fresh "Ha" in
  intros a Ha;
  first [ reflexivity | roundtrip_lemma; solve [eauto] ].

(** Rewrites the first [required] or [optional] of a validation of a dump
    into the value the field comes back with. *)
Ltac field_step :=
  match goal with
  | |- context [required ?v ?k ?d] =>
      match d with
      | context [dump_req ?ser k ?x] =>
          erewrite (required_dump v ser k d x);
          [ | lookup_eq
            | first [ roundtrip_lemma; solve [eauto] | (simpl; reflexivity) ] ]
      end
  | |- context [optional ?v ?dflt ?k ?d] =>
      match d with
      | context [dump_opt ?ser k ?x] =>
          erewrite (optional_dump v ser dflt k d x);
          [ | lookup_eq | never_none_tac | field_value ]
      end
  end.

Lemma TesFileType_of_value (v : TesFileType.t) :
  TesInput.v_type (PStr (TesFileType.value v)) = Some v.
Proof. now destruct v. Qed.

Lemma TesState_of_value (v : TesState.t) :
  TesTask.v_state (PStr (TesState.value v)) = Some v.
Proof. now destruct v. Qed.

Lemma v_path_valid {W : World} (o : TesOutput.t) :
  valid_output o ->
  TesOutput.v_path (PStr (TesOutput.serialize_path (TesOutput.path o)))
  = Some (TesOutput.path o).
Proof.
  intros [p0 Hp]. apply PathFacts.validate_path_fixed in Hp as [Hv Ha].
  unfold TesOutput.v_path, TesOutput.serialize_path. simpl.
  now rewrite Ha, Hv.
Qed.

Lemma v_list_models {A : Type} (v : pyvalue -> option A)
    (ser : A -> pyvalue) (f : A -> A) (l : list A) :
  (forall a, In a l -> v (ser a) = Some (f a)) ->
  v_list v (ser_list ser l) = Some (map f l).
Proof. intros H. unfold v_list, ser_list. now apply traverse_map. Qed.

Lemma v_list_same {A : Type} (v : pyvalue -> option A)
    (ser : A -> pyvalue) (l : list A) :
  (forall a, v (ser a) = Some a) -> v_list v (ser_list ser l) = Some l.
Proof.
  intros H. rewrite (v_list_models v ser (fun a => a)); [|auto].
  now rewrite map_id.
Qed.

Ltac roundtrip_lemma ::=
  first [ apply v_list_str | apply v_dict_ser | apply TesFileType_of_value
        | apply TesState_of_value | apply v_path_valid ].

Lemma TesExecutor_roundtrip (m : TesExecutor.t) :
  TesExecutor.model_validate (TesExecutor.model_dump m) = Some m.
Proof.
  unfold TesExecutor.model_validate, TesExecutor.model_dump, v_model,
    TesExecutor.validate.
  repeat field_step. rewrite !or_default_id. now destruct m.
Qed.

Lemma TesOutputFileLog_roundtrip (m : TesOutputFileLog.t) :
  TesOutputFileLog.model_validate (TesOutputFileLog.model_dump m) = Some m.
Proof.
  unfold TesOutputFileLog.model_validate, TesOutputFileLog.model_dump,
    v_model, TesOutputFileLog.validate.
  repeat field_step. now destruct m.
Qed.

Lemma TesExecutorLog_roundtrip {W : World} (m : TesExecutorLog.t) :
  TesExecutorLog.model_validate (TesExecutorLog.model_dump m)
  = Some (Reparsed.TesExecutorLog m).
Proof.
  unfold TesExecutorLog.model_validate, TesExecutorLog.model_dump, v_model,
    TesExecutorLog.validate.
  repeat field_step. rewrite !or_default_id. reflexivity.
Qed.

Lemma TesInput_roundtrip {W : World} (m : TesInput.t) :
  TesInput.model_validate (TesInput.model_dump m)
  = Some (Reparsed.TesInput m).
Proof.
  unfold TesInput.model_validate, TesInput.model_dump, v_model,
    TesInput.validate.
  repeat field_step. rewrite !or_default_id. reflexivity.
Qed.

Lemma TesOutput_roundtrip {W : World} (m : TesOutput.t) :
  valid_output m ->
  TesOutput.model_validate (TesOutput.model_dump m)
  = Some (Reparsed.TesOutput m).
Proof.
  intros Hv.
  unfold TesOutput.model_validate, TesOutput.model_dump, v_model,
    TesOutput.validate.
  repeat field_step. rewrite !or_default_id. reflexivity.
Qed.

Lemma TesResources_roundtrip (m : TesResources.t) :
  TesResources.model_validate (TesResources.model_dump m)
  = Some (Reparsed.TesResources m).
Proof.
  unfold TesResources.model_validate, TesResources.model_dump, v_model,
    TesResources.validate.
  repeat field_step. rewrite !or_default_id. reflexivity.
Qed.

Lemma v_list_TesExecutor (l : list TesExecutor.t) :
  v_list TesExecutor.model_validate (ser_list TesExecutor.model_dump l)
  = Some l.
Proof. apply v_list_same, TesExecutor_roundtrip. Qed.

Lemma v_list_TesOutputFileLog (l : list TesOutputFileLog.t) :
  v_list TesOutputFileLog.model_validate
    (ser_list TesOutputFileLog.model_dump l) = Some l.
Proof. apply v_list_same, TesOutputFileLog_roundtrip. Qed.

Lemma v_list_TesExecutorLog {W : World} (l : list TesExecutorLog.t) :
  v_list TesExecutorLog.model_validate
    (ser_list TesExecutorLog.model_dump l)
  = Some (map Reparsed.TesExecutorLog l).
Proof. apply v_list_models. intros a _. apply TesExecutorLog_roundtrip. Qed.

Lemma v_list_TesInput {W : World} (l : list TesInput.t) :
  v_list TesInput.model_validate (ser_list TesInput.model_dump l)
  = Some (map Reparsed.TesInput l).
Proof. apply v_list_models. intros a _. apply TesInput_roundtrip. Qed.

Lemma v_list_TesOutput {W : World} (l : list TesOutput.t) :
  Forall valid_output l ->
  v_list TesOutput.model_validate (ser_list TesOutput.model_dump l)
  = Some (map Reparsed.TesOutput l).
Proof.
  intros H. apply v_list_models. intros a Ha.
  apply TesOutput_roundtrip. rewrite Forall_forall in H. now apply H.
Qed.

Ltac roundtrip_lemma ::=
  first [ apply v_list_str | apply v_dict_ser | apply TesFileType_of_value
        | apply TesState_of_value | apply v_path_valid
        | apply v_list_TesExecutor | apply v_list_TesOutputFileLog
        | apply v_list_TesExecutorLog | apply v_list_TesInput
        | apply v_list_TesOutput | apply TesResources_roundtrip ].

Lemma TesTaskLog_roundtrip {W : World} (m : TesTaskLog.t) :
  TesTaskLog.model_validate (TesTaskLog.model_dump m)
  = Some (Reparsed.TesTaskLog m).
Proof.
  unfold TesTaskLog.model_validate, TesTaskLog.model_dump, v_model,
    TesTaskLog.validate.
  repeat field_step. rewrite !or_default_id. reflexivity.
Qed.

Lemma v_list_TesTaskLog {W : World} (l : list TesTaskLog.t) :
  v_list TesTaskLog.model_validate (ser_list TesTaskLog.model_dump l)
  = Some (map Reparsed.TesTaskLog l).
Proof. apply v_list_models. intros a _. apply TesTaskLog_roundtrip. Qed.

Ltac roundtrip_lemma ::=
  first [ apply v_list_str | apply v_dict_ser | apply TesFileType_of_value
        | apply TesState_of_value | apply v_path_valid
        | apply v_list_TesExecutor | apply v_list_TesOutputFileLog
        | apply v_list_TesExecutorLog | apply v_list_TesInput
        | apply v_list_TesOutput | apply TesResources_roundtrip
        | apply v_list_TesTaskLog ].

(** What validation makes of the dump of a task. *)
Lemma TesTask_roundtrip {W : World} (m : TesTask.t) :
  valid_task m ->
  TesTask.model_validate (TesTask.model_dump m) = Some (Reparsed.TesTask m).
Proof.
  intros Hv. unfold valid_task in Hv.
  unfold TesTask.model_validate, TesTask.model_dump, v_model,
    TesTask.validate.
  repeat field_step. rewrite !or_default_id. reflexivity.
Qed.

(** *** Tasks that validation builds are valid *)

Lemma traverse_Forall {A B : Type} (P : B -> Prop) (v : A -> option B)
    (l : list A) (l' : list B) :
  (forall x b, v x = Some b -> P b) ->
  traverse v l = Some l' -> Forall P l'.
Proof.
  intros Hv. revert l'. induction l as [|x l IH]; simpl; intros l' H.
  - injection H as <-. constructor.
  - destruct (v x) as [b|] eqn:Eb; [|discriminate].
    destruct (traverse v l) as [bs|]; [|discriminate].
    injection H as <-. constructor; eauto.
Qed.

Lemma TesOutput_validated (x : pyvalue) (o : TesOutput.t) :
  TesOutput.model_validate x = Some o -> valid_output o.
Proof.
  unfold TesOutput.model_validate, v_model. destruct x; try discriminate.
  unfold TesOutput.validate.
  repeat match goal with
  | |- match ?m with _ => _ end = _ -> _ =>
      let E := fresh "E" in destruct m eqn:E; [|discriminate]
  end.
  intros [= <-]. unfold valid_output. simpl.
  match goal with
  | H : required TesOutput.v_path _ _ = _ |- _ =>
      unfold required in H; destruct (dict_get "path" _) as [raw|];
      [|discriminate]; unfold TesOutput.v_path in H
  end.
  destruct (v_str raw) as [p0|]; [|discriminate]. exists p0.
  destruct (TesOutput.validate_path p0); congruence.
Qed.

Lemma TesTask_validated {W : World} (x : pyvalue) (t : TesTask.t) :
  TesTask.model_validate x = Some t -> valid_task t.
Proof.
  unfold TesTask.model_validate, v_model. destruct x; try discriminate.
  unfold TesTask.validate.
  repeat match goal with
  | |- match ?m with _ => _ end = _ -> _ =>
      let E := fresh "E" in destruct m eqn:E; [|discriminate]
  end.
  intros [= <-]. unfold valid_task. simpl. intros outs ->.
  match goal with
  | H : optional (v_list TesOutput.model_validate) _ _ _ = _ |- _ =>
      unfold optional in H; destruct (dict_get "outputs" _) as [raw|];
      [|discriminate]
  end.
  destruct raw; try discriminate; simpl in *.
  match goal with
  | H : option_map _ ?m = _ |- _ => destruct m eqn:Et; [|discriminate];
      injection H as ->
  end.
  eapply traverse_Forall; [|exact Et]. apply TesOutput_validated.
Qed.

(** *** The reparsed task agrees with the task on the populated fields *)

Lemma populated_or_default {A : Type} (R : A -> A -> Prop)
    (dflt : option A) (f : A -> A) (x : option A) :
  (forall a, x = Some a -> R a (f a)) -> populated R x (or_default dflt f x).
Proof. destruct x as [a|]; simpl; eauto. Qed.

Lemma populated_same {A : Type} (x : option A) : populated eq x x.
Proof. destruct x; simpl; eauto. Qed.

Lemma Forall2_map_r {A : Type} (R : A -> A -> Prop) (f : A -> A)
    (l : list A) :
  (forall a, In a l -> R a (f a)) -> Forall2 R l (map f l).
Proof.
  induction l as [|a l IH]; intros H; constructor.
  - apply H. now left.
  - apply IH. intros b Hb. apply H. now right.
Qed.

Ltac agree_fields :=
  repeat apply conj;
  try reflexivity;
  try apply populated_same;
  try (apply populated_or_default; intros; reflexivity).

Lemma agree_TesExecutorLog {W : World} (m : TesExecutorLog.t) :
  Agree.TesExecutorLog m (Reparsed.TesExecutorLog m).
Proof. unfold Agree.TesExecutorLog. simpl. agree_fields. Qed.

Lemma agree_TesInput {W : World} (m : TesInput.t) :
  stable_input m -> Agree.TesInput m (Reparsed.TesInput m).
Proof.
  intros H. unfold Agree.TesInput. simpl. agree_fields. now rewrite H.
Qed.

Lemma agree_TesOutput (m : TesOutput.t) :
  Agree.TesOutput m (Reparsed.TesOutput m).
Proof. unfold Agree.TesOutput. simpl. agree_fields. Qed.

Lemma agree_TesResources (m : TesResources.t) :
  Agree.TesResources m (Reparsed.TesResources m).
Proof. unfold Agree.TesResources. simpl. agree_fields. Qed.

Lemma agree_TesTaskLog {W : World} (m : TesTaskLog.t) :
  Agree.TesTaskLog m (Reparsed.TesTaskLog m).
Proof.
  unfold Agree.TesTaskLog. simpl. agree_fields.
  apply Forall2_map_r. intros a _. apply agree_TesExecutorLog.
Qed.

Lemma agree_TesTask {W : World} (m : TesTask.t) :
  stable_inputs m -> Agree.TesTask m (Reparsed.TesTask m).
Proof.
  intros Hs. unfold Agree.TesTask. simpl. agree_fields.
  - apply populated_or_default. intros l Hl. apply Forall2_map_r.
    intros a Ha. apply agree_TesInput.
    specialize (Hs l Hl). rewrite Forall_forall in Hs. now apply Hs.
  - apply populated_or_default. intros l _. apply Forall2_map_r.
    intros a _. apply agree_TesOutput.
  - apply populated_or_default. intros a _. apply agree_TesResources.
  - apply populated_or_default. intros l _. apply Forall2_map_r.
    intros a _. apply agree_TesTaskLog.
Qed.

(** C9 (amended).  For every valid task whose input paths are already as
    the path serializer writes them, dumping the task to the wire format
    and validating the dump succeeds, and the task that comes back has
    identical values in every populated optional field, and in every
    required one, at every level of nesting.  A field that was [None] comes
    back as its default: the task is [Reparsed.TesTask t]. *)
Theorem task_roundtrip_on_populated_fields {W : World} (t : TesTask.t) :
  valid_task t ->
  stable_inputs t ->
  TesTask.model_validate (TesTask.model_dump t) = Some (Reparsed.TesTask t)
  /\ Agree.TesTask t (Reparsed.TesTask t).
Proof.
  intros Hv Hs.
  split; [now apply TesTask_roundtrip | now apply agree_TesTask].
Qed.

(** In particular for every task that validation has built from a
    document. *)
Corollary parsed_task_roundtrip {W : World} (x : pyvalue) (t : TesTask.t) :
  TesTask.model_validate x = Some t ->
  stable_inputs t ->
  exists t',
    TesTask.model_validate (TesTask.model_dump t) = Some t'
    /\ Agree.TesTask t t'.
Proof.
  intros Hx Hs. exists (Reparsed.TesTask t).
  split; [apply TesTask_roundtrip | now apply agree_TesTask].
  now apply (TesTask_validated x).
Qed.

(* ===================================================================== *)
(** * The properties at work in the sample world *)

(** The examples of the specification. *)

Example classify_below_threshold :
  _analyze_task_status "RUNNING" (Fin (49 # 10)) 5 = TaskStatus.STILL_RUNNING.
Proof. reflexivity. Qed.

Example classify_at_threshold :
  _analyze_task_status "RUNNING" (Fin 5) 5 = TaskStatus.STILL_RUNNING_TIMEOUT.
Proof. reflexivity. Qed.

Example classify_complete :
  _analyze_task_status "COMPLETE" (Fin 1000) 1 = TaskStatus.COMPLETED_SUCCESS.
Proof. reflexivity. Qed.

Example interval_queued :
  _calculate_adaptive_interval Sample.constants "QUEUED" (Fin 100) = 5.
Proof. reflexivity. Qed.

Example interval_first_minute :
  _calculate_adaptive_interval Sample.constants "RUNNING" (Fin (1 # 2)) = 2.
Proof. reflexivity. Qed.

Example duration_ten_minutes :
  @_calculate_task_duration (Sample.serving Sample.running_task)
    (Some "2024-01-01T00:00:00Z") = ret (Fin 10).
Proof. reflexivity. Qed.

Example duration_malformed :
  @_calculate_task_duration (Sample.serving Sample.running_task)
    (Some "not-a-date") = ret (Fin 0).
Proof. reflexivity. Qed.

(** The task was created ten minutes ago and the caller waits for five,
    yet the report says 0.0 minutes and still_running. *)
Lemma wait_sees_no_creation_time_witness :
  exists p,
    result (@wait_for_task_completion (Sample.serving Sample.running_task)
              Sample.constants "task-1" 5) = inr p
    /\ task_duration_minutes p = Fin 0
    /\ status p = "still_running"
    /\ task_name p = "Unnamed Task"
    /\ estimated_wait_time p = 2.
Proof.
  eexists. split; [reflexivity|].
  destruct (@wait_sees_no_creation_time (Sample.serving Sample.running_task)
              Sample.constants "task-1" 5 _ eq_refl)
    as (_ & _ & _ & _ & _ & _ & Hd & _ & Hn & Hi).
  split; [exact Hd|]. split; [reflexivity|]. split; [exact Hn | exact Hi].
Defined.

Lemma get_task_invalid_view_fails_fast_witness :
  "bogus" <> EmptyString
  /\ requests (@get_task_logic (Sample.serving Sample.running_task)
                 Sample.constants "task-1" "bogus") = [].
Proof.
  split; [discriminate|].
  destruct (@get_task_invalid_view_fails_fast
              (Sample.serving Sample.running_task) Sample.constants
              "task-1" "bogus") as [[msg ->] _];
    [discriminate | reflexivity | reflexivity].
Defined.

(** C5, as stated, at the empty view: uppercased and trimmed it is none of
    the three names, yet the facade goes to the network (with BASIC) and
    returns the task. *)
Lemma empty_view_is_not_rejected :
  str_in (@strip (Sample.serving Sample.running_task)
            (@upper (Sample.serving Sample.running_task) EmptyString))
    ["MINIMAL"; "BASIC"; "FULL"] = false
  /\ map endpoint
       (requests (@get_task_logic (Sample.serving Sample.running_task)
                    Sample.constants "task-1" EmptyString))
     = ["http://tes.example/tasks/task-1?view=BASIC"]
  /\ (exists r,
        result (@get_task_logic (Sample.serving Sample.running_task)
                  Sample.constants "task-1" EmptyString) = inr r).
Proof.
  split; [reflexivity|]. split; [reflexivity|]. eexists. reflexivity.
Qed.

Lemma create_task_logic_rejects_no_executors_witness :
  TesTask.executors Sample.task_without_executors = []
  /\ requests (@create_task_logic (Sample.serving Sample.running_task)
                 Sample.constants Sample.task_without_executors) = [].
Proof.
  split; [reflexivity|].
  apply (@create_task_logic_rejects_no_executors
           (Sample.serving Sample.running_task) Sample.constants
           Sample.task_without_executors).
  reflexivity.
Defined.

(** C7, as stated, at two configurations.  Without a token: the URL is
    set, every number is in range and the service answers, yet validation
    returns a message and startup fails.  With a token and a service that
    cannot be reached: validation returns no message, yet startup fails. *)
Lemma missing_token_fails_startup :
  (~ url_missing Sample.constants_without_token
   /\ ~ numeric_out_of_range Sample.constants_without_token
   /\ token_missing Sample.constants_without_token
   /\ ~ @service_unhealthy (Sample.serving Sample.running_task)
          Sample.constants_without_token
   /\ Constants.validate_config Sample.constants_without_token
      = ["TES_TOKEN environment variable should be set for secure authentication"]
   /\ @startup_fails (Sample.serving Sample.running_task)
        Sample.constants_without_token = true)
  /\ (~ url_missing Sample.constants
      /\ ~ numeric_out_of_range Sample.constants
      /\ Constants.validate_config Sample.constants = []
      /\ @startup_fails Sample.unreachable Sample.constants = true).
Proof.
  assert (Hn : forall c,
             Constants.REQUEST_TIMEOUT c = 60 -> Constants.MAX_RETRIES c = 3 ->
             Constants.BACKOFF_FACTOR c = Fin 1 ->
             Constants.MCP_PORT c = 8080 ->
             Constants.TASK_POLL_INTERVAL c = 5 ->
             Constants.TASK_POLL_MAX_ATTEMPTS c = 120 ->
             ~ numeric_out_of_range c).
  { intros c H1 H2 H3 H4 H5 H6. unfold numeric_out_of_range, le.
    rewrite H1, H2, H3, H4, H5, H6.
    intros [H | [H | [H | [[H | H] | [H | H]]]]]; try lia; discriminate. }
  split.
  - split; [discriminate|]. split; [now apply Hn|]. split; [reflexivity|].
    split; [|split; reflexivity].
    intros H. eapply H; reflexivity.
  - split; [discriminate|]. split; [now apply Hn|]. split; reflexivity.
Qed.

Lemma task_roundtrip_on_populated_fields_witness :
  valid_task Sample.task_with_files
  /\ @stable_inputs (Sample.serving Sample.running_task)
       Sample.task_with_files
  /\ @TesTask.model_validate (Sample.serving Sample.running_task)
       (@TesTask.model_dump (Sample.serving Sample.running_task)
          Sample.task_with_files)
     = Some Sample.task_with_files.
Proof.
  assert (Hv : valid_task Sample.task_with_files).
  { intros l [= <-]. constructor; [|constructor].
    exists "/data/outfile". reflexivity. }
  assert (Hs : @stable_inputs (Sample.serving Sample.running_task)
                 Sample.task_with_files).
  { intros l [= <-]. constructor; [|constructor]. reflexivity. }
  split; [exact Hv|]. split; [exact Hs|].
  destruct (@task_roundtrip_on_populated_fields
              (Sample.serving Sample.running_task) Sample.task_with_files
              Hv Hs) as [E _].
  rewrite E. reflexivity.
Defined.

(** C9, as stated, at two tasks that validation builds.  The first has the
    input directory [/data/dir/]: its [inputs] are populated, and the round
    trip brings the input back with the path [/data/dir], because the path
    of an input is not normalised when the input is validated (as the path
    of an output is) but is rewritten when the input is dumped.  The second
    has an input whose [type] is null: the dump leaves the [None] out and
    validation puts the default, FILE, in its place, so the populated
    [inputs] come back with another value.  (A relative input path comes
    back prefixed with the working directory of the process; an output
    comes back as it was.) *)
Lemma roundtrip_changes_populated_inputs :
  (@TesTask.model_validate (Sample.serving Sample.running_task)
     Sample.directory_task_document = Some Sample.directory_task
   /\ @TesTask.model_validate (Sample.serving Sample.running_task)
        (@TesTask.model_dump (Sample.serving Sample.running_task)
           Sample.directory_task)
      = Some (Sample.task (Some [Sample.input "/data/dir"]) None
                [Sample.executor])
   /\ TesTask.inputs Sample.directory_task
      <> TesTask.inputs
           (Sample.task (Some [Sample.input "/data/dir"]) None
              [Sample.executor])
   /\ ~ Agree.TesTask Sample.directory_task
          (Sample.task (Some [Sample.input "/data/dir"]) None
             [Sample.executor]))
  /\ (@TesTask.model_validate (Sample.serving Sample.running_task)
        Sample.untyped_input_document = Some Sample.untyped_input_task
      /\ @TesTask.model_validate (Sample.serving Sample.running_task)
           (@TesTask.model_dump (Sample.serving Sample.running_task)
              Sample.untyped_input_task)
         = Some (Sample.task
                   (Some [Sample.typed_input (Some TesFileType.FILE)])
                   None [Sample.executor])
      /\ TesTask.inputs Sample.untyped_input_task
         <> TesTask.inputs
              (Sample.task
                 (Some [Sample.typed_input (Some TesFileType.FILE)])
                 None [Sample.executor]))
  /\ (@TesInput.model_validate
        (@TesInput.model_dump (Sample.serving Sample.running_task)
           (Sample.input "data/file1"))
      = Some (Sample.input "/srv/poiesis/data/file1")
      /\ @TesOutput.model_validate
           (@TesOutput.model_dump (Sample.serving Sample.running_task)
              Sample.output)
         = Some Sample.output).
Proof.
  split; [|split].
  - split; [reflexivity|]. split; [reflexivity|]. split; [discriminate|].
    unfold Agree.TesTask. simpl.
    intros (_ & _ & _ & _ & (b & [= <-] & H) & _).
    inversion H as [|? ? ? ? Hi _]; subst.
    destruct Hi as (_ & _ & _ & Hp & _). discriminate.
  - split; [reflexivity|]. split; [reflexivity | discriminate].
  - split; reflexivity.
Qed.

(* ===================================================================== *)
(** * Further properties of the code *)

(** ** Results and requests of composed code *)

Section Traces.
Context {A B : Type}.

Lemma result_bind (m : M A) (f : A -> M B) :
  result (bind m f)
  = match result m with
    | inr a => result (f a)
    | inl e => inl e
    end.
Proof.
  unfold bind, result. destruct m as [[e | a] log]; simpl; [reflexivity|].
  now destruct (f a).
Qed.

Lemma result_try_except (m : M A) (h : exn -> M A) :
  result (try_except m h)
  = match result m with
    | inl e => result (h e)
    | inr a => inr a
    end.
Proof.
  unfold try_except, result. destruct m as [[e | a] log]; simpl;
    [|reflexivity].
  now destruct (h e).
Qed.

Lemma requests_bind (m : M A) (f : A -> M B) :
  requests (bind m f)
  = (requests m ++ match result m with
                   | inr a => requests (f a)
                   | inl _ => []
                   end)%list.
Proof.
  unfold bind, requests, result. destruct m as [[e | a] log]; simpl.
  - now rewrite app_nil_r.
  - now destruct (f a).
Qed.

Lemma requests_try_except (m : M A) (h : exn -> M A) :
  requests (try_except m h)
  = (requests m ++ match result m with
                   | inl e => requests (h e)
                   | inr _ => []
                   end)%list.
Proof.
  unfold try_except, requests, result. destruct m as [[e | a] log]; simpl.
  - now destruct (h e).
  - now rewrite app_nil_r.
Qed.

Lemma quiet_ret (a : A) : quiet (ret a).
Proof. reflexivity. Qed.

Lemma quiet_raise (c : exn_class) (msg : string) : quiet (@raise A c msg).
Proof. reflexivity. Qed.

Lemma quiet_reraise (e : exn) : quiet (@reraise A e).
Proof. reflexivity. Qed.

Lemma quiet_bind (m : M A) (f : A -> M B) :
  quiet m -> (forall a, quiet (f a)) -> quiet (bind m f).
Proof.
  unfold quiet. intros Hm Hf. rewrite requests_bind, Hm.
  destruct (result m); [reflexivity | apply Hf].
Qed.

Lemma quiet_try_except (m : M A) (h : exn -> M A) :
  quiet m -> (forall e, quiet (h e)) -> quiet (try_except m h).
Proof.
  unfold quiet. intros Hm Hh. rewrite requests_try_except, Hm.
  destruct (result m); [apply Hh | reflexivity].
Qed.

End Traces.

(** Code built from [ret], [raise], [bind], [try_except] and branches
    issues no request. *)
Ltac quiet_tac :=
  repeat first
    [ apply quiet_ret | apply quiet_raise | apply quiet_reraise
    | apply quiet_bind; [|intros]
    | apply quiet_try_except; [|intros]
    | match goal with
      | |- quiet (if ?c then _ else _) => destruct c
      | |- quiet (match ?x with _ => _ end) => destruct x
      end
    | progress unfold raise_for_status, response_json, model_validate ].

Section SessionFacts.
Context {W : World}.

Lemma result_request (r : Request) :
  result (request r)
  = match send r with
    | Responded resp => inr resp
    | Raised e => inl e
    end.
Proof. unfold request. now destruct (send r). Qed.

Lemma requests_request (r : Request) : requests (request r) = [r].
Proof. unfold request. now destruct (send r). Qed.

(** A request, what is made of the response without the network, and
    handlers that stay off the network: one request in all. *)
Lemma requests_guarded_request {A : Type} (r : Request)
    (k : Response -> M A) (h : exn -> M A) :
  (forall a, quiet (k a)) -> (forall e, quiet (h e)) ->
  requests (try_except (bind (request r) k) h) = [r].
Proof.
  unfold quiet. intros Hk Hh.
  rewrite requests_try_except, requests_bind, requests_request.
  destruct (result (request r)) as [e | a] eqn:E.
  - cbn. destruct (result (bind (request r) k)); [now rewrite Hh | reflexivity].
  - rewrite Hk. cbn.
    destruct (result (bind (request r) k)); [now rewrite Hh | reflexivity].
Qed.

Lemma valid_view_cases (view : string) :
  str_in view PoiesisTesClient.valid_views = true ->
  view = "MINIMAL" \/ view = "BASIC" \/ view = "FULL".
Proof.
  unfold str_in, PoiesisTesClient.valid_views. cbn [existsb TesView.value].
  destruct (String.eqb_spec view "MINIMAL"); [auto|].
  destruct (String.eqb_spec view "BASIC"); [auto|].
  destruct (String.eqb_spec view "FULL"); [auto|]. discriminate.
Qed.

Lemma get_task_endpoint (self : PoiesisTesClient.t) (task_id view : string) :
  str_in view PoiesisTesClient.valid_views = true ->
  match view with
  | EmptyString => PoiesisTesClient.base_url self ++ "/tasks/" ++ task_id
  | String _ _ =>
      (PoiesisTesClient.base_url self ++ "/tasks/" ++ task_id)
      ++ "?view=" ++ view
  end = endpoint (get_task_request self task_id view).
Proof.
  intros Hv. destruct (valid_view_cases view Hv) as [-> | [-> | ->]];
    reflexivity.
Qed.

(** With a valid view, [get_task] issues its one request, whatever becomes
    of it. *)
Lemma get_task_requests (self : PoiesisTesClient.t) (task_id view : string) :
  str_in view PoiesisTesClient.valid_views = true ->
  requests (PoiesisTesClient.get_task self task_id (Some view))
  = [get_task_request self task_id view].
Proof.
  intros Hv. unfold PoiesisTesClient.get_task. rewrite Hv. cbn [negb].
  rewrite (get_task_endpoint self task_id view Hv).
  unfold PoiesisTesClient.session_get.
  apply requests_guarded_request; intros; quiet_tac.
Qed.

Lemma create_task_requests (self : PoiesisTesClient.t) (task : TesTask.t) :
  requests (PoiesisTesClient.create_task self task)
  = [create_task_request self task].
Proof.
  unfold PoiesisTesClient.create_task, PoiesisTesClient.session_post.
  apply requests_guarded_request; intros; quiet_tac.
Qed.

Lemma init_quiet (constants : Constants.t) (b a : option string)
    (t : option Z) :
  quiet (PoiesisTesClient.init constants b a t).
Proof. unfold PoiesisTesClient.init. quiet_tac. Qed.

End SessionFacts.

(** ** The client *)

Section ClientErrors.
Context {W : World}.

(** X1.  Whatever [get_task] raises is a plain [TESClientError] or a
    [TESServerError] with the text of the HTTPError clause: the
    exceptions for a missing task and for failed authentication that
    the body raises never leave the function. *)
Theorem get_task_error_classes (self : PoiesisTesClient.t)
    (task_id : string) (view : option string) (e : exn) :
  result (PoiesisTesClient.get_task self task_id view) = inl e ->
  cls e = TESClientError
  \/ (cls e = TESServerError
      /\ exists m,
           message e = "Failed to retrieve task " ++ task_id ++ ": " ++ m).
Proof.
  unfold PoiesisTesClient.get_task.
  destruct (negb (str_in _ PoiesisTesClient.valid_views)).
  - intros [= <-]. now left.
  - rewrite result_try_except.
    destruct (result (bind _ _)) as [e0 | td]; [|discriminate].
    destruct (isinstance e0 HTTPError).
    + intros [= <-]. right. split; [reflexivity|]. now exists (message e0).
    + destruct (_ || _); intros [= <-]; now left.
Qed.

(** X2.  A response with status 401, 403, 404 or at least 500 makes
    [get_task] raise a plain [TESClientError] that starts with
    [Unexpected error while retrieving task]; for 404 the rest is the
    text of the [TESTaskNotFoundError] that was raised inside. *)
Theorem get_task_refused_status (self : PoiesisTesClient.t)
    (task_id view : string) (resp : Response) :
  str_in view PoiesisTesClient.valid_views = true ->
  send (get_task_request self task_id view) = Responded resp ->
  refused_status (status_code resp) = true ->
  exists m,
    result (PoiesisTesClient.get_task self task_id (Some view))
    = inl {| cls := TESClientError;
             message := "Unexpected error while retrieving task "
                        ++ task_id ++ ": " ++ m |}
    /\ (status_code resp = 404 -> m = "Task " ++ task_id ++ " not found.").
Proof.
  intros Hv Hs Hr. unfold PoiesisTesClient.get_task. rewrite Hv. cbn [negb].
  rewrite (get_task_endpoint self task_id view Hv).
  unfold PoiesisTesClient.session_get.
  rewrite result_try_except, result_bind, result_request.
  match goal with
  | |- context [send ?r] => change r with (get_task_request self task_id view)
  end.
  rewrite Hs. unfold refused_status in Hr.
  destruct (Z.eqb_spec (status_code resp) 401) as [E1|E1].
  { eexists. split; [reflexivity | lia]. }
  destruct (Z.eqb_spec (status_code resp) 403) as [E2|E2].
  { eexists. split; [reflexivity | lia]. }
  destruct (Z.eqb_spec (status_code resp) 404) as [E3|E3].
  { eexists. split; reflexivity. }
  cbn [orb] in Hr. rewrite Hr.
  eexists. split; [reflexivity | contradiction].
Qed.

(** X3.  Whatever [create_task] raises is a plain [TESClientError] or a
    [TESServerError] with the text of the HTTPError clause. *)
Theorem create_task_error_classes (self : PoiesisTesClient.t)
    (task : TesTask.t) (e : exn) :
  result (PoiesisTesClient.create_task self task) = inl e ->
  cls e = TESClientError
  \/ (cls e = TESServerError
      /\ exists m, message e = "Failed to create task: " ++ m).
Proof.
  unfold PoiesisTesClient.create_task. rewrite result_try_except.
  destruct (result (bind _ _)) as [e0 | td]; [|discriminate].
  destruct (isinstance e0 HTTPError).
  - intros [= <-]. right. split; [reflexivity|]. now exists (message e0).
  - destruct (_ || _); intros [= <-]; now left.
Qed.

End ClientErrors.

(** ** The facades and the network *)

(** The exception is a [ValueError] and its text is one of those listed. *)
Ltac this_text :=
  first [ reflexivity | (eexists; reflexivity)
        | (do 2 eexists; reflexivity) ].

Ltac one_of_the_texts :=
  split;
  [ reflexivity
  | first [ this_text | (left; this_text) | (right; left; this_text)
          | (right; right; this_text) ] ].

Section FacadeTraces.
Context {W : World}.
Variable constants : Constants.t.

Lemma requests_try_quiet {A : Type} (m : M A) (h : exn -> M A) :
  (forall e, quiet (h e)) -> requests (try_except m h) = requests m.
Proof.
  intros Hh. rewrite requests_try_except.
  destruct (result m); [rewrite Hh|]; apply app_nil_r.
Qed.

Lemma requests_bind_quiet {A B : Type} (m : M A) (f : A -> M B) :
  quiet m ->
  requests (bind m f)
  = match result m with
    | inr a => requests (f a)
    | inl _ => []
    end.
Proof. intros Hm. now rewrite requests_bind, Hm. Qed.

Lemma requests_then_quiet {A B : Type} (m : M A) (f : A -> M B) :
  (forall a, quiet (f a)) -> requests (bind m f) = requests m.
Proof.
  intros Hf. rewrite requests_bind.
  destruct (result m); [|rewrite Hf]; apply app_nil_r.
Qed.

Lemma init_raises (b a : option string) (t : option Z) (e : exn) :
  result (PoiesisTesClient.init constants b a t) = inl e ->
  cls e = TESClientError.
Proof.
  unfold PoiesisTesClient.init.
  destruct (if truthy b then b else Constants.TES_URL constants)
    as [[|c u]|]; intros [= <-]; reflexivity.
Qed.

Lemma get_task_raises (self : PoiesisTesClient.t) (task_id : string)
    (view : option string) (e : exn) :
  result (PoiesisTesClient.get_task self task_id view) = inl e ->
  cls e = TESClientError \/ cls e = TESServerError.
Proof.
  unfold PoiesisTesClient.get_task.
  destruct (negb (str_in _ PoiesisTesClient.valid_views)).
  - intros [= <-]. now left.
  - rewrite result_try_except.
    destruct (result (bind _ _)) as [e0 | td]; [|discriminate].
    destruct (isinstance e0 HTTPError); [intros [= <-]; now right|].
    destruct (_ || _); intros [= <-]; now left.
Qed.

Lemma create_task_raises (self : PoiesisTesClient.t) (task : TesTask.t)
    (e : exn) :
  result (PoiesisTesClient.create_task self task) = inl e ->
  cls e = TESClientError \/ cls e = TESServerError.
Proof.
  unfold PoiesisTesClient.create_task. rewrite result_try_except.
  destruct (result (bind _ _)) as [e0 | td]; [|discriminate].
  destruct (isinstance e0 HTTPError); [intros [= <-]; now right|].
  destruct (_ || _); intros [= <-]; now left.
Qed.

Lemma calculate_task_duration_ret (creation_time : option string) :
  exists d, _calculate_task_duration creation_time = ret d.
Proof.
  destruct creation_time as [s|]; [|now exists (Fin 0)].
  rewrite calculate_task_duration_eq. eexists. reflexivity.
Qed.

Lemma try_except_raise_result {A : Type} (c : exn_class) (msg : string)
    (h : exn -> M A) :
  match result (raise c msg : M A) with
  | inl e => result (h e)
  | inr a => inr a
  end = result (h {| cls := c; message := msg |}).
Proof. reflexivity. Qed.

Lemma bind_ret {A B : Type} (a : A) (f : A -> M B) : bind (ret a) f = f a.
Proof. unfold bind, ret. now destruct (f a). Qed.

(** X4.  [wait_for_task_completion] raises nothing but [ValueError], with
    one of three texts: the one for an empty task id, the one for a server
    error, and the one for a client error.  The texts for a task that was
    not found and for failed authentication are never produced. *)
Theorem wait_error_messages (task_id : string) (max_wait_minutes : Z)
    (e : exn) :
  result (wait_for_task_completion constants task_id max_wait_minutes)
  = inl e ->
  cls e = ValueError
  /\ (message e = "An unexpected error occurred: Task ID cannot be empty."
      \/ message e = "TES server error during status check."
      \/ exists m,
           message e
           = "Client error checking task " ++ strip task_id ++ ": " ++ m).
Proof.
  unfold wait_for_task_completion, wait_for_task_completion_with.
  rewrite result_try_except.
  destruct (blank task_id).
  { cbn -[String.append]. intros [= <-]. one_of_the_texts. }
  rewrite result_bind.
  destruct (result (PoiesisTesClient.init _ _ _ _)) as [e0 | client] eqn:Ei.
  { apply init_raises in Ei. unfold isinstance. rewrite Ei.
    cbn -[String.append]. intros [= <-]. one_of_the_texts. }
  rewrite result_bind.
  destruct (result (PoiesisTesClient.get_task _ _ _)) as [e0 | td] eqn:Eg.
  { apply get_task_raises in Eg as [Eg | Eg]; unfold isinstance;
      rewrite Eg; cbn -[String.append]; intros [= <-]; one_of_the_texts. }
  destruct (calculate_task_duration_ret (getattr_creation_time td None))
    as [d ->].
  rewrite bind_ret. discriminate.
Qed.

(** X5.  [wait_for_task_completion] does not poll: a call issues at most
    one request, the GET of the task in the MINIMAL view, and none when
    the task id is blank or no client can be made. *)
Theorem wait_issues_one_request (task_id : string) (max_wait_minutes : Z) :
  requests (wait_for_task_completion constants task_id max_wait_minutes)
  = if blank task_id then []
    else match result (PoiesisTesClient.init constants None None None) with
         | inr client => [get_task_request client (strip task_id) "MINIMAL"]
         | inl _ => []
         end.
Proof.
  unfold wait_for_task_completion, wait_for_task_completion_with.
  rewrite requests_try_quiet by (intros; quiet_tac).
  destruct (blank task_id); [reflexivity|].
  rewrite requests_bind_quiet by apply init_quiet.
  destruct (result (PoiesisTesClient.init _ _ _ _)) as [e0 | client];
    [reflexivity|].
  rewrite requests_then_quiet.
  - now apply get_task_requests.
  - intros td.
    destruct (calculate_task_duration_ret (getattr_creation_time td None))
      as [d ->].
    rewrite bind_ret. reflexivity.
Qed.


(** X6.  [get_task_logic] raises nothing but [ValueError], and its text
    is that of the last clause, of the server-error clause or of the
    client-error clause; the clauses for a task that was not found and
    for failed authentication never run. *)
Theorem get_task_logic_error_messages (task_id view : string) (e : exn) :
  result (get_task_logic constants task_id view) = inl e ->
  cls e = ValueError
  /\ ((exists m,
         message e
         = "Unexpected error retrieving task "
           ++ (if blank task_id then task_id else strip task_id) ++ ": " ++ m)
      \/ (exists m,
            message e
            = "TES server error when retrieving task " ++ strip task_id
              ++ ": " ++ m ++ ". The service may be experiencing issues.")
      \/ (exists m,
            message e
            = "Client error when retrieving task " ++ strip task_id ++ ": "
              ++ m ++ ". Please check "
              ++ "your network connectivity and task ID format.")).
Proof.
  unfold get_task_logic. rewrite result_try_except.
  destruct (blank task_id).
  { cbn -[String.append]. intros [= <-]. one_of_the_texts. }
  destruct (negb (str_in _ _)).
  { cbn -[String.append]. intros [= <-]. one_of_the_texts. }
  rewrite result_bind.
  destruct (result (PoiesisTesClient.init _ _ _ _)) as [e0 | client] eqn:Ei.
  { apply init_raises in Ei. unfold isinstance. rewrite Ei.
    cbn -[String.append]. intros [= <-]. one_of_the_texts. }
  rewrite result_bind.
  destruct (result (PoiesisTesClient.get_task _ _ _)) as [e0 | td] eqn:Eg.
  { apply get_task_raises in Eg as [Eg | Eg]; unfold isinstance;
      rewrite Eg; cbn -[String.append]; intros [= <-]; one_of_the_texts. }
  rewrite result_bind.
  match goal with
  | |- context [result (if ?c then ?a else ?b)] =>
      destruct (result (if c then a else b)) as [e0 | data] eqn:Ed;
      [|discriminate]
  end.
  assert (Hc : cls e0 = ValueError).
  { unfold model_validate in Ed.
    destruct (String.eqb _ _);
      match type of Ed with
      | context [match ?v ?x with _ => _ end] => destruct (v x)
      end; cbn in Ed; try discriminate; now injection Ed as <-. }
  unfold isinstance. rewrite Hc.
  cbn -[String.append]. intros [= <-]. one_of_the_texts.
Qed.

(** X7.  A call of [get_task_logic] issues at most one request: the GET of
    the task in the normalised view, and none when the task id is blank,
    the view is none of the three, or no client can be made. *)
Theorem get_task_logic_issues_one_request (task_id view : string) :
  requests (get_task_logic constants task_id view)
  = if blank task_id then []
    else if negb (str_in (normalize_view view) ["MINIMAL"; "BASIC"; "FULL"])
    then []
    else match result (PoiesisTesClient.init constants None None None) with
         | inr client =>
             [get_task_request client (strip task_id) (normalize_view view)]
         | inl _ => []
         end.
Proof.
  unfold get_task_logic.
  rewrite requests_try_quiet by (intros; quiet_tac).
  destruct (blank task_id); [reflexivity|].
  destruct (str_in (normalize_view view) ["MINIMAL"; "BASIC"; "FULL"])
    eqn:Hv; [|reflexivity].
  cbn [negb].
  rewrite requests_bind_quiet by apply init_quiet.
  destruct (result (PoiesisTesClient.init _ _ _ _)) as [e0 | client];
    [reflexivity|].
  rewrite requests_then_quiet.
  - now apply get_task_requests.
  - intros td. quiet_tac.
Qed.

(** X8.  [create_task_logic] raises nothing but [ValueError], and its text
    is that of the last clause, of the server-error clause or of the
    client-error clause, the last two cut off where the source breaks the
    string; the authentication clause never runs. *)
Theorem create_task_logic_error_messages (task : TesTask.t) (e : exn) :
  result (create_task_logic constants task) = inl e ->
  cls e = ValueError
  /\ ((exists m,
         message e
         = "Unexpected error creating task '"
           ++ str_or (TesTask.name task) "Unnamed" ++ "': " ++ m)
      \/ (exists m,
            message e
            = "TES server error when creating task: " ++ m
              ++ ". The TES service may be ")
      \/ (exists m,
            message e
            = "Client error when creating task: " ++ m
              ++ ". Please check your task ")).
Proof.
  unfold create_task_logic. rewrite result_try_except.
  destruct (TesTask.executors task).
  { cbn -[String.append]. intros [= <-]. one_of_the_texts. }
  rewrite result_bind.
  destruct (TesTask.serializable task).
  2:{ cbn -[String.append]. intros [= <-]. one_of_the_texts. }
  cbn [result ret fst]. rewrite result_bind.
  destruct (result (PoiesisTesClient.init _ _ _ _)) as [e0 | client] eqn:Ei.
  { apply init_raises in Ei. unfold isinstance. rewrite Ei.
    cbn -[String.append]. intros [= <-]. one_of_the_texts. }
  rewrite result_bind.
  destruct (result (PoiesisTesClient.create_task _ _)) as [e0 | r] eqn:Eg.
  { apply create_task_raises in Eg as [Eg | Eg]; unfold isinstance;
      rewrite Eg; cbn -[String.append]; intros [= <-]; one_of_the_texts. }
  destruct (TesCreateTaskResponse.id r); [|discriminate].
  cbn -[String.append]. intros [= <-]. one_of_the_texts.
Qed.

(** X9.  A call of [create_task_logic] issues at most one request: the POST
    of the dump of the task, and none when the task has no executor,
    cannot be written as JSON, or no client can be made. *)
Theorem create_task_logic_issues_one_request (task : TesTask.t) :
  requests (create_task_logic constants task)
  = match TesTask.executors task with
    | [] => []
    | _ :: _ =>
        if TesTask.serializable task then
          match result (PoiesisTesClient.init constants None None None) with
          | inr client => [create_task_request client task]
          | inl _ => []
          end
        else []
    end.
Proof.
  unfold create_task_logic.
  rewrite requests_try_quiet by (intros; quiet_tac).
  destruct (TesTask.executors task); [reflexivity|].
  destruct (TesTask.serializable task); [|reflexivity].
  rewrite bind_ret.
  rewrite requests_bind_quiet by apply init_quiet.
  destruct (result (PoiesisTesClient.init _ _ _ _)) as [e0 | client];
    [reflexivity|].
  rewrite requests_then_quiet.
  - apply create_task_requests.
  - intros r. quiet_tac.
Qed.


Lemma raise_for_status_passes (resp : Response) :
  (status_code resp >=? 500) = false ->
  result (raise_for_status resp) = inr tt -> status_code resp < 400.
Proof.
  unfold raise_for_status. intros H5.
  rewrite Z.geb_leb in H5. apply Z.leb_gt in H5.
  destruct (Z.leb_spec 400 (status_code resp)); [|lia].
  destruct (Z.ltb_spec (status_code resp) 500); [discriminate|lia].
Qed.

(** X10.  When [create_task_logic] returns, the task has an executor, one
    client was made, the service answered its POST with a status below
    400 and a JSON document, and what is returned is that document
    validated, with an id that is not empty. *)
Theorem create_task_logic_success (task : TesTask.t)
    (r : TesCreateTaskResponse.t) :
  result (create_task_logic constants task) = inr r ->
  TesTask.executors task <> []
  /\ TesCreateTaskResponse.id r <> EmptyString
  /\ exists client resp body,
       result (PoiesisTesClient.init constants None None None) = inr client
       /\ send (create_task_request client task) = Responded resp
       /\ status_code resp < 400
       /\ json resp = inr body
       /\ TesCreateTaskResponse.model_validate body = Some r.
Proof.
  unfold create_task_logic. rewrite result_try_except.
  destruct (TesTask.executors task) as [|x xs] eqn:Ex.
  { rewrite try_except_raise_result. discriminate. }
  rewrite result_bind.
  destruct (TesTask.serializable task); [|discriminate].
  cbn [result ret fst]. rewrite result_bind.
  destruct (result (PoiesisTesClient.init _ _ _ _)) as [e0 | client] eqn:Ei.
  { destruct (isinstance e0 _); [discriminate|].
    destruct (isinstance e0 _); [discriminate|].
    destruct (isinstance e0 _); discriminate. }
  rewrite result_bind.
  destruct (result (PoiesisTesClient.create_task _ _)) as [e0 | r0] eqn:Ec.
  { destruct (isinstance e0 _); [discriminate|].
    destruct (isinstance e0 _); [discriminate|].
    destruct (isinstance e0 _); discriminate. }
  destruct (TesCreateTaskResponse.id r0) as [|c i] eqn:Eid; [discriminate|].
  intros [= <-]. split; [discriminate|]. split; [congruence|].
  exists client.
  unfold PoiesisTesClient.create_task, PoiesisTesClient.session_post in Ec.
  rewrite result_try_except, result_bind, result_request in Ec.
  fold (create_task_request client task) in Ec.
  destruct (send (create_task_request client task)) as [resp | e1].
  2:{ destruct (isinstance e1 HTTPError); [discriminate|].
      destruct (_ || _); discriminate. }
  exists resp.
  destruct (status_code resp =? 401).
  { discriminate. }
  destruct (status_code resp =? 403).
  { discriminate. }
  destruct (status_code resp >=? 500) eqn:E5.
  { discriminate. }
  rewrite result_bind in Ec.
  destruct (result (raise_for_status resp)) as [e1 | []] eqn:Er.
  { destruct (isinstance e1 HTTPError); [discriminate|].
    destruct (_ || _); discriminate. }
  rewrite result_bind in Ec. unfold response_json in Ec.
  destruct (json resp) as [msg | body]; [discriminate|].
  exists body. cbn [result ret fst] in Ec. rewrite result_bind in Ec.
  unfold model_validate in Ec.
  destruct (TesCreateTaskResponse.model_validate body) as [r1|];
    [|discriminate].
  cbn [result ret fst] in Ec.
  destruct (TesCreateTaskResponse.id r1); [discriminate|].
  injection Ec as ->.
  repeat split; try reflexivity. now apply raise_for_status_passes.
Qed.


Lemma MinimalTesTask_roundtrip (m : MinimalTesTask.t) :
  MinimalTesTask.model_validate (MinimalTesTask.model_dump m) = Some m.
Proof. now destruct m. Qed.

(** With another view than MINIMAL the client hands back a [TesTask] that
    validation has built. *)
Lemma get_task_full (self : PoiesisTesClient.t) (task_id view : string)
    (td : task_data) :
  String.eqb view "MINIMAL" = false ->
  result (PoiesisTesClient.get_task self task_id (Some view)) = inr td ->
  exists t, td = OfTesTask t /\ valid_task t.
Proof.
  intros Hm. unfold PoiesisTesClient.get_task.
  change (TesView.value TesView.MINIMAL) with "MINIMAL". rewrite Hm.
  destruct (negb (str_in view PoiesisTesClient.valid_views));
    [discriminate|].
  intros H.
  apply try_except_inr in H; [|intros e; apply get_task_handler_raises].
  apply bind_inr in H as (response & _ & H).
  repeat match type of H with
  | result (if ?c then _ else _) = _ => destruct c; [discriminate|]
  end.
  apply bind_inr in H as (_ & _ & H).
  apply bind_inr in H as (body & _ & H).
  apply bind_inr in H as (t & Ht & H).
  exists t. split; [now inversion H|].
  unfold model_validate in Ht.
  destruct (TesTask.model_validate body) as [t'|] eqn:Eb; [|discriminate].
  injection Ht as <-. now apply (TesTask_validated body).
Qed.

(** X11.  When the client hands a task to [get_task_logic], the facade
    returns: validating the dump of what the client returned cannot fail.
    The data of the answer is a minimal task as the client returned it,
    and a task after one more round trip, where each field that was
    [None] holds its default. *)
Theorem get_task_logic_returns_reparsed (task_id view : string)
    (client : PoiesisTesClient.t) (td : task_data) :
  blank task_id = false ->
  result (PoiesisTesClient.init constants None None None) = inr client ->
  result (PoiesisTesClient.get_task client (strip task_id)
            (Some (normalize_view view))) = inr td ->
  exists msg,
    result (get_task_logic constants task_id view)
    = inr {| rm_message := msg; rm_data := reparsed_data td |}.
Proof.
  intros Hb Hi Hg. unfold get_task_logic.
  rewrite result_try_except, Hb.
  destruct (str_in (normalize_view view) ["MINIMAL"; "BASIC"; "FULL"])
    eqn:Hv.
  2:{ rewrite (get_task_invalid_view _ _ _ Hv) in Hg. discriminate. }
  cbn [negb]. rewrite result_bind, Hi, result_bind, Hg, result_bind.
  destruct (String.eqb (normalize_view view) "MINIMAL") eqn:Hm.
  - apply String.eqb_eq in Hm. rewrite Hm in Hg.
    destruct (get_task_minimal _ _ _ Hg) as [m ->].
    unfold model_validate, task_data_dump.
    rewrite MinimalTesTask_roundtrip. eexists. reflexivity.
  - destruct (get_task_full _ _ _ _ Hm Hg) as (t & -> & Ht).
    unfold model_validate, task_data_dump.
    rewrite (TesTask_roundtrip t Ht). eexists. reflexivity.
Qed.

(** X12.  For a task in the BASIC or FULL view the message of
    [get_task_logic] never describes the state: the state is a member of
    [TesState] (or [None]) where the two helpers compare with the names,
    so the summary is the [Unknown state] one and the advice is that of
    the last branch. *)
Theorem get_task_logic_task_message (task_id view : string)
    (client : PoiesisTesClient.t) (t : TesTask.t) :
  blank task_id = false ->
  result (PoiesisTesClient.init constants None None None) = inr client ->
  result (PoiesisTesClient.get_task client (strip task_id)
            (Some (normalize_view view))) = inr (OfTesTask t) ->
  exists r,
    result (get_task_logic constants task_id view) = inr r
    /\ rm_message r
       = ("Task '" ++ str_of_optional (TesTask.name t) ++ "' (created "
          ++ str_of_optional (TesTask.creation_time t)
          ++ "): Unknown state: " ++ str_of_state (TesTask.state t))
         ++ String "010"
              ("Task is in " ++ str_of_state (TesTask.state t)
               ++ " state. Use wait_for_task_completion to monitor for"
               ++ "changes.").
Proof.
  intros Hb Hi Hg. unfold get_task_logic.
  rewrite result_try_except, Hb.
  destruct (str_in (normalize_view view) ["MINIMAL"; "BASIC"; "FULL"])
    eqn:Hv.
  2:{ rewrite (get_task_invalid_view _ _ _ Hv) in Hg. discriminate. }
  cbn [negb]. rewrite result_bind, Hi, result_bind, Hg, result_bind.
  destruct (String.eqb (normalize_view view) "MINIMAL") eqn:Hm.
  { apply String.eqb_eq in Hm. rewrite Hm in Hg.
    destruct (get_task_minimal _ _ _ Hg) as [m [=]]. }
  destruct (get_task_full _ _ _ _ Hm Hg) as (t' & [= <-] & Ht).
  unfold model_validate, task_data_dump.
  rewrite (TesTask_roundtrip t Ht). eexists. split; [reflexivity|].
  cbn [rm_message getattr_state getattr_name getattr_creation_time].
  destruct (TesTask.state t) as [[]|]; reflexivity.
Qed.


Lemma continue_unless_stopped (st : string) (d : pyfloat) (max_wait : Z) :
  t_should_continue_waiting
    (RESPONSE_TEMPLATES (_analyze_task_status st d max_wait))
  = negb (str_in st stop_states).
Proof.
  unfold _analyze_task_status, stop_states, str_in.
  cbn [existsb TesState.value].
  repeat match goal with
  | |- context [String.eqb st ?x] =>
      destruct (String.eqb_spec st x) as [-> | ?];
      [cbn -[geb]; first [reflexivity | destruct (geb _ _); reflexivity]|]
  end.
  reflexivity.
Qed.

Lemma continue_iff_wait_again (s : TaskStatus.t) :
  t_should_continue_waiting (RESPONSE_TEMPLATES s) = true
  <-> t_next_action (RESPONSE_TEMPLATES s) = Some "wait_for_task_completion".
Proof. destruct s; cbn; split; (reflexivity || discriminate). Qed.

(** X13.  In every report of [wait_for_task_completion] the flag
    [should_continue_waiting] is false exactly for the six states
    COMPLETE, EXECUTOR_ERROR, SYSTEM_ERROR, CANCELED, PAUSED and PREEMPTED
    (so true for CANCELING and for every name the client does not know),
    and the advised next action is to wait again exactly when the flag is
    true.  The report carries the trimmed task id. *)
Theorem wait_continues_unless_stopped (tid : string)
    (max_wait_minutes : Z) (p : payload) :
  result (wait_for_task_completion constants tid max_wait_minutes)
  = inr p ->
  should_continue_waiting p = negb (str_in (state p) stop_states)
  /\ (should_continue_waiting p = true
      <-> next_action p = Some "wait_for_task_completion")
  /\ task_id p = strip tid
  /\ success p = true.
Proof.
  unfold wait_for_task_completion, wait_for_task_completion_with.
  rewrite result_try_except.
  destruct (blank tid); [discriminate|].
  rewrite result_bind.
  destruct (result (PoiesisTesClient.init _ _ _ _)) as [e0 | client].
  { repeat (destruct (isinstance e0 _); [discriminate|]). discriminate. }
  rewrite result_bind.
  destruct (result (PoiesisTesClient.get_task _ _ _)) as [e0 | td].
  { repeat (destruct (isinstance e0 _); [discriminate|]). discriminate. }
  destruct (calculate_task_duration_ret (getattr_creation_time td None))
    as [d ->].
  rewrite bind_ret. intros [= <-].
  cbn [should_continue_waiting next_action state task_id success
       _build_response_payload].
  split; [apply continue_unless_stopped|].
  split; [apply continue_iff_wait_again|]. split; reflexivity.
Qed.

(** C10.  A [max_wait_minutes] that is zero or negative is replaced by 10
    before the task is classified, and the call is not refused for it.
    Whatever client the body finds and whatever task that client hands
    back, the call is the call with 10, and when the client hands back a
    task the report is the one built from the classification of its
    state and duration against 10, with 10 as the threshold of the
    message; so it is for [wait_for_task_completion] itself. *)
Theorem wait_nonpositive_max_wait_is_default {Client Task : Type}
    (client_class : M Client)
    (get_task : Client -> string -> option string -> M Task)
    (state_of : Task -> string) (name_of : Task -> string -> string)
    (creation_time_of : Task -> option string -> option string)
    (tid : string) (max_wait_minutes : Z) :
  max_wait_minutes <= 0 ->
  wait_for_task_completion_with constants client_class get_task state_of
    name_of creation_time_of tid max_wait_minutes
  = wait_for_task_completion_with constants client_class get_task state_of
      name_of creation_time_of tid 10
  /\ (forall client task,
        blank tid = false ->
        result client_class = inr client ->
        result (get_task client (strip tid) (Some "MINIMAL")) = inr task ->
        exists d,
          _calculate_task_duration (creation_time_of task None) = ret d
          /\ result
               (wait_for_task_completion_with constants client_class
                  get_task state_of name_of creation_time_of tid
                  max_wait_minutes)
             = inr (_build_response_payload
                      (_analyze_task_status (state_of task) d 10)
                      (strip tid) (name_of task "Unnamed Task")
                      (state_of task) d
                      (_calculate_adaptive_interval constants
                         (state_of task) d)
                      10))
  /\ wait_for_task_completion constants tid max_wait_minutes
     = wait_for_task_completion constants tid 10.
Proof.
  intros H.
  assert (E : effective_max_wait max_wait_minutes = 10).
  { unfold effective_max_wait.
    destruct (Z.leb_spec max_wait_minutes 0); [reflexivity | lia]. }
  split; [|split].
  - unfold wait_for_task_completion_with. rewrite E. reflexivity.
  - intros client task Hb Hc Hg.
    destruct (calculate_task_duration_ret (creation_time_of task None))
      as [d Hd].
    exists d. split; [exact Hd|].
    unfold wait_for_task_completion_with.
    rewrite result_try_except, Hb, result_bind, Hc, result_bind.
    change (TesView.value TesView.MINIMAL) with "MINIMAL".
    rewrite Hg, Hd, bind_ret, E. reflexivity.
  - unfold wait_for_task_completion, wait_for_task_completion_with.
    rewrite E. reflexivity.
Qed.

End FacadeTraces.

(** ** Making a client *)

Section InitFacts.

Lemma slashes_S (n : nat) :
  PosixPath.slashes (S n) = String "/" (PosixPath.slashes n).
Proof. unfold PosixPath.slashes. now destruct n. Qed.

(** [rstrip] takes trailing occurrences of the character away, and all of
    them. *)
Lemma rstrip_char_spec (s : string) :
  exists n,
    s = rstrip_char "/" s ++ PosixPath.slashes n
    /\ endswith_char "/" (rstrip_char "/" s) = false.
Proof.
  induction s as [|a s (n & Hs & He)]; [now exists 0%nat|].
  cbn [rstrip_char]. destruct (rstrip_char "/" s) as [|b r] eqn:Er.
  - destruct (Ascii.eqb_spec a "/") as [-> | Ha].
    + exists (S n). rewrite slashes_S. cbn in *. now rewrite <- Hs.
    + exists n. cbn in *. rewrite <- Hs. split; [reflexivity|].
      now apply Ascii.eqb_neq.
  - exists n. split; [|exact He]. cbn in *. now rewrite <- Hs.
Qed.

(** X14.  A client that [__init__] makes has the URL it was given (the
    argument when it is not empty, [TES_URL] otherwise) without its
    trailing slashes, however many there are: the base URL never ends in
    a slash. *)
Theorem init_strips_trailing_slashes (constants : Constants.t)
    (base_url auth_token : option string) (timeout : option Z)
    (self : PoiesisTesClient.t) :
  result (PoiesisTesClient.init constants base_url auth_token timeout)
  = inr self ->
  exists url n,
    (if truthy base_url then base_url else Constants.TES_URL constants)
    = Some url
    /\ url = PoiesisTesClient.base_url self ++ PosixPath.slashes n
    /\ endswith_char "/" (PoiesisTesClient.base_url self) = false.
Proof.
  unfold PoiesisTesClient.init.
  destruct (if truthy base_url then base_url else _) as [[|a u]|];
    try discriminate.
  intros [= <-]. cbn [PoiesisTesClient.base_url].
  destruct (rstrip_char_spec (String a u)) as (n & Hs & He).
  now exists (String a u), n.
Qed.

End InitFacts.

(** ** The configuration *)

Section ConfigurationFacts.
Context {W : World}.

(** X15.  In the configuration that [main] logs, the entry of the token
    is one of three fixed texts, whatever the token is; a token that is
    set shows as itself only when it is the default [asdf] (or the mask
    itself). *)
Theorem masked_config_hides_token (str_of_float : pyfloat -> string)
    (cls : Constants.t) :
  exists v,
    dict_get "REQUEST_TOKEN" (get_masked_config str_of_float cls) = Some v
    /\ (v = "***MASKED***" \/ v = "asdf" \/ v = "NOT_SET")
    /\ (Constants.REQUEST_TOKEN cls = Some v ->
        v = "asdf" \/ v = "***MASKED***").
Proof.
  unfold get_masked_config. cbn [dict_get String.eqb Ascii.eqb Bool.eqb].
  cbn -[str_or truthy String.eqb].
  destruct (Constants.REQUEST_TOKEN cls) as [[|a t]|].
  - eexists. split; [reflexivity|]. split; [auto | discriminate].
  - cbn [truthy andb].
    destruct (String.eqb_spec (String a t) "asdf") as [E | E].
    + rewrite E. eexists. split; [reflexivity|]. auto.
    + eexists. split; [reflexivity|]. auto.
  - eexists. split; [reflexivity|]. split; [auto | discriminate].
Qed.

Lemma health_check_eq (self : PoiesisTesClient.t) :
  PoiesisTesClient.health_check self
  = (inr match send (service_info_request self) with
         | Responded r => status_code r =? 200
         | Raised _ => false
         end,
     [service_info_request self]).
Proof.
  unfold PoiesisTesClient.health_check, PoiesisTesClient.session_get,
    request, try_except, bind, ret.
  fold (service_info_request self).
  now destruct (send (service_info_request self)).
Qed.

(** X16.  [validate_environment] never raises.  With a configuration that
    [validate_config] faults it returns those messages and stays off the
    network.  Otherwise a client can always be made (the clause for a
    failed initialisation never runs), exactly one request is issued, the
    one of the health check, and the verdict is [True] with no message or
    [False] with the one message that the service is not accessible. *)
Theorem validate_environment_outcomes (c : Constants.t) :
  (Constants.validate_config c <> [] ->
   validate_environment c = ret (false, Constants.validate_config c))
  /\ (Constants.validate_config c = [] ->
      exists url client,
        Constants.TES_URL c = Some url
        /\ result (PoiesisTesClient.init c None None None) = inr client
        /\ requests (validate_environment c) = [service_info_request client]
        /\ (result (validate_environment c) = inr (true, [])
            \/ result (validate_environment c)
               = inr (false,
                      ["TES service at " ++ url ++ " is not accessible."]))).
Proof.
  unfold validate_environment. split.
  - destruct (Constants.validate_config c); [congruence | reflexivity].
  - intros Hv. rewrite Hv.
    assert (Hu : truthy (Constants.TES_URL c) = true).
    { apply validate_config_nil in Hv. unfold url_missing in Hv.
      destruct (truthy (Constants.TES_URL c)); [reflexivity|].
      exfalso. apply Hv. now left. }
    unfold PoiesisTesClient.init. rewrite Hu. cbn [truthy].
    destruct (Constants.TES_URL c) as [[|a u]|]; try discriminate.
    exists (String a u). eexists. split; [reflexivity|].
    split; [reflexivity|].
    rewrite bind_ret, health_check_eq.
    match goal with
    | |- context [send ?r] => destruct (send r) as [resp | e]
    end; [destruct (status_code resp =? 200)|]; cbn -[String.append];
      auto.
Qed.

End ConfigurationFacts.

(** ** Paths of inputs and outputs *)

Module SerializedPaths.
Import PosixPath PathFacts.

Lemma parts_rooted n comps :
  (n = 1 \/ n = 2)%nat -> Forall clean comps ->
  parts (rooted n comps) = slashes n :: comps.
Proof.
  intros Hn Hc. unfold parts. rewrite (tail_rooted n comps Hn Hc).
  destruct (rooted_facts n comps Hn Hc) as (_ & _ & ->).
  now destruct Hn as [-> | ->].
Qed.

Lemma plain_kept (comp : string) :
  plain comp -> str_in comp [EmptyString; "."] = false.
Proof.
  intros (H1 & H2 & _). unfold str_in, existsb.
  destruct (String.eqb_spec comp EmptyString); [contradiction|].
  destruct (String.eqb_spec comp "."); [contradiction|]. reflexivity.
Qed.

Lemma kept_plain (s : string) :
  Forall plain
    (filter (fun x => negb (str_in x [EmptyString; "."]))
       (split_char "/" s)).
Proof.
  apply Forall_forall. intros x Hx. apply filter_In in Hx as [Hin Hk].
  pose proof (split_char_no_sep "/" s) as Hs.
  rewrite Forall_forall in Hs. specialize (Hs x Hin).
  unfold str_in, existsb in Hk.
  destruct (String.eqb_spec x EmptyString); [discriminate|].
  destruct (String.eqb_spec x "."); [discriminate|].
  repeat split; assumption.
Qed.

Lemma plain_head (comp : string) :
  plain comp -> exists a r, comp = String a r /\ Ascii.eqb "/" a = false.
Proof.
  intros (H1 & _ & H4). destruct comp as [|a r]; [congruence|].
  exists a, r. split; [reflexivity|]. simpl in H4.
  apply orb_false_iff in H4 as [H4 _]. now rewrite Ascii.eqb_sym.
Qed.

Lemma join_plain_head (comps : list string) :
  Forall plain comps ->
  join "/" comps = EmptyString
  \/ exists a r, join "/" comps = String a r /\ Ascii.eqb "/" a = false.
Proof.
  intros H. destruct comps as [|x xs]; [now left|]. right.
  inversion H as [|? ? Hx _]; subst.
  destruct (plain_head _ Hx) as (a & r & -> & Ha).
  destruct xs; simpl; eauto.
Qed.

Lemma rooted_plain n comps :
  (n = 1 \/ n = 2)%nat -> Forall plain comps ->
  startswith "/" (rooted n comps) = true
  /\ splitroot (rooted n comps) = (slashes n, join "/" comps).
Proof.
  intros Hn Hc. unfold rooted, splitroot.
  destruct (join_plain_head _ Hc) as [-> | (a & r & -> & Ha)];
    destruct Hn as [-> | ->]; cbn -[Ascii.eqb];
    rewrite ?Ascii.eqb_refl, ?Ha; cbn -[Ascii.eqb]; auto.
Qed.

Lemma str_rooted_plain n comps :
  (n = 1 \/ n = 2)%nat -> Forall plain comps ->
  str (rooted n comps) = rooted n comps.
Proof.
  intros Hn Hc. unfold str, tail.
  destruct (rooted_plain n comps Hn Hc) as (_ & ->). cbn [fst snd].
  assert (E : filter (fun x => negb (str_in x [EmptyString; "."]))
                (split_char "/" (join "/" comps)) = comps).
  { destruct comps as [|x xs]; [reflexivity|].
    rewrite split_join.
    - apply forallb_filter_id. apply forallb_forall. intros y Hy.
      rewrite Forall_forall in Hc. now rewrite (plain_kept _ (Hc y Hy)).
    - discriminate.
    - eapply Forall_impl; [|exact Hc]. now intros y (_ & _ & H). }
  rewrite E. fold (rooted n comps).
  pose proof (slashes_nonempty n (join "/" comps) Hn).
  unfold rooted in *. destruct (slashes n ++ join "/" comps); congruence.
Qed.

(** [str(Path(q))] of an absolute [q]: the root and the plain
    components. *)
Lemma str_of_absolute (q : string) :
  startswith "/" q = true ->
  exists n comps,
    (n = 1 \/ n = 2)%nat /\ Forall plain comps /\ str q = rooted n comps.
Proof.
  intros Hs. unfold str, tail, splitroot. rewrite Hs. cbn [negb].
  destruct (negb (startswith "//" q) || startswith "///" q); cbn [fst snd].
  - exists 1%nat. eexists. split; [now left|]. split; [apply kept_plain|].
    reflexivity.
  - exists 2%nat. eexists. split; [now right|]. split; [apply kept_plain|].
    reflexivity.
Qed.

Lemma startswith_slash_app (a b : string) :
  startswith "/" a = true -> startswith "/" (a ++ b) = true.
Proof.
  destruct a as [|c a]; [discriminate|]. cbn -[Ascii.eqb]. auto.
Qed.

Lemma path_join_absolute (cwd p : string) :
  startswith "/" cwd = true -> startswith "/" (path_join cwd p) = true.
Proof.
  intros Hc. unfold path_join.
  destruct (startswith "/" p) eqn:Hp; [exact Hp|].
  destruct cwd as [|c cwd]; [discriminate|].
  destruct (endswith_char "/" (String c cwd));
    now apply startswith_slash_app.
Qed.

Lemma absolute_spec (cwd p : string) :
  startswith "/" cwd = true ->
  exists n comps,
    (n = 1 \/ n = 2)%nat /\ Forall plain comps
    /\ absolute cwd p = rooted n comps.
Proof.
  intros Hc. unfold absolute.
  destruct (startswith "/" p) eqn:Hp.
  - now apply str_of_absolute.
  - apply str_of_absolute. now apply path_join_absolute.
Qed.

Lemma absolute_idempotent (cwd p : string) :
  startswith "/" cwd = true ->
  absolute cwd (absolute cwd p) = absolute cwd p.
Proof.
  intros Hc. destruct (absolute_spec cwd p Hc) as (n & comps & Hn & Hp & ->).
  unfold absolute at 1.
  destruct (rooted_plain n comps Hn Hp) as (-> & _).
  now apply str_rooted_plain.
Qed.

End SerializedPaths.

Section OutputPaths.
Import PosixPath PathFacts SerializedPaths.

(** X17.  [validate_path] accepts a path exactly when it starts with a
    slash and its normal form has at least two components under the
    root; what it returns is that normal form, one or two slashes
    followed by the components, none of them empty, [.] or [..]. *)
Theorem validate_path_characterised (p0 p : string) :
  TesOutput.validate_path p0 = inr p
  <-> startswith "/" p0 = true
      /\ p = normpath p0
      /\ exists n comps,
           (n = 1 \/ n = 2)%nat /\ Forall clean comps
           /\ (2 <= List.length comps)%nat
           /\ p = rooted n comps.
Proof.
  unfold TesOutput.validate_path. split.
  - destruct (startswith "/" p0) eqn:Hs; cbn [negb]; [|discriminate].
    destruct (normpath_absolute p0 Hs) as (n & comps & Hn & Hc & E).
    rewrite E, (parts_rooted n comps Hn Hc).
    destruct (Z.of_nat _ <? 3) eqn:Hl; [discriminate|].
    intros [= <-]. split; [reflexivity|]. split; [reflexivity|].
    exists n, comps. repeat split; try assumption.
    cbn [List.length] in Hl. apply Z.ltb_ge in Hl. lia.
  - intros (Hs & -> & n & comps & Hn & Hc & Hl & E).
    rewrite Hs, E, (parts_rooted n comps Hn Hc). cbn [negb List.length].
    destruct (Z.ltb_spec (Z.of_nat (S (List.length comps))) 3); [lia|].
    reflexivity.
Qed.

(** X18.  A path that [validate_path] has returned is left alone by
    [validate_path] and by the serializer of the field, in every working
    directory: an output that was validated is dumped and validated
    again with the same path. *)
Theorem validate_path_idempotent (p0 p : string) :
  TesOutput.validate_path p0 = inr p ->
  TesOutput.validate_path p = inr p
  /\ forall W : World, @TesOutput.serialize_path W p = p.
Proof.
  intros H. destruct (validate_path_fixed p0 p H) as [Hv Ha].
  split; [exact Hv|]. intros W. apply Ha.
Qed.

End OutputPaths.

Section InputPaths.
Context {W : World}.
Hypothesis cwd_absolute : startswith "/" getcwd = true.

(** X19.  The path of an input is not validated, and the serializer
    resolves it against the working directory of the server.  When that
    directory is absolute, whatever the path is, what is sent starts
    with a slash, has no empty component and no [.], and serializing it
    again changes nothing. *)
Theorem input_path_is_sent_absolute (path : string) :
  (exists n comps,
     (n = 1 \/ n = 2)%nat /\ Forall plain comps
     /\ TesInput.serialize_path path = rooted n comps)
  /\ startswith "/" (TesInput.serialize_path path) = true
  /\ TesInput.serialize_path (TesInput.serialize_path path)
     = TesInput.serialize_path path.
Proof.
  unfold TesInput.serialize_path.
  destruct (SerializedPaths.absolute_spec getcwd path cwd_absolute)
    as (n & comps & Hn & Hp & E).
  split; [now exists n, comps|]. split.
  - rewrite E. now apply SerializedPaths.rooted_plain.
  - now apply SerializedPaths.absolute_idempotent.
Qed.


Lemma or_default_idempotent {A : Type} (dflt : option A) (f : A -> A)
    (x : option A) :
  (forall a, f (f a) = f a) ->
  match dflt with Some v => f v = v | None => True end ->
  or_default dflt f (or_default dflt f x) = or_default dflt f x.
Proof.
  intros Hf Hd. destruct x as [a|]; cbn; [now rewrite Hf|].
  destruct dflt as [v|]; cbn; [now rewrite Hd | reflexivity].
Qed.

Lemma map_idempotent {A : Type} (f : A -> A) (l : list A) :
  (forall a, f (f a) = f a) -> map f (map f l) = map f l.
Proof. intros Hf. rewrite map_map. apply map_ext. exact Hf. Qed.

Ltac idempotent_field :=
  solve [ reflexivity
        | apply or_default_idempotent; [reflexivity | reflexivity] ].

Lemma Reparsed_TesInput_idempotent (m : TesInput.t) :
  Reparsed.TesInput (Reparsed.TesInput m) = Reparsed.TesInput m.
Proof.
  unfold Reparsed.TesInput. cbn. f_equal; try idempotent_field.
  unfold TesInput.serialize_path.
  now apply SerializedPaths.absolute_idempotent.
Qed.

Lemma Reparsed_TesOutput_idempotent (m : TesOutput.t) :
  Reparsed.TesOutput (Reparsed.TesOutput m) = Reparsed.TesOutput m.
Proof. unfold Reparsed.TesOutput. cbn. f_equal; idempotent_field. Qed.

Lemma Reparsed_TesResources_idempotent (m : TesResources.t) :
  Reparsed.TesResources (Reparsed.TesResources m) = Reparsed.TesResources m.
Proof. unfold Reparsed.TesResources. cbn. f_equal; idempotent_field. Qed.

Lemma Reparsed_TesExecutorLog_idempotent (m : TesExecutorLog.t) :
  Reparsed.TesExecutorLog (Reparsed.TesExecutorLog m)
  = Reparsed.TesExecutorLog m.
Proof. unfold Reparsed.TesExecutorLog. cbn. f_equal; idempotent_field. Qed.

Lemma Reparsed_TesTaskLog_idempotent (m : TesTaskLog.t) :
  Reparsed.TesTaskLog (Reparsed.TesTaskLog m) = Reparsed.TesTaskLog m.
Proof.
  unfold Reparsed.TesTaskLog. cbn. f_equal; try idempotent_field.
  apply map_idempotent. intros a. apply Reparsed_TesExecutorLog_idempotent.
Qed.

Lemma Reparsed_TesTask_idempotent (m : TesTask.t) :
  Reparsed.TesTask (Reparsed.TesTask m) = Reparsed.TesTask m.
Proof.
  unfold Reparsed.TesTask. cbn. f_equal; try idempotent_field.
  - apply or_default_idempotent; [|exact I].
    intros l. apply map_idempotent. intros a.
    apply Reparsed_TesInput_idempotent.
  - apply or_default_idempotent; [|exact I].
    intros l. apply map_idempotent. intros a.
    apply Reparsed_TesOutput_idempotent.
  - apply or_default_idempotent; [|exact I].
    apply Reparsed_TesResources_idempotent.
  - apply or_default_idempotent; [|exact I].
    intros l. apply map_idempotent. intros a.
    apply Reparsed_TesTaskLog_idempotent.
Qed.

Lemma Reparsed_valid (t : TesTask.t) :
  valid_task t -> valid_task (Reparsed.TesTask t).
Proof.
  unfold valid_task. cbn. intros Hv l.
  destruct (TesTask.outputs t) as [l0|]; [|discriminate].
  cbn. intros [= <-]. specialize (Hv l0 eq_refl).
  apply Forall_map. eapply Forall_impl; [|exact Hv].
  intros o Ho. exact Ho.
Qed.

(** X20.  One round trip settles a task: when the working directory is
    absolute, for a task as validation builds it, the task that comes
    back from [model_dump] and [model_validate] comes back from them
    unchanged, defaults and resolved input paths included. *)
Theorem second_roundtrip_changes_nothing (t : TesTask.t) :
  valid_task t ->
  TesTask.model_validate (TesTask.model_dump (Reparsed.TesTask t))
  = Some (Reparsed.TesTask t).
Proof.
  intros Hv. rewrite (TesTask_roundtrip _ (Reparsed_valid t Hv)).
  now rewrite Reparsed_TesTask_idempotent.
Qed.

End InputPaths.

(** ** What is sent has no null *)

Section NoNone.
Context {W : World}.

Lemma no_none_PDict (d : Pydantic.dict) :
  no_none_fields d -> no_none (PDict d) = true.
Proof. intros H. exact H. Qed.

Lemma no_none_app (d1 d2 : Pydantic.dict) :
  no_none_fields d1 -> no_none_fields d2 -> no_none_fields (d1 ++ d2)%list.
Proof.
  unfold no_none_fields. intros H1 H2. now rewrite forallb_app, H1, H2.
Qed.

Lemma no_none_dump_opt {A : Type} (ser : A -> pyvalue) (k : string)
    (x : option A) :
  (forall a, no_none (ser a) = true) -> no_none_fields (dump_opt ser k x).
Proof.
  unfold no_none_fields. intros H. destruct x as [a|]; cbn; [|reflexivity].
  now rewrite H.
Qed.

Lemma no_none_dump_req {A : Type} (ser : A -> pyvalue) (k : string)
    (x : A) :
  (forall a, no_none (ser a) = true) -> no_none_fields (dump_req ser k x).
Proof. unfold no_none_fields. intros H. cbn. now rewrite H. Qed.

Lemma no_none_ser_list {A : Type} (ser : A -> pyvalue) (l : list A) :
  (forall a, no_none (ser a) = true) -> no_none (ser_list ser l) = true.
Proof.
  intros H. unfold ser_list. cbn. apply forallb_forall.
  intros x Hx. apply in_map_iff in Hx as (a & <- & _). apply H.
Qed.

Lemma no_none_ser_dict (d : list (string * string)) :
  no_none (ser_dict d) = true.
Proof.
  unfold ser_dict. cbn. apply forallb_forall.
  intros x Hx. now apply in_map_iff in Hx as (a & <- & _).
Qed.

Ltac no_none_model := idtac.

Ltac no_none_fields :=
  repeat first
    [ reflexivity
    | progress intros
    | apply no_none_app
    | apply no_none_dump_opt
    | apply no_none_dump_req
    | apply no_none_ser_list
    | apply no_none_ser_dict
    | no_none_model ].

Lemma no_none_TesExecutor (m : TesExecutor.t) :
  no_none (TesExecutor.model_dump m) = true.
Proof. apply no_none_PDict. no_none_fields. Qed.

Lemma no_none_TesOutputFileLog (m : TesOutputFileLog.t) :
  no_none (TesOutputFileLog.model_dump m) = true.
Proof. apply no_none_PDict. no_none_fields. Qed.

Lemma no_none_TesExecutorLog (m : TesExecutorLog.t) :
  no_none (TesExecutorLog.model_dump m) = true.
Proof. apply no_none_PDict. no_none_fields. Qed.

Lemma no_none_TesInput (m : TesInput.t) :
  no_none (TesInput.model_dump m) = true.
Proof. apply no_none_PDict. no_none_fields. Qed.

Lemma no_none_TesOutput (m : TesOutput.t) :
  no_none (TesOutput.model_dump m) = true.
Proof. apply no_none_PDict. no_none_fields. Qed.

Lemma no_none_TesResources (m : TesResources.t) :
  no_none (TesResources.model_dump m) = true.
Proof. apply no_none_PDict. no_none_fields. Qed.

Ltac no_none_model ::=
  first [ apply no_none_TesExecutorLog | apply no_none_TesOutputFileLog ].

Lemma no_none_TesTaskLog (m : TesTaskLog.t) :
  no_none (TesTaskLog.model_dump m) = true.
Proof. apply no_none_PDict. no_none_fields. Qed.

Ltac no_none_model ::=
  first [ apply no_none_TesExecutor | apply no_none_TesInput
        | apply no_none_TesOutput | apply no_none_TesResources
        | apply no_none_TesTaskLog ].

(** X21.  The body of the request that [create_task] sends holds no null
    at any depth: the dump of a task leaves out every field that is
    [None], in the task and in every model nested in it. *)
Theorem create_task_sends_no_null (self : PoiesisTesClient.t)
    (task : TesTask.t) :
  exists body,
    json_body (create_task_request self task) = Some body
    /\ no_none body = true
    /\ map json_body (requests (PoiesisTesClient.create_task self task))
       = [Some body].
Proof.
  exists (TesTask.model_dump task). split; [reflexivity|]. split.
  - apply no_none_PDict. no_none_fields.
  - now rewrite create_task_requests.
Qed.

End NoNone.

(** ** The polling interval *)

Section Interval.
Variable constants : Constants.t.

(** X22.  With a positive [TASK_POLL_INTERVAL] the interval that
    [_calculate_adaptive_interval] returns is positive and at most three
    times the base: it lies between [min(2, base)] and [3 * base], for
    every state and every duration, NaN included. *)
Theorem adaptive_interval_bounds (state : string) (duration : pyfloat) :
  0 < Constants.TASK_POLL_INTERVAL constants ->
  Z.min 2 (Constants.TASK_POLL_INTERVAL constants)
  <= _calculate_adaptive_interval constants state duration
  <= 3 * Constants.TASK_POLL_INTERVAL constants.
Proof.
  intros Hb. unfold _calculate_adaptive_interval.
  repeat match goal with
  | |- context [if ?c then _ else _] => destruct c
  end; Z.to_euclidean_division_equations; lia.
Qed.

Lemma Qltb_lt (a b : Q) : Qltb a b = true <-> (a < b)%Q.
Proof. unfold Qltb, Qlt. apply Z.ltb_lt. Qed.

Lemma Qleb_le (a b : Q) : Qleb a b = true <-> (a <= b)%Q.
Proof. unfold Qleb, Qle. apply Z.leb_le. Qed.

(** What is not below a threshold stays so when it grows. *)
Lemma ltb_le_mono (d1 d2 : pyfloat) (k : Z) :
  le d1 d2 -> ltb d2 (of_int k) = true -> ltb d1 (of_int k) = true.
Proof.
  unfold le, of_int.
  destruct d1 as [a| | |], d2 as [b| | |]; cbn; try congruence.
  rewrite Qleb_le, !Qltb_lt. apply Qle_lt_trans.
Qed.

(** X23.  With a base of at least two seconds the interval never shrinks
    as the task gets older: for a fixed state, a longer duration gives an
    interval that is at least as long. *)
Theorem adaptive_interval_monotone (state : string) (d1 d2 : pyfloat) :
  2 <= Constants.TASK_POLL_INTERVAL constants ->
  le d1 d2 ->
  _calculate_adaptive_interval constants state d1
  <= _calculate_adaptive_interval constants state d2.
Proof.
  intros Hb Hd. unfold _calculate_adaptive_interval.
  pose proof (ltb_le_mono d1 d2 1 Hd) as H1.
  pose proof (ltb_le_mono d1 d2 5 Hd) as H5.
  pose proof (ltb_le_mono d1 d2 15 Hd) as H15.
  destruct (ltb d2 (of_int 1)); [rewrite H1 by reflexivity; lia|].
  destruct (ltb d2 (of_int 5)); [rewrite H5 by reflexivity|].
  - repeat match goal with
    | |- context [if ?c then _ else _] => destruct c
    end; Z.to_euclidean_division_equations; lia.
  - destruct (ltb d2 (of_int 15)); [rewrite H15 by reflexivity|];
      repeat match goal with
      | |- context [if ?c then _ else _] => destruct c
      end; Z.to_euclidean_division_equations; lia.
Qed.

End Interval.

(** ** The age of a task *)

Section Age.
Context {W : World}.

(** X24.  A creation time that [fromisoformat] reads without an offset
    counts as no time at all: the difference with the aware [now] raises
    [TypeError], which the function turns into 0.0. *)
Theorem duration_without_offset_is_zero (creation_time : string)
    (start_time : datetime) :
  fromisoformat (with_utc_offset creation_time) = Some start_time ->
  utcoffset start_time = None ->
  _calculate_task_duration (Some creation_time) = ret (Fin 0).
Proof.
  intros Hp Ho. rewrite calculate_task_duration_eq, Hp.
  unfold duration_of. rewrite Ho. now destruct creation_time.
Qed.

(** X25.  The duration is not clamped: for a creation time with an
    offset the result is a finite number that is negative exactly when
    the creation time lies after now, and zero exactly when the two
    coincide. *)
Theorem duration_sign (creation_time : string) (start_time : datetime)
    (offset : Z) :
  creation_time <> EmptyString ->
  fromisoformat (with_utc_offset creation_time) = Some start_time ->
  utcoffset start_time = Some offset ->
  exists q,
    _calculate_task_duration (Some creation_time) = ret (Fin q)
    /\ ((q < 0)%Q <-> clock < wall start_time - offset)
    /\ ((q == 0)%Q <-> clock = wall start_time - offset).
Proof.
  intros Hne Hp Ho. rewrite calculate_task_duration_eq, Hp.
  unfold duration_of. rewrite Ho.
  destruct (minutes_between_spec clock (wall start_time - offset))
    as (q & -> & Hlt & Hz & _).
  exists q. split; [now destruct creation_time|].
  split; assumption.
Qed.

End Age.

(** ** The summary of a state *)

Section Summary.

Lemma append_inj_l (a b c : string) : a ++ b = a ++ c -> b = c.
Proof.
  induction a as [|x a IH]; cbn; [auto|]. intros [= H]. auto.
Qed.

(** X26.  Of the eleven states of [TesState], CANCELING is the one whose
    name [_create_status_summary] does not know: for its name, and for
    no other, the summary ends with [Unknown state]. *)
Theorem status_summary_lacks_canceling (s : TesState.t)
    (name creation_time : string) :
  _create_status_summary (TesState.value s) name creation_time
  = "Task '" ++ name ++ "' (created " ++ creation_time ++ "): "
    ++ "Unknown state: " ++ TesState.value s
  <-> s = TesState.CANCELING.
Proof.
  split.
  - unfold _create_status_summary. intros H.
    change "Task '" with ("Task '" ++ EmptyString) in H at 1.
    destruct s; try reflexivity; cbn -[String.append] in H;
      do 5 apply append_inj_l in H; discriminate.
  - intros ->. reflexivity.
Qed.

End Summary.

(* ===================================================================== *)
(** * The further properties at work in the sample world *)

(** The service cannot be reached: the client raises a plain
    [TESClientError]. *)
Lemma get_task_error_classes_witness :
  exists e,
    result (@PoiesisTesClient.get_task Sample.unreachable Scenario.client
              "task-1" (Some "FULL")) = inl e
    /\ (cls e = TESClientError
        \/ (cls e = TESServerError
            /\ exists m,
                 message e = "Failed to retrieve task task-1: " ++ m)).
Proof.
  eexists. split; [reflexivity|].
  apply (@get_task_error_classes Sample.unreachable Scenario.client
           "task-1" (Some "FULL")).
  reflexivity.
Defined.

(** The service answers 404: what leaves the client is a plain
    [TESClientError], not a [TESTaskNotFoundError]. *)
Lemma get_task_refused_status_witness :
  result (@PoiesisTesClient.get_task Scenario.not_found Scenario.client
            "task-1" (Some "FULL"))
  = inl {| cls := TESClientError;
           message := "Unexpected error while retrieving task task-1: "
                      ++ "Task task-1 not found." |}.
Proof.
  destruct (@get_task_refused_status Scenario.not_found Scenario.client
              "task-1" "FULL" _ eq_refl eq_refl eq_refl) as (m & E & Hm).
  rewrite E, (Hm eq_refl). reflexivity.
Defined.

Lemma create_task_error_classes_witness :
  exists e,
    result (@PoiesisTesClient.create_task Sample.unreachable Scenario.client
              Sample.task_with_files) = inl e
    /\ (cls e = TESClientError
        \/ (cls e = TESServerError
            /\ exists m, message e = "Failed to create task: " ++ m)).
Proof.
  eexists. split; [reflexivity|].
  apply (@create_task_error_classes Sample.unreachable Scenario.client
           Sample.task_with_files).
  reflexivity.
Defined.

(** A task that is not there: the caller of [wait_for_task_completion]
    is told of a client error. *)
Lemma wait_error_messages_witness :
  exists e,
    result (@wait_for_task_completion Scenario.not_found Sample.constants
              "task-1" 10) = inl e
    /\ cls e = ValueError
    /\ message e
       = "Client error checking task task-1: "
         ++ "Unexpected error while retrieving task task-1: "
         ++ "Task task-1 not found.".
Proof.
  eexists. split; [reflexivity|].
  destruct (@wait_error_messages Scenario.not_found Sample.constants
              "task-1" 10 _ eq_refl) as [Hc _].
  split; [exact Hc | reflexivity].
Defined.

Lemma get_task_logic_error_messages_witness :
  exists e,
    result (@get_task_logic Scenario.not_found Sample.constants
              "task-1" "full") = inl e
    /\ cls e = ValueError.
Proof.
  eexists. split; [reflexivity|].
  apply (@get_task_logic_error_messages Scenario.not_found Sample.constants
           "task-1" "full" _ eq_refl).
Defined.

Lemma create_task_logic_error_messages_witness :
  exists e,
    result (@create_task_logic Sample.unreachable Sample.constants
              Sample.task_with_files) = inl e
    /\ cls e = ValueError.
Proof.
  eexists. split; [reflexivity|].
  apply (@create_task_logic_error_messages Sample.unreachable
           Sample.constants Sample.task_with_files _ eq_refl).
Defined.

Lemma create_task_logic_success_witness :
  result (@create_task_logic (Sample.serving Sample.running_task)
            Sample.constants Sample.task_with_files)
  = inr {| TesCreateTaskResponse.id := "task-1" |}
  /\ TesTask.executors Sample.task_with_files <> [].
Proof.
  split; [reflexivity|].
  apply (@create_task_logic_success (Sample.serving Sample.running_task)
           Sample.constants Sample.task_with_files
           {| TesCreateTaskResponse.id := "task-1" |} eq_refl).
Defined.

Lemma get_task_logic_returns_reparsed_witness :
  exists td msg,
    result (@PoiesisTesClient.get_task (Sample.serving Sample.running_task)
              Scenario.client "task-1" (Some "FULL")) = inr td
    /\ result (@get_task_logic (Sample.serving Sample.running_task)
                 Sample.constants "task-1" "full")
       = inr {| rm_message := msg;
                rm_data := @reparsed_data
                             (Sample.serving Sample.running_task) td |}.
Proof.
  eexists.
  destruct (@get_task_logic_returns_reparsed
              (Sample.serving Sample.running_task) Sample.constants
              "task-1" "full" Scenario.client _ eq_refl eq_refl eq_refl)
    as [msg E].
  exists msg. split; [reflexivity | exact E].
Defined.

Lemma get_task_logic_task_message_witness :
  exists r,
    result (@get_task_logic (Sample.serving Sample.running_task)
              Sample.constants "task-1" "full") = inr r
    /\ rm_message r
       = "Task 'align reads' (created 2024-01-01T00:00:00Z): "
         ++ "Unknown state: TesState.RUNNING"
         ++ String "010"
              ("Task is in TesState.RUNNING state. Use "
               ++ "wait_for_task_completion to monitor forchanges.").
Proof.
  destruct (@get_task_logic_task_message
              (Sample.serving Sample.running_task) Sample.constants
              "task-1" "full" Scenario.client _ eq_refl eq_refl eq_refl)
    as (r & E & Hm).
  exists r. split; [exact E|]. rewrite Hm. reflexivity.
Defined.

Lemma wait_continues_unless_stopped_witness :
  exists p,
    result (@wait_for_task_completion (Sample.serving Sample.running_task)
              Sample.constants "task-1" 5) = inr p
    /\ should_continue_waiting p = true
    /\ next_action p = Some "wait_for_task_completion".
Proof.
  eexists. split; [reflexivity|].
  destruct (@wait_continues_unless_stopped
              (Sample.serving Sample.running_task) Sample.constants
              "task-1" 5 _ eq_refl) as (Hs & Hn & _).
  split; [rewrite Hs; reflexivity|]. apply Hn. rewrite Hs. reflexivity.
Defined.

Lemma init_strips_trailing_slashes_witness :
  exists self,
    result (PoiesisTesClient.init Sample.constants
              (Some "http://tes.example///") None None) = inr self
    /\ PoiesisTesClient.base_url self = "http://tes.example"
    /\ endswith_char "/" (PoiesisTesClient.base_url self) = false.
Proof.
  eexists. split; [reflexivity|]. split; [reflexivity|].
  destruct (init_strips_trailing_slashes Sample.constants
              (Some "http://tes.example///") None None _ eq_refl)
    as (url & n & _ & _ & He).
  exact He.
Defined.

Lemma validate_path_idempotent_witness :
  TesOutput.validate_path "/data/./tmp/../outfile" = inr "/data/outfile"
  /\ TesOutput.validate_path "/data/outfile" = inr "/data/outfile".
Proof.
  split; [reflexivity|].
  apply (validate_path_idempotent "/data/./tmp/../outfile"
           "/data/outfile" eq_refl).
Defined.

(** A relative path of an input is sent under the working directory of
    the server. *)
Lemma input_path_is_sent_absolute_witness :
  @TesInput.serialize_path (Sample.serving Sample.running_task)
    "data/./file1" = "/srv/poiesis/data/file1"
  /\ startswith "/"
       (@TesInput.serialize_path (Sample.serving Sample.running_task)
          "data/./file1") = true.
Proof.
  split; [reflexivity|].
  apply (@input_path_is_sent_absolute (Sample.serving Sample.running_task)
           eq_refl "data/./file1").
Defined.

Lemma second_roundtrip_changes_nothing_witness :
  valid_task Sample.untyped_input_task
  /\ @TesTask.model_validate (Sample.serving Sample.running_task)
       (@TesTask.model_dump (Sample.serving Sample.running_task)
          (@Reparsed.TesTask (Sample.serving Sample.running_task)
             Sample.untyped_input_task))
     = Some (@Reparsed.TesTask (Sample.serving Sample.running_task)
               Sample.untyped_input_task).
Proof.
  assert (Hv : valid_task Sample.untyped_input_task).
  { intros l [=]. }
  split; [exact Hv|].
  apply (@second_roundtrip_changes_nothing
           (Sample.serving Sample.running_task) eq_refl
           Sample.untyped_input_task Hv).
Defined.

Lemma adaptive_interval_bounds_witness :
  0 < Constants.TASK_POLL_INTERVAL Sample.constants
  /\ 2 <= _calculate_adaptive_interval Sample.constants "RUNNING"
            (Fin 20) <= 15.
Proof.
  split; [reflexivity|].
  apply (adaptive_interval_bounds Sample.constants "RUNNING" (Fin 20)).
  reflexivity.
Defined.

Lemma adaptive_interval_monotone_witness :
  le (Fin 3) (Fin 7)
  /\ _calculate_adaptive_interval Sample.constants "RUNNING" (Fin 3)
     <= _calculate_adaptive_interval Sample.constants "RUNNING" (Fin 7).
Proof.
  split; [reflexivity|].
  apply (adaptive_interval_monotone Sample.constants "RUNNING"
           (Fin 3) (Fin 7)).
  - cbn. lia.
  - reflexivity.
Defined.

Lemma duration_without_offset_is_zero_witness :
  @_calculate_task_duration (Sample.serving Sample.running_task)
    (Some "2024-01-01T00:00:00") = ret (Fin 0).
Proof.
  eapply (@duration_without_offset_is_zero
            (Sample.serving Sample.running_task) "2024-01-01T00:00:00");
    reflexivity.
Defined.

(** A creation time ten minutes after now gives a negative duration. *)
Lemma duration_sign_witness :
  exists q,
    @_calculate_task_duration (Sample.serving Sample.running_task)
      (Some "2024-01-01T00:20:00Z") = ret (Fin q)
    /\ (q < 0)%Q.
Proof.
  destruct (@duration_sign (Sample.serving Sample.running_task)
              "2024-01-01T00:20:00Z" _ 0 ltac:(discriminate) eq_refl
              eq_refl) as (q & E & Hlt & _).
  exists q. split; [exact E|]. apply Hlt. reflexivity.
Defined.

(** A client that hands back a running task created ten minutes ago, and
    a call with [max_wait_minutes = -3]: the task has reached the
    threshold, which is 10. *)
Lemma wait_nonpositive_max_wait_is_default_witness :
  exists p,
    result
      (@wait_for_task_completion_with (Sample.serving Sample.running_task)
         unit Scenario.task_stub Sample.constants (ret tt)
         (Scenario.get_task_stub "RUNNING" (Some "2024-01-01T00:00:00Z"))
         fst (fun _ default => default) (fun task _ => snd task)
         "task-1" (-3)) = inr p
    /\ status p = "still_running_timeout"
    /\ message_ p
       = "Task 'Unnamed Task' running for 10.0 minutes, "
         ++ "exceeding threshold of 10 min.".
Proof.
  destruct (@wait_nonpositive_max_wait_is_default
              (Sample.serving Sample.running_task) Sample.constants
              unit Scenario.task_stub (ret tt)
              (Scenario.get_task_stub "RUNNING"
                 (Some "2024-01-01T00:00:00Z"))
              fst (fun _ default => default) (fun task _ => snd task)
              "task-1" (-3)) as (_ & Hp & _); [lia|].
  destruct (Hp tt ("RUNNING", Some "2024-01-01T00:00:00Z")
              eq_refl eq_refl eq_refl) as (d & Hd & Hr).
  vm_compute in Hd. injection Hd as <-.
  eexists. split; [exact Hr|]. split; vm_compute; reflexivity.
Defined.

(** With a task one minute younger the same call reports no timeout. *)
Example coerced_threshold_not_below_ten :
  exists p,
    result
      (@wait_for_task_completion_with (Sample.serving Sample.running_task)
         unit Scenario.task_stub Sample.constants (ret tt)
         (Scenario.get_task_stub "RUNNING" (Some "2024-01-01T00:01:00Z"))
         fst (fun _ default => default) (fun task _ => snd task)
         "task-1" (-3)) = inr p
    /\ status p = "still_running".
Proof. eexists. split; vm_compute; reflexivity. Qed.

(** Twenty-one seconds are the double next below 0.35 minutes. *)
Example duration_twenty_one_seconds :
  @_calculate_task_duration (Sample.serving Sample.running_task)
    (Some "2024-01-01T00:09:39Z")
  = ret (Fin (3152519739159347 # 9007199254740992)).
Proof. vm_compute. reflexivity. Qed.
